(** * ViralPay server: the earnings and withdrawal bookkeeping

    A shallow embedding of [server/routes.ts] and [shared/schema.ts].

    - A table of the relational schema is the list of its rows, oldest row
      first; [orderBy desc(createdAt)] reads the list backwards.
    - [gen_random_uuid()] is a counter of the store: identifiers are opaque
      and fresh.
    - A [decimal(18,8)] column and a JavaScript number holding an amount are
      exact fixed-point numbers: the integer [z] stands for [z * 10^-8].
      Binary floating-point rounding is outside the model.
    - A route handler is a computation in a state-and-exception monad over
      the store.  Every [await db. ...] is one statement; it throws when a
      constraint of the schema is violated or when the storage layer fails,
      which the [fault] counter of the store decides.  Nothing is rolled
      back: the source opens no transaction.
    - [req.session] is part of the state of one request; the session store
      and the request bodies' JSON parsing are Express's.
    - Requests are served one after the other: interleavings of concurrent
      handlers are outside the model. *)

From Stdlib Require Import ZArith List String Ascii Bool Lia DecimalString.
Import ListNotations.

Local Open Scope Z_scope.
Local Open Scope string_scope.

(** ** Values *)

Definition Id := nat.

(** A number with eight fractional digits, as an integer count of [10^-8]. *)
Definition decimal := Z.

Definition scale : Z := 100000000.

(** [units n] is the whole number [n]; [cents n] is [n] hundredths. *)
Definition units (n : Z) : decimal := n * scale.
Definition cents (n : Z) : decimal := n * 1000000.

(** SQL arithmetic on a nullable column: NULL is absorbing. *)
Definition sql_add (c : option Z) (k : Z) : option Z :=
  match c with Some v => Some (v + k) | None => None end.

Definition sql_sub (c : option Z) (k : Z) : option Z :=
  match c with Some v => Some (v - k) | None => None end.

(** [GREATEST(c - 1, 0)]: PostgreSQL's GREATEST ignores NULL arguments. *)
Definition sql_greatest_dec (c : option Z) : option Z :=
  match c with Some v => Some (Z.max (v - 1) 0) | None => Some 0 end.

(** JavaScript [x || d] on a nullable number: NULL and 0 are falsy. *)
Definition or_default (c : option Z) (d : Z) : Z :=
  match c with
  | Some v => if Z.eqb v 0 then d else v
  | None => d
  end.

(** ** Strings *)

Definition lower_ascii (c : ascii) : ascii :=
  let n := nat_of_ascii c in
  if andb (Nat.leb 65 n) (Nat.leb n 90) then ascii_of_nat (n + 32) else c.

Fixpoint toLowerCase (s : string) : string :=
  match s with
  | EmptyString => EmptyString
  | String c r => String (lower_ascii c) (toLowerCase r)
  end.

Definition is_space (c : ascii) : bool :=
  let n := nat_of_ascii c in
  orb (Nat.eqb n 32) (andb (Nat.leb 9 n) (Nat.leb n 13)).

Fixpoint trim_start (s : string) : string :=
  match s with
  | EmptyString => EmptyString
  | String c r => if is_space c then trim_start r else s
  end.

Fixpoint rev_string (s acc : string) : string :=
  match s with
  | EmptyString => acc
  | String c r => rev_string r (String c acc)
  end.

Definition trim (s : string) : string :=
  rev_string (trim_start (rev_string (trim_start s) EmptyString)) EmptyString.

Definition show_nat (n : nat) : string := NilZero.string_of_uint (Nat.to_uint n).

Fixpoint pad_left (width : nat) (s : string) : string :=
  match width with
  | O => s
  | S w => if Nat.ltb (String.length s) width then pad_left w ("0" ++ s) else s
  end.

Fixpoint strip_zeros_rev (s : string) : string :=
  match s with
  | String "0"%char r => strip_zeros_rev r
  | _ => s
  end.

(** [Number.prototype.toString] on an amount: the integer part, then the
    fractional digits without trailing zeros when there are any.  (Numbers
    below [10^-6] in magnitude, which JavaScript prints with an exponent,
    are never printed by the server: only amounts of at least 10 reach a
    message.) *)
Definition show_number (d : decimal) : string :=
  let a := Z.abs d in
  let whole := show_nat (Z.to_nat (a / scale)) in
  let frac := Z.to_nat (a mod scale) in
  let sign := if Z.ltb d 0 then "-" else "" in
  match frac with
  | O => sign ++ whole
  | _ =>
      let digits := pad_left 8 (show_nat frac) in
      sign ++ whole ++ "." ++
        rev_string (strip_zeros_rev (rev_string digits EmptyString)) EmptyString
  end.

(** ** JSON bodies *)

#[local] Set Warnings "-register-all".

Inductive json : Type :=
| JNull
| JBool (b : bool)
| JInt (z : Z)
| JDec (d : decimal)
| JStr (s : string)
| JArr (items : list json)
| JObj (fields : list (string * json)).

Definition jopt {A : Type} (f : A -> json) (o : option A) : json :=
  match o with Some a => f a | None => JNull end.

Definition JId (i : Id) : json := JInt (Z.of_nat i).

Record Response : Type := mkResponse {
  status : Z;
  body : json
}.

Definition message_body (m : string) : json := JObj [("message", JStr m)].

(** [res.status(code).json({ message })] *)
Definition respond (code : Z) (m : string) : Response :=
  mkResponse code (message_body m).

(** [res.json(value)] *)
Definition ok (value : json) : Response := mkResponse 200 value.

(** ** Rows of the schema

    One module per table of [shared/schema.ts], named after the row type the
    schema exports.  A column without [notNull()] is an [option].  The
    timestamps and the columns that no route reads or writes are left out. *)

Module User.
Record t : Type := mk {
  id : Id;
  email : string;
  username : string;
  password : string;
  displayName : option string;
  bio : option string;
  avatarUrl : option string;
  isAdmin : option bool;
  isVerified : option bool;
  isBanned : option bool;
  totalEarnings : option decimal;
  availableBalance : option decimal;
  withdrawnAmount : option decimal;
  followerCount : option Z;
  followingCount : option Z
}.

Definition set_availableBalance (f : option decimal -> option decimal) (u : t) : t :=
  mk (id u) (email u) (username u) (password u) (displayName u) (bio u)
     (avatarUrl u) (isAdmin u) (isVerified u) (isBanned u) (totalEarnings u)
     (f (availableBalance u)) (withdrawnAmount u) (followerCount u)
     (followingCount u).

Definition set_followerCount (f : option Z -> option Z) (u : t) : t :=
  mk (id u) (email u) (username u) (password u) (displayName u) (bio u)
     (avatarUrl u) (isAdmin u) (isVerified u) (isBanned u) (totalEarnings u)
     (availableBalance u) (withdrawnAmount u) (f (followerCount u))
     (followingCount u).

Definition set_followingCount (f : option Z -> option Z) (u : t) : t :=
  mk (id u) (email u) (username u) (password u) (displayName u) (bio u)
     (avatarUrl u) (isAdmin u) (isVerified u) (isBanned u) (totalEarnings u)
     (availableBalance u) (withdrawnAmount u) (followerCount u)
     (f (followingCount u)).
End User.

Module Video.
Record t : Type := mk {
  id : Id;
  userId : Id;
  caption : option string;
  videoUrl : string;
  duration : Z;
  width : option Z;
  height : option Z;
  viewCount : option Z;
  likeCount : option Z;
  commentCount : option Z;
  adImpressions : option Z;
  isPublished : option bool;
  isDeleted : option bool;
  hashtags : list string
}.

Definition set_likeCount (f : option Z -> option Z) (v : t) : t :=
  mk (id v) (userId v) (caption v) (videoUrl v) (duration v) (width v)
     (height v) (viewCount v) (f (likeCount v)) (commentCount v)
     (adImpressions v) (isPublished v) (isDeleted v) (hashtags v).

Definition set_commentCount (f : option Z -> option Z) (v : t) : t :=
  mk (id v) (userId v) (caption v) (videoUrl v) (duration v) (width v)
     (height v) (viewCount v) (likeCount v) (f (commentCount v))
     (adImpressions v) (isPublished v) (isDeleted v) (hashtags v).
End Video.

Module Like.
Record t : Type := mk { id : Id; userId : Id; videoId : Id }.
End Like.

Module Comment.
Record t : Type := mk {
  id : Id;
  userId : Id;
  videoId : Id;
  parentId : option Id;
  content : string;
  likeCount : option Z;
  isDeleted : option bool
}.
End Comment.

Module Follow.
Record t : Type := mk { id : Id; followerId : Id; followingId : Id }.
End Follow.

Module Withdrawal.
Record t : Type := mk {
  id : Id;
  userId : Id;
  amount : decimal;
  walletAddress : string;
  network : string;
  status : string;
  txHash : option string;
  adminNotes : option string;
  processedAt : option nat
}.
End Withdrawal.

Module Notification.
Record t : Type := mk {
  id : Id;
  userId : Id;
  type : string;
  title : string;
  message : string;
  data : json;
  isRead : option bool
}.

Definition set_isRead (b : option bool) (n : t) : t :=
  mk (id n) (userId n) (type n) (title n) (message n) (data n) b.
End Notification.

(** ** The database *)

Record Db : Type := mkDb {
  users : list User.t;
  videos : list Video.t;
  likes : list Like.t;
  comments : list Comment.t;
  follows : list Follow.t;
  withdrawals : list Withdrawal.t;
  notifications : list Notification.t;
  next_id : nat
}.

Definition empty_db : Db := mkDb [] [] [] [] [] [] [] 0.

Definition with_users (f : list User.t -> list User.t) (d : Db) : Db :=
  mkDb (f (users d)) (videos d) (likes d) (comments d) (follows d)
       (withdrawals d) (notifications d) (next_id d).

Definition with_videos (f : list Video.t -> list Video.t) (d : Db) : Db :=
  mkDb (users d) (f (videos d)) (likes d) (comments d) (follows d)
       (withdrawals d) (notifications d) (next_id d).

Definition with_likes (f : list Like.t -> list Like.t) (d : Db) : Db :=
  mkDb (users d) (videos d) (f (likes d)) (comments d) (follows d)
       (withdrawals d) (notifications d) (next_id d).

Definition with_comments (f : list Comment.t -> list Comment.t) (d : Db) : Db :=
  mkDb (users d) (videos d) (likes d) (f (comments d)) (follows d)
       (withdrawals d) (notifications d) (next_id d).

Definition with_follows (f : list Follow.t -> list Follow.t) (d : Db) : Db :=
  mkDb (users d) (videos d) (likes d) (comments d) (f (follows d))
       (withdrawals d) (notifications d) (next_id d).

Definition with_withdrawals (f : list Withdrawal.t -> list Withdrawal.t) (d : Db) : Db :=
  mkDb (users d) (videos d) (likes d) (comments d) (follows d)
       (f (withdrawals d)) (notifications d) (next_id d).

Definition with_notifications (f : list Notification.t -> list Notification.t) (d : Db) : Db :=
  mkDb (users d) (videos d) (likes d) (comments d) (follows d)
       (withdrawals d) (f (notifications d)) (next_id d).

(** The identifier [gen_random_uuid()] yields, and the store after it. *)
Definition fresh (d : Db) : Id * Db :=
  (next_id d,
   mkDb (users d) (videos d) (likes d) (comments d) (follows d)
        (withdrawals d) (notifications d) (S (next_id d))).

Definition user_exists (i : Id) (d : Db) : bool :=
  existsb (fun u => Nat.eqb (User.id u) i) (users d).

Definition video_exists (i : Id) (d : Db) : bool :=
  existsb (fun v => Nat.eqb (Video.id v) i) (videos d).

(** ** Handlers as computations

    [result] is what one statement or one handler body yields: a value, or
    the message of the exception it threw. *)

Inductive result (A : Type) : Type :=
| Ok (a : A)
| Threw (message : string).

Arguments Ok {A} a.
Arguments Threw {A} message.

(** [req.sessionID] and [req.session.userId]. *)
Module Session.
Record t : Type := mk {
  sessionID : string;
  userId : option Id
}.
End Session.

(** What a handler runs against.  [fault = Some n] makes the statement
    after the next [n] fail in the storage layer; [None] lets all run. *)
Record Store : Type := mkStore {
  db : Db;
  session : Session.t;
  fault : option nat
}.

Definition M (A : Type) : Type := Store -> result A * Store.

Definition ret {A : Type} (a : A) : M A := fun s => (Ok a, s).

Definition throw {A : Type} (message : string) : M A := fun s => (Threw message, s).

Definition bind {A B : Type} (m : M A) (k : A -> M B) : M B :=
  fun s =>
    match m s with
    | (Ok a, s') => k a s'
    | (Threw e, s') => (Threw e, s')
    end.

Declare Scope handler_scope.
Delimit Scope handler_scope with handler.
Bind Scope handler_scope with M.

Notation "x <- m ;; k" := (bind m (fun x => k))
  (at level 100, m at next level, right associativity) : handler_scope.
Notation "m ;;; k" := (bind m (fun _ => k))
  (at level 100, right associativity) : handler_scope.

Local Open Scope handler_scope.

(** [try { body } catch (error) { handler(error.message) }] *)
Definition try_catch {A : Type} (body : M A) (handler : string -> M A) : M A :=
  fun s =>
    match body s with
    | (Ok a, s') => (Ok a, s')
    | (Threw e, s') => handler e s'
    end.

(** A statement of the storage layer, seen from the database. *)
Definition Stmt (A : Type) : Type := Db -> result A * Db.

Definition storage_failure : string := "Connection terminated unexpectedly".

(** [await stmt]: run one statement, unless the storage layer fails now. *)
Definition await {A : Type} (stmt : Stmt A) : M A :=
  fun s =>
    match fault s with
    | Some O => (Threw storage_failure, mkStore (db s) (session s) None)
    | Some (S n) =>
        let (r, d) := stmt (db s) in (r, mkStore d (session s) (Some n))
    | None =>
        let (r, d) := stmt (db s) in (r, mkStore d (session s) None)
    end.

Definition get_session : M Session.t := fun s => (Ok (session s), s).

Definition set_session (v : Session.t) : M unit :=
  fun s => (Ok tt, mkStore (db s) v (fault s)).

(** JavaScript [error.message || fallback]. *)
Definition message_or (m fallback : string) : string :=
  match m with EmptyString => fallback | _ => m end.

(** The [requireAuth] middleware; [next] receives [req.session.userId!]. *)
Definition requireAuth (next : Id -> M Response) : M Response :=
  s <- get_session ;;
  match Session.userId s with
  | None => ret (respond 401 "Unauthorized")
  | Some uid => next uid
  end.

(** ** Statements

    A query reads; an insert checks the constraints of the schema (unique
    columns, foreign keys, [notNull()]) and throws when one is violated. *)

Definition select {A : Type} (q : Db -> A) : Stmt A := fun d => (Ok (q d), d).

Definition execute (f : Db -> Db) : Stmt unit := fun d => (Ok tt, f d).

Definition unique_violation (column : string) : string :=
  "duplicate key value violates unique constraint " ++ column.

Definition foreign_key_violation (column : string) : string :=
  "insert violates foreign key constraint " ++ column.

Definition not_null_violation (column : string) : string :=
  "null value violates not-null constraint in column " ++ column.

Definition insert_user (email username password : string)
    (displayName : option string) : Stmt User.t :=
  fun d =>
    if existsb (fun u => String.eqb (User.email u) email) (users d) then
      (Threw (unique_violation "users_email_unique"), d)
    else if existsb (fun u => String.eqb (User.username u) username) (users d) then
      (Threw (unique_violation "users_username_unique"), d)
    else
      let (i, d') := fresh d in
      let row := User.mk i email username password displayName None None
                   (Some false) (Some false) (Some false)
                   (Some 0) (Some 0) (Some 0) (Some 0) (Some 0) in
      (Ok row, with_users (fun l => l ++ [row])%list d').

Definition update_users (where_ : User.t -> bool) (set : User.t -> User.t) : Stmt unit :=
  execute (with_users (map (fun u => if where_ u then set u else u))).

Definition insert_video (userId : Id) (videoUrl : string) (caption : option string)
    (duration width height : Z) (hashtags : list string) : Stmt Video.t :=
  fun d =>
    if negb (user_exists userId d) then
      (Threw (foreign_key_violation "videos_user_id_users_id_fk"), d)
    else
      let (i, d') := fresh d in
      let row := Video.mk i userId caption videoUrl duration (Some width)
                   (Some height) (Some 0) (Some 0) (Some 0) (Some 0)
                   (Some true) (Some false) hashtags in
      (Ok row, with_videos (fun l => l ++ [row])%list d').

Definition update_videos (where_ : Video.t -> bool) (set : Video.t -> Video.t) : Stmt unit :=
  execute (with_videos (map (fun v => if where_ v then set v else v))).

Definition insert_like (userId videoId : Id) : Stmt Like.t :=
  fun d =>
    if negb (user_exists userId d) then
      (Threw (foreign_key_violation "likes_user_id_users_id_fk"), d)
    else if negb (video_exists videoId d) then
      (Threw (foreign_key_violation "likes_video_id_videos_id_fk"), d)
    else
      let (i, d') := fresh d in
      let row := Like.mk i userId videoId in
      (Ok row, with_likes (fun l => l ++ [row])%list d').

Definition delete_likes (where_ : Like.t -> bool) : Stmt unit :=
  execute (with_likes (filter (fun l => negb (where_ l)))).

Definition insert_comment (userId videoId : Id) (content : string)
    (parentId : option Id) : Stmt Comment.t :=
  fun d =>
    if negb (user_exists userId d) then
      (Threw (foreign_key_violation "comments_user_id_users_id_fk"), d)
    else if negb (video_exists videoId d) then
      (Threw (foreign_key_violation "comments_video_id_videos_id_fk"), d)
    else
      let (i, d') := fresh d in
      let row := Comment.mk i userId videoId parentId content (Some 0) (Some false) in
      (Ok row, with_comments (fun l => l ++ [row])%list d').

Definition insert_follow (followerId followingId : Id) : Stmt Follow.t :=
  fun d =>
    if negb (user_exists followerId d) then
      (Threw (foreign_key_violation "follows_follower_id_users_id_fk"), d)
    else if negb (user_exists followingId d) then
      (Threw (foreign_key_violation "follows_following_id_users_id_fk"), d)
    else
      let (i, d') := fresh d in
      let row := Follow.mk i followerId followingId in
      (Ok row, with_follows (fun l => l ++ [row])%list d').

Definition delete_follows (where_ : Follow.t -> bool) : Stmt unit :=
  execute (with_follows (filter (fun f => negb (where_ f)))).

(** [status] is always given by the caller; [txHash], [adminNotes] and
    [processedAt] start NULL. *)
Definition insert_withdrawal (userId : Id) (amount : decimal)
    (walletAddress network : option string) (status : string) : Stmt Withdrawal.t :=
  fun d =>
    match walletAddress, network with
    | None, _ => (Threw (not_null_violation "wallet_address"), d)
    | Some _, None => (Threw (not_null_violation "network"), d)
    | Some w, Some n =>
        if negb (user_exists userId d) then
          (Threw (foreign_key_violation "withdrawals_user_id_users_id_fk"), d)
        else
          let (i, d') := fresh d in
          let row := Withdrawal.mk i userId amount w n status None None None in
          (Ok row, with_withdrawals (fun l => l ++ [row])%list d')
    end.

Definition insert_notification (userId : Id) (type title message : string)
    (data : json) : Stmt Notification.t :=
  fun d =>
    if negb (user_exists userId d) then
      (Threw (foreign_key_violation "notifications_user_id_users_id_fk"), d)
    else
      let (i, d') := fresh d in
      let row := Notification.mk i userId type title message data (Some false) in
      (Ok row, with_notifications (fun l => l ++ [row])%list d').

Definition update_notifications (where_ : Notification.t -> bool)
    (set : Notification.t -> Notification.t) : Stmt unit :=
  execute (with_notifications (map (fun n => if where_ n then set n else n))).

(** ** JavaScript helpers of the handlers *)

(** [!value] on a body field that is a string or missing. *)
Definition falsy (v : option string) : bool :=
  match v with
  | None => true
  | Some EmptyString => true
  | Some _ => false
  end.

(** [amount > bound] and [amount < bound]; a missing amount is [undefined],
    which compares false both ways. *)
Definition js_gt (amount : option decimal) (bound : decimal) : bool :=
  match amount with Some a => Z.ltb bound a | None => false end.

Definition js_lt (amount : option decimal) (bound : decimal) : bool :=
  match amount with Some a => Z.ltb a bound | None => false end.

Definition type_error (property : string) : string :=
  "Cannot read properties of undefined (reading '" ++ property ++ "')".

(** [value.method()] on a body field: a TypeError when it is missing. *)
Definition defined {A : Type} (property : string) (v : option A) : M A :=
  match v with
  | Some a => ret a
  | None => throw (type_error property)
  end.

(** bcrypt is an external library: the hash is idealised as a tagged copy
    of the password (no salt, no collisions). *)
Definition bcrypt_hash (password : string) : string := "$2a$10$" ++ password.

Definition bcrypt_compare (password hash : string) : bool :=
  String.eqb (bcrypt_hash password) hash.

Definition is_digit (c : ascii) : bool :=
  andb (Nat.leb 48 (nat_of_ascii c)) (Nat.leb (nat_of_ascii c) 57).

Fixpoint parse_digits (s : string) (acc : option Z) : option Z :=
  match s with
  | String c r =>
      if is_digit c then
        parse_digits r
          (Some (10 * match acc with Some a => a | None => 0 end
                 + Z.of_nat (nat_of_ascii c - 48)))
      else acc
  | EmptyString => acc
  end.

(** [parseInt(text)] in base ten; [None] is NaN. *)
Definition parseInt (text : option string) : option Z :=
  match text with
  | None => None
  | Some s =>
      match trim_start s with
      | String "-"%char r => option_map Z.opp (parse_digits r None)
      | String "+"%char r => parse_digits r None
      | r => parse_digits r None
      end
  end.

Fixpoint split_on (sep : ascii -> bool) (s : string) (current : string) : list string :=
  match s with
  | EmptyString => [rev_string current EmptyString]
  | String c r =>
      if sep c then rev_string current EmptyString :: split_on sep r EmptyString
      else split_on sep r (String c current)
  end.

Definition is_tag_separator (c : ascii) : bool :=
  orb (is_space c) (orb (Ascii.eqb c ","%char) (Ascii.eqb c "#"%char)).

(** [hashtags.split(/[,\s#]+/).filter(tag => tag.trim())]: splitting at
    every separator and dropping the empty pieces gives the same tags as
    splitting at runs of separators. *)
Definition split_hashtags (hashtags : option string) : list string :=
  match hashtags with
  | None => []
  | Some EmptyString => []
  | Some s =>
      filter (fun tag => negb (String.eqb (trim tag) EmptyString))
             (split_on is_tag_separator s EmptyString)
  end.

Definition dquote : string := String (ascii_of_nat 34) EmptyString.

(** [`${user?.username}`] *)
Definition username_or_undefined (u : option User.t) : string :=
  match u with Some r => User.username r | None => "undefined" end.

Fixpoint traverse {A B : Type} (f : A -> option B) (l : list A) : option (list B) :=
  match l with
  | [] => Some []
  | a :: r =>
      match f a, traverse f r with
      | Some b, Some bs => Some (b :: bs)
      | _, _ => None
      end
  end.

(** ** Rows as JSON *)

Definition account_json (u : User.t) : json :=
  JObj [("id", JId (User.id u));
        ("email", JStr (User.email u));
        ("username", JStr (User.username u));
        ("displayName", jopt JStr (User.displayName u));
        ("avatarUrl", jopt JStr (User.avatarUrl u));
        ("isVerified", jopt JBool (User.isVerified u));
        ("isAdmin", jopt JBool (User.isAdmin u));
        ("totalEarnings", jopt JDec (User.totalEarnings u));
        ("availableBalance", jopt JDec (User.availableBalance u));
        ("followerCount", jopt JInt (User.followerCount u));
        ("followingCount", jopt JInt (User.followingCount u))].

Definition author_json (verified : bool) (u : User.t) : json :=
  JObj ([("id", JId (User.id u));
         ("username", JStr (User.username u));
         ("displayName", jopt JStr (User.displayName u));
         ("avatarUrl", jopt JStr (User.avatarUrl u))]
        ++ (if verified then [("isVerified", jopt JBool (User.isVerified u))] else []))%list.

Definition video_fields (v : Video.t) : list (string * json) :=
  [("id", JId (Video.id v));
   ("userId", JId (Video.userId v));
   ("caption", jopt JStr (Video.caption v));
   ("videoUrl", JStr (Video.videoUrl v));
   ("duration", JInt (Video.duration v));
   ("width", jopt JInt (Video.width v));
   ("height", jopt JInt (Video.height v));
   ("viewCount", jopt JInt (Video.viewCount v));
   ("likeCount", jopt JInt (Video.likeCount v));
   ("commentCount", jopt JInt (Video.commentCount v));
   ("adImpressions", jopt JInt (Video.adImpressions v));
   ("isPublished", jopt JBool (Video.isPublished v));
   ("isDeleted", jopt JBool (Video.isDeleted v));
   ("hashtags", JArr (map JStr (Video.hashtags v)))].

Definition comment_fields (c : Comment.t) : list (string * json) :=
  [("id", JId (Comment.id c));
   ("userId", JId (Comment.userId c));
   ("videoId", JId (Comment.videoId c));
   ("parentId", jopt JId (Comment.parentId c));
   ("content", JStr (Comment.content c));
   ("likeCount", jopt JInt (Comment.likeCount c));
   ("isDeleted", jopt JBool (Comment.isDeleted c))].

Definition withdrawal_json (w : Withdrawal.t) : json :=
  JObj [("id", JId (Withdrawal.id w));
        ("userId", JId (Withdrawal.userId w));
        ("amount", JDec (Withdrawal.amount w));
        ("walletAddress", JStr (Withdrawal.walletAddress w));
        ("network", JStr (Withdrawal.network w));
        ("status", JStr (Withdrawal.status w));
        ("txHash", jopt JStr (Withdrawal.txHash w));
        ("adminNotes", jopt JStr (Withdrawal.adminNotes w));
        ("processedAt", jopt (fun t => JInt (Z.of_nat t)) (Withdrawal.processedAt w))].

Definition notification_json (n : Notification.t) : json :=
  JObj [("id", JId (Notification.id n));
        ("userId", JId (Notification.userId n));
        ("type", JStr (Notification.type n));
        ("title", JStr (Notification.title n));
        ("message", JStr (Notification.message n));
        ("data", Notification.data n);
        ("isRead", jopt JBool (Notification.isRead n))].

(** ** Queries *)

Definition user_by_id (i : Id) : Db -> option User.t :=
  fun d => find (fun u => Nat.eqb (User.id u) i) (users d).

Definition video_by_id (i : Id) : Db -> option Video.t :=
  fun d => find (fun v => Nat.eqb (Video.id v) i) (videos d).

Definition is_true (b : option bool) : bool :=
  match b with Some true => true | _ => false end.

Definition is_false (b : option bool) : bool :=
  match b with Some false => true | _ => false end.

Definition follow_of (followerId followingId : Id) : Db -> option Follow.t :=
  fun d =>
    find (fun f => andb (Nat.eqb (Follow.followerId f) followerId)
                        (Nat.eqb (Follow.followingId f) followingId))
         (follows d).

(** [with: { user: true }]: each row together with its author, NULL when
    the author is missing. *)
Definition with_user {A : Type} (owner : A -> Id) (rows : list A) (d : Db)
  : list (A * option User.t) :=
  map (fun r => (r, user_by_id (owner r) d)) rows.

(** Ordering for [orderBy desc(column)] on a nullable integer column:
    PostgreSQL puts NULL first in descending order. *)
Definition desc_before (a b : option Z) : comparison :=
  match a, b with
  | None, None => Eq
  | None, Some _ => Lt
  | Some _, None => Gt
  | Some x, Some y => Z.compare y x
  end.

Definition trending_before (a b : Video.t) : bool :=
  match desc_before (Video.viewCount a) (Video.viewCount b) with
  | Lt => true
  | Gt => false
  | Eq =>
      match desc_before (Video.likeCount a) (Video.likeCount b) with
      | Gt => false
      | _ => true
      end
  end.

Fixpoint insert_sorted (v : Video.t) (l : list Video.t) : list Video.t :=
  match l with
  | [] => [v]
  | w :: r => if trending_before v w then v :: l else w :: insert_sorted v r
  end.

Definition sort_trending (l : list Video.t) : list Video.t :=
  fold_right insert_sorted [] l.

Definition sum_counts (f : Video.t -> option Z) (l : list Video.t) : Z :=
  fold_left (fun sum v => sum + or_default (f v) 0) l 0.

(** ** The routes of [registerRoutes] *)

Definition internal_error (message : string) : M Response :=
  ret (respond 500 message).

(** POST /api/auth/register *)
Definition post_register (email username password displayName : option string)
  : M Response :=
  try_catch
    (if orb (falsy email) (orb (falsy username) (falsy password)) then
       ret (respond 400 "All fields are required")
     else
       email <- defined "toLowerCase" email ;;
       username <- defined "toLowerCase" username ;;
       password <- match password with
                   | Some p => ret p
                   | None => throw "Illegal arguments: undefined, number"
                   end ;;
       existingUser <- await (select (fun d =>
         find (fun u => orb (String.eqb (User.email u) (toLowerCase email))
                            (String.eqb (User.username u) (toLowerCase username)))
              (users d))) ;;
       match existingUser with
       | Some _ => ret (respond 400 "Email or username already exists")
       | None =>
           let hashedPassword := bcrypt_hash password in
           user <- await (insert_user (toLowerCase email) (toLowerCase username)
                            hashedPassword
                            (Some (if falsy displayName then username
                                   else match displayName with
                                        | Some n => n
                                        | None => username
                                        end))) ;;
           s <- get_session ;;
           set_session (Session.mk (Session.sessionID s) (Some (User.id user))) ;;;
           ret (ok (JObj [("user", account_json user);
                          ("token", JStr (Session.sessionID s))]))
       end)
    (fun e => internal_error (message_or e "Registration failed")).

(** POST /api/auth/login *)
Definition post_login (email password : option string) : M Response :=
  try_catch
    (email <- defined "toLowerCase" email ;;
     user <- await (select (fun d =>
       find (fun u => String.eqb (User.email u) (toLowerCase email)) (users d))) ;;
     match user with
     | None => ret (respond 401 "Invalid email or password")
     | Some user =>
         if is_true (User.isBanned user) then
           ret (respond 403 "Your account has been suspended")
         else
           isValid <- match password with
                      | Some p => ret (bcrypt_compare p (User.password user))
                      | None => throw "Illegal arguments: undefined, string"
                      end ;;
           if negb isValid then ret (respond 401 "Invalid email or password")
           else
             s <- get_session ;;
             set_session (Session.mk (Session.sessionID s) (Some (User.id user))) ;;;
             ret (ok (JObj [("user", account_json user);
                            ("token", JStr (Session.sessionID s))]))
     end)
    (fun e => internal_error (message_or e "Login failed")).

(** GET /api/auth/me *)
Definition get_me : M Response :=
  requireAuth (fun userId =>
    try_catch
      (user <- await (select (user_by_id userId)) ;;
       match user with
       | None => ret (respond 401 "User not found")
       | Some user => ret (ok (JObj [("user", account_json user)]))
       end)
      internal_error).

(** POST /api/auth/logout: [req.session.destroy] is one statement against
    the session store. *)
Definition post_logout : M Response :=
  try_catch
    (await (execute (fun d => d)) ;;;
     s <- get_session ;;
     set_session (Session.mk (Session.sessionID s) None) ;;;
     ret (ok (message_body "Logged out")))
    (fun _ => internal_error "Logout failed").

Definition published (v : Video.t) : bool :=
  andb (is_true (Video.isPublished v)) (is_false (Video.isDeleted v)).

Definition video_with_author (liked : option (list Id))
    (row : Video.t * option User.t) : option json :=
  match snd row with
  | None => None
  | Some u =>
      Some (JObj (video_fields (fst row)
                  ++ [("user", author_json true u)]
                  ++ match liked with
                     | Some ids =>
                         [("isLiked",
                           JBool (existsb (Nat.eqb (Video.id (fst row))) ids))]
                     | None => []
                     end)%list)
  end.

(** GET /api/videos/feed *)
Definition get_feed : M Response :=
  try_catch
    (videos <- await (select (fun d =>
       with_user Video.userId (firstn 20 (rev (filter published (videos d)))) d)) ;;
     s <- get_session ;;
     likedVideoIds <- match Session.userId s with
                      | Some uid =>
                          likes <- await (select (fun d =>
                            filter (fun l => Nat.eqb (Like.userId l) uid) (likes d))) ;;
                          ret (map Like.videoId likes)
                      | None => ret []
                      end ;;
     match traverse (video_with_author (Some likedVideoIds)) videos with
     | Some videosWithUser => ret (ok (JArr videosWithUser))
     | None => throw (type_error "id")
     end)
    internal_error.

(** GET /api/videos/trending *)
Definition get_trending : M Response :=
  try_catch
    (videos <- await (select (fun d =>
       with_user Video.userId
         (firstn 50 (sort_trending (filter published (videos d)))) d)) ;;
     match traverse (video_with_author None) videos with
     | Some videosWithUser => ret (ok (JArr videosWithUser))
     | None => throw (type_error "id")
     end)
    internal_error.

(** POST /api/videos/upload.  [file] is the name multer stored the upload
    under, [None] when the request carried no file; multer's own rejections
    end the request before the handler runs. *)
Definition post_upload (file caption hashtags duration width height : option string)
  : M Response :=
  requireAuth (fun userId =>
    try_catch
      (match file with
       | None => ret (respond 400 "No video file uploaded")
       | Some filename =>
           let videoUrl := "/uploads/" ++ filename in
           let hashtagArray := split_hashtags hashtags in
           video <- await (insert_video userId videoUrl caption
                             (or_default (parseInt duration) 30)
                             (or_default (parseInt width) 1080)
                             (or_default (parseInt height) 1920)
                             hashtagArray) ;;
           ret (ok (JObj (video_fields video)))
       end)
      (fun e => internal_error (message_or e "Upload failed"))).

(** POST /api/videos/:videoId/like *)
Definition post_like (videoId : Id) : M Response :=
  requireAuth (fun userId =>
    try_catch
      (existingLike <- await (select (fun d =>
         find (fun l => andb (Nat.eqb (Like.userId l) userId)
                             (Nat.eqb (Like.videoId l) videoId))
              (likes d))) ;;
       match existingLike with
       | Some existingLike =>
           await (delete_likes (fun l => Nat.eqb (Like.id l) (Like.id existingLike))) ;;;
           await (update_videos (fun v => Nat.eqb (Video.id v) videoId)
                    (Video.set_likeCount (fun c => sql_sub c 1))) ;;;
           ret (ok (JObj [("liked", JBool false)]))
       | None =>
           await (insert_like userId videoId) ;;;
           await (update_videos (fun v => Nat.eqb (Video.id v) videoId)
                    (Video.set_likeCount (fun c => sql_add c 1))) ;;;
           video <- await (select (video_by_id videoId)) ;;
           match video with
           | Some video =>
               if negb (Nat.eqb (Video.userId video) userId) then
                 liker <- await (select (user_by_id userId)) ;;
                 await (insert_notification (Video.userId video) "like" "New Like"
                          ("@" ++ username_or_undefined liker ++ " liked your video")
                          (JObj [("videoId", JId videoId); ("likerId", JId userId)])) ;;;
                 ret tt
               else ret tt
           | None => ret tt
           end ;;;
           ret (ok (JObj [("liked", JBool true)]))
       end)
      internal_error).

Definition comment_with_author (row : Comment.t * option User.t) : option json :=
  match snd row with
  | None => None
  | Some u => Some (JObj (comment_fields (fst row) ++ [("user", author_json false u)])%list)
  end.

(** GET /api/videos/:videoId/comments *)
Definition get_comments (videoId : Id) : M Response :=
  try_catch
    (comments <- await (select (fun d =>
       with_user Comment.userId
         (rev (filter (fun c => andb (Nat.eqb (Comment.videoId c) videoId)
                                     (is_false (Comment.isDeleted c)))
                      (comments d))) d)) ;;
     match traverse comment_with_author comments with
     | Some commentsWithUser => ret (ok (JArr commentsWithUser))
     | None => throw (type_error "id")
     end)
    internal_error.

(** POST /api/videos/:videoId/comments *)
Definition post_comment (videoId : Id) (content : option string)
    (parentId : option Id) : M Response :=
  requireAuth (fun userId =>
    try_catch
      (match content with
       | None => ret (respond 400 "Comment cannot be empty")
       | Some content =>
           if String.eqb (trim content) EmptyString then
             ret (respond 400 "Comment cannot be empty")
           else
             comment <- await (insert_comment userId videoId (trim content) parentId) ;;
             await (update_videos (fun v => Nat.eqb (Video.id v) videoId)
                      (Video.set_commentCount (fun c => sql_add c 1))) ;;;
             video <- await (select (video_by_id videoId)) ;;
             match video with
             | Some video =>
                 if negb (Nat.eqb (Video.userId video) userId) then
                   commenter <- await (select (user_by_id userId)) ;;
                   await (insert_notification (Video.userId video) "comment" "New Comment"
                            ("@" ++ username_or_undefined commenter ++ ": " ++ dquote
                             ++ substring 0 50 content
                             ++ (if Nat.ltb 50 (String.length content) then "..." else "")
                             ++ dquote)
                            (JObj [("videoId", JId videoId);
                                   ("commentId", JId (Comment.id comment))])) ;;;
                   ret tt
                 else ret tt
             | None => ret tt
             end ;;;
             user <- await (select (user_by_id userId)) ;;
             match user with
             | Some user =>
                 ret (ok (JObj (comment_fields comment
                                ++ [("user", author_json false user)])%list))
             | None => throw (type_error "id")
             end
       end)
      internal_error).

(** GET /api/users/me/videos *)
Definition get_my_videos : M Response :=
  requireAuth (fun userId =>
    try_catch
      (videos <- await (select (fun d =>
         rev (filter (fun v => andb (Nat.eqb (Video.userId v) userId)
                                    (is_false (Video.isDeleted v)))
                     (videos d)))) ;;
       ret (ok (JArr (map (fun v => JObj (video_fields v)) videos))))
      internal_error).

(** GET /api/users/me/stats *)
Definition get_my_stats : M Response :=
  requireAuth (fun userId =>
    try_catch
      (videos <- await (select (fun d =>
         filter (fun v => Nat.eqb (Video.userId v) userId) (videos d))) ;;
       let totalViews := sum_counts Video.viewCount videos in
       let adImpressions := sum_counts Video.adImpressions videos in
       ret (ok (JObj [("totalViews", JInt totalViews);
                      ("adImpressions", JInt adImpressions)])))
      internal_error).

(** GET /api/users/me/earnings-stats *)
Definition get_earnings_stats : M Response :=
  requireAuth (fun userId =>
    try_catch
      (videos <- await (select (fun d =>
         filter (fun v => Nat.eqb (Video.userId v) userId) (videos d))) ;;
       let totalViews := sum_counts Video.viewCount videos in
       let adImpressions := sum_counts Video.adImpressions videos in
       ret (ok (JObj [("totalViews", JInt totalViews);
                      ("adImpressions", JInt adImpressions);
                      ("cpm", JDec (cents 250));
                      ("revenueToday", JInt 0);
                      ("revenueThisWeek", JInt 0);
                      ("revenueThisMonth", JInt 0)])))
      internal_error).

(** GET /api/users/:userId *)
Definition get_user (userId : Id) : M Response :=
  try_catch
    (user <- await (select (user_by_id userId)) ;;
     match user with
     | None => ret (respond 404 "User not found")
     | Some user =>
         s <- get_session ;;
         isFollowing <- match Session.userId s with
                        | Some me =>
                            if negb (Nat.eqb me userId) then
                              follow <- await (select (follow_of me userId)) ;;
                              ret (match follow with Some _ => true | None => false end)
                            else ret false
                        | None => ret false
                        end ;;
         ret (ok (JObj [("id", JId (User.id user));
                        ("username", JStr (User.username user));
                        ("displayName", jopt JStr (User.displayName user));
                        ("bio", jopt JStr (User.bio user));
                        ("avatarUrl", jopt JStr (User.avatarUrl user));
                        ("isVerified", jopt JBool (User.isVerified user));
                        ("followerCount", jopt JInt (User.followerCount user));
                        ("followingCount", jopt JInt (User.followingCount user));
                        ("isFollowing", JBool isFollowing)]))
     end)
    internal_error.

(** GET /api/users/:userId/videos *)
Definition get_user_videos (userId : Id) : M Response :=
  try_catch
    (videos <- await (select (fun d =>
       rev (filter (fun v => andb (Nat.eqb (Video.userId v) userId) (published v))
                   (videos d)))) ;;
     ret (ok (JArr (map (fun v => JObj (video_fields v)) videos))))
    internal_error.

(** POST /api/users/:userId/follow *)
Definition post_follow (userId : Id) : M Response :=
  requireAuth (fun followerId =>
    try_catch
      (if Nat.eqb userId followerId then
         ret (respond 400 "Cannot follow yourself")
       else
         existingFollow <- await (select (follow_of followerId userId)) ;;
         match existingFollow with
         | Some _ => ret (respond 400 "Already following")
         | None =>
             await (insert_follow followerId userId) ;;;
             await (update_users (fun u => Nat.eqb (User.id u) userId)
                      (User.set_followerCount (fun c => sql_add c 1))) ;;;
             await (update_users (fun u => Nat.eqb (User.id u) followerId)
                      (User.set_followingCount (fun c => sql_add c 1))) ;;;
             follower <- await (select (user_by_id followerId)) ;;
             await (insert_notification userId "follow" "New Follower"
                      ("@" ++ username_or_undefined follower ++ " started following you")
                      (JObj [("followerId", JId followerId)])) ;;;
             ret (ok (JObj [("following", JBool true)]))
         end)
      internal_error).

(** DELETE /api/users/:userId/follow *)
Definition delete_follow (userId : Id) : M Response :=
  requireAuth (fun followerId =>
    try_catch
      (follow <- await (select (follow_of followerId userId)) ;;
       match follow with
       | None => ret (respond 400 "Not following")
       | Some follow =>
           await (delete_follows (fun f => Nat.eqb (Follow.id f) (Follow.id follow))) ;;;
           await (update_users (fun u => Nat.eqb (User.id u) userId)
                    (User.set_followerCount sql_greatest_dec)) ;;;
           await (update_users (fun u => Nat.eqb (User.id u) followerId)
                    (User.set_followingCount sql_greatest_dec)) ;;;
           ret (ok (JObj [("following", JBool false)]))
       end)
      internal_error).

(** GET /api/notifications *)
Definition get_notifications : M Response :=
  requireAuth (fun userId =>
    try_catch
      (notifications <- await (select (fun d =>
         firstn 50 (rev (filter (fun n => Nat.eqb (Notification.userId n) userId)
                                (notifications d))))) ;;
       ret (ok (JArr (map notification_json notifications))))
      internal_error).

(** POST /api/notifications/read-all *)
Definition post_read_all : M Response :=
  requireAuth (fun userId =>
    try_catch
      (await (update_notifications (fun n => Nat.eqb (Notification.userId n) userId)
                (Notification.set_isRead (Some true))) ;;;
       ret (ok (JObj [("success", JBool true)])))
      internal_error).

(** GET /api/withdrawals *)
Definition get_withdrawals : M Response :=
  requireAuth (fun userId =>
    try_catch
      (withdrawals <- await (select (fun d =>
         rev (filter (fun w => Nat.eqb (Withdrawal.userId w) userId) (withdrawals d)))) ;;
       ret (ok (JArr (map withdrawal_json withdrawals))))
      internal_error).

(** [parseFloat(user.availableBalance?.toString() || "0")] *)
Definition parse_balance (user : User.t) : decimal :=
  match User.availableBalance user with
  | Some b => b
  | None => 0
  end.

Definition minimum_withdrawal : decimal := units 10.

(** POST /api/withdrawals.  A body field is a value of its declared type or
    missing. *)
Definition post_withdrawals (amount : option decimal)
    (walletAddress network : option string) : M Response :=
  requireAuth (fun userId =>
    try_catch
      (user <- await (select (user_by_id userId)) ;;
       match user with
       | None => ret (respond 404 "User not found")
       | Some user =>
           let availableBalance := parse_balance user in
           if js_gt amount availableBalance then
             ret (respond 400 "Insufficient balance")
           else if js_lt amount minimum_withdrawal then
             ret (respond 400 "Minimum withdrawal is $10")
           else
             (* Create withdrawal request *)
             amount <- defined "toString" amount ;;
             withdrawal <- await (insert_withdrawal userId amount walletAddress
                                    network "pending") ;;
             (* Update user balance *)
             await (update_users (fun u => Nat.eqb (User.id u) userId)
                      (User.set_availableBalance (fun b => sql_sub b amount))) ;;;
             (* Notify user *)
             await (insert_notification userId "withdrawal" "Withdrawal Requested"
                      ("Your withdrawal of $" ++ show_number amount
                       ++ " USDC is pending approval")
                      (JObj [("withdrawalId", JId (Withdrawal.id withdrawal))])) ;;;
             ret (ok (withdrawal_json withdrawal))
       end)
      (fun e => internal_error e)).

(** ** The server: one call to one route *)

Inductive Call : Type :=
| PostRegister (email username password displayName : option string)
| PostLogin (email password : option string)
| GetMe
| PostLogout
| GetFeed
| GetTrending
| PostUpload (file caption hashtags duration width height : option string)
| PostLike (videoId : Id)
| GetComments (videoId : Id)
| PostComment (videoId : Id) (content : option string) (parentId : option Id)
| GetMyVideos
| GetMyStats
| GetEarningsStats
| GetUser (userId : Id)
| GetUserVideos (userId : Id)
| PostFollow (userId : Id)
| DeleteFollow (userId : Id)
| GetNotifications
| PostReadAll
| GetWithdrawals
| PostWithdrawals (amount : option decimal) (walletAddress network : option string).

Definition route (c : Call) : M Response :=
  match c with
  | PostRegister e u p n => post_register e u p n
  | PostLogin e p => post_login e p
  | GetMe => get_me
  | PostLogout => post_logout
  | GetFeed => get_feed
  | GetTrending => get_trending
  | PostUpload f c h d w t => post_upload f c h d w t
  | PostLike v => post_like v
  | GetComments v => get_comments v
  | PostComment v c p => post_comment v c p
  | GetMyVideos => get_my_videos
  | GetMyStats => get_my_stats
  | GetEarningsStats => get_earnings_stats
  | GetUser u => get_user u
  | GetUserVideos u => get_user_videos u
  | PostFollow u => post_follow u
  | DeleteFollow u => delete_follow u
  | GetNotifications => get_notifications
  | PostReadAll => post_read_all
  | GetWithdrawals => get_withdrawals
  | PostWithdrawals a w n => post_withdrawals a w n
  end.

(** One request: who calls (the session the middleware loaded), what, and
    whether the storage layer fails during it. *)
Record Request : Type := mkRequest {
  req_session : Session.t;
  req_call : Call;
  req_fault : option nat
}.

(** Serving a request: the response and the database afterwards.  An
    exception that leaves a handler reaches Express's error handler. *)
Definition serve (r : Request) (d : Db) : Response * Db :=
  match route (req_call r) (mkStore d (req_session r) (req_fault r)) with
  | (Ok response, s) => (response, db s)
  | (Threw e, s) => (respond 500 e, db s)
  end.

Fixpoint serve_all (rs : list Request) (d : Db) : Db :=
  match rs with
  | [] => d
  | r :: rest => serve_all rest (snd (serve r d))
  end.

(** ** The validation schema of [shared/schema.ts]

    [withdrawalRequestSchema]: [amount] a positive number, [walletAddress]
    a string of at least ten characters, [network] one of BEP20 and ERC20.
    A missing field fails its check. *)
Definition withdrawalRequestSchema (amount : option decimal)
    (walletAddress network : option string) : bool :=
  andb (match amount with Some a => Z.ltb 0 a | None => false end)
    (andb (match walletAddress with
           | Some w => Nat.leb 10 (String.length w)
           | None => false
           end)
          (match network with
           | Some n => orb (String.eqb n "BEP20") (String.eqb n "ERC20")
           | None => false
           end)).

(** ** The ledger read off the database *)

(** A NULL amount counts as zero, as the handler reads it. *)
Definition value (c : option decimal) : decimal :=
  match c with Some v => v | None => 0 end.







(** The constraints of the schema the ledger relies on: the primary key of
    [users], the freshness of generated identifiers, and the foreign key of
    [withdrawals.userId]. *)
Definition consistent (d : Db) : Prop :=
  NoDup (map User.id (users d))
  /\ Forall (fun u => (User.id u < next_id d)%nat) (users d)
  /\ Forall (fun w => user_exists (Withdrawal.userId w) d = true) (withdrawals d).

(** What the ledger records of an account: who, earned, withdrawn. *)
Definition earnings_entry (u : User.t) : Id * option decimal * option decimal :=
  (User.id u, User.totalEarnings u, User.withdrawnAmount u).

Definition earnings_view (d : Db) : list (Id * option decimal * option decimal) :=
  map earnings_entry (users d).

Definition new_account (e : Id * option decimal * option decimal) : Prop :=
  snd (fst e) = Some 0 /\ snd e = Some 0.

(** The same with the available balance. *)
Definition money_entry (u : User.t)
  : Id * option decimal * option decimal * option decimal :=
  (User.id u, User.totalEarnings u, User.availableBalance u, User.withdrawnAmount u).

Definition money_view (d : Db)
  : list (Id * option decimal * option decimal * option decimal) :=
  map money_entry (users d).

Definition new_money (e : Id * option decimal * option decimal * option decimal) : Prop :=
  snd (fst (fst e)) = Some 0 /\ snd (fst e) = Some 0 /\ snd e = Some 0.

(** ** Effects of a computation on the database

    [effect R m]: whatever [m] does, value or exception, fault or none,
    takes the database to one related by [R]. *)

Definition effect {A : Type} (R : Db -> Db -> Prop) (m : M A) : Prop :=
  forall s r s', m s = (r, s') -> R (db s) (db s').

Definition stmt_effect {A : Type} (R : Db -> Db -> Prop) (q : Stmt A) : Prop :=
  forall d r d', q d = (r, d') -> R d d'.

(** Neither [users] nor [withdrawals] is written. *)
Definition same_ledger (d d' : Db) : Prop :=
  users d' = users d /\ withdrawals d' = withdrawals d
  /\ (next_id d <= next_id d')%nat.

(** Accounts keep their earned and withdrawn amounts; new accounts start
    at zero. *)
Definition earnings_frame (d d' : Db) : Prop :=
  exists extra,
    earnings_view d' = (earnings_view d ++ extra)%list /\ Forall new_account extra.

(** Accounts keep all three amounts and no withdrawal request changes; a
    new account has a new identifier. *)
Definition money_frame (d d' : Db) : Prop :=
  withdrawals d' = withdrawals d
  /\ (next_id d <= next_id d')%nat
  /\ exists extra,
       money_view d' = (money_view d ++ extra)%list
       /\ Forall (fun e => new_money e /\ (next_id d <= fst (fst (fst e)))%nat) extra.

Definition keeps_consistent (d d' : Db) : Prop := consistent d -> consistent d'.

(** A relation every route but POST /api/withdrawals respects. *)
Class Frame (R : Db -> Db -> Prop) : Prop := {
  frame_refl : forall d, R d d;
  frame_trans : forall a b c, R a b -> R b c -> R a c;
  frame_same_ledger : forall d d', same_ledger d d' -> R d d';
  frame_insert_user : forall e u p n, stmt_effect R (insert_user e u p n);
  frame_followerCount : forall w f,
    stmt_effect R (update_users w (User.set_followerCount f));
  frame_followingCount : forall w f,
    stmt_effect R (update_users w (User.set_followingCount f))
}.

(** A relation the two writes of POST /api/withdrawals respect too. *)
Class WithdrawalFrame (R : Db -> Db -> Prop) : Prop := {
  frame_insert_withdrawal : forall u a w n s,
    stmt_effect R (insert_withdrawal u a w n s);
  frame_availableBalance : forall w f,
    stmt_effect R (update_users w (User.set_availableBalance f))
}.

(** ** The outcomes of POST /api/withdrawals *)

Definition pending_row (i uid : Id) (amount : decimal) (walletAddress network : string)
  : Withdrawal.t :=
  Withdrawal.mk i uid amount walletAddress network "pending" None None None.

(** The row is persisted. *)
Definition with_row (row : Withdrawal.t) (d : Db) : Db :=
  with_withdrawals (fun l => l ++ [row])%list (snd (fresh d)).

(** The balance deduction is applied. *)
Definition deducted (uid : Id) (amount : decimal) (d : Db) : Db :=
  with_users (map (fun u => if Nat.eqb (User.id u) uid
                            then User.set_availableBalance (fun b => sql_sub b amount) u
                            else u)) d.

(** The notification is stored. *)
Definition notified (uid : Id) (amount : decimal) (row : Withdrawal.t) (d : Db) : Db :=
  with_notifications
    (fun l => l ++ [Notification.mk (next_id d) uid "withdrawal" "Withdrawal Requested"
                      ("Your withdrawal of $" ++ show_number amount
                       ++ " USDC is pending approval")
                      (JObj [("withdrawalId", JId (Withdrawal.id row))])
                      (Some false)])%list
    (snd (fresh d)).

Definition post_withdrawals_request (s : Session.t) (amount : option decimal)
    (walletAddress network : option string) (fault : option nat) : Request :=
  mkRequest s (PostWithdrawals amount walletAddress network) fault.

(** The answers of a call that writes nothing. *)
Inductive refusal (s : Session.t) (amount : option decimal) (d : Db)
  : Response -> Prop :=
| RefusedUnauthorized :
    Session.userId s = None ->
    refusal s amount d (respond 401 "Unauthorized")
| RefusedUserNotFound (uid : Id) :
    Session.userId s = Some uid -> user_by_id uid d = None ->
    refusal s amount d (respond 404 "User not found")
| RefusedInsufficientBalance (uid : Id) (user : User.t) (a : decimal) :
    Session.userId s = Some uid -> user_by_id uid d = Some user ->
    amount = Some a -> parse_balance user < a ->
    refusal s amount d (respond 400 "Insufficient balance")
| RefusedBelowMinimum (uid : Id) (user : User.t) (a : decimal) :
    Session.userId s = Some uid -> user_by_id uid d = Some user ->
    amount = Some a -> a <= parse_balance user -> a < minimum_withdrawal ->
    refusal s amount d (respond 400 "Minimum withdrawal is $10")
| RefusedByException (e : string) :
    refusal s amount d (respond 500 e).

(** What a call that passed both checks can leave behind: the row without
    the deduction (a storage failure at the third statement), both without
    the notification, or all three with the created row as the answer. *)
Inductive withdrawal_outcome (uid : Id) (amount : decimal) (row : Withdrawal.t)
    (d : Db) (fault : option nat) : Response -> Db -> Prop :=
| RowWithoutDeduction :
    fault = Some 2%nat ->
    withdrawal_outcome uid amount row d fault
      (respond 500 storage_failure) (with_row row d)
| WithoutNotification (e : string) :
    fault <> None ->
    withdrawal_outcome uid amount row d fault
      (respond 500 e) (deducted uid amount (with_row row d))
| Complete :
    withdrawal_outcome uid amount row d fault
      (ok (withdrawal_json row))
      (notified uid amount row (deducted uid amount (with_row row d))).

(** The fault counter after one statement, and whether the next statement
    is the one that fails. *)
Definition tick (f : option nat) : option nat :=
  match f with Some (S n) => Some n | _ => None end.

Definition fails_now (f : option nat) : bool :=
  match f with Some O => true | _ => false end.

(** ** Accounts of the scenarios *)

Definition creator (balance : decimal) : User.t :=
  User.mk 0%nat "creator@example.com" "creator" (bcrypt_hash "hunter2")
    (Some "Creator") None None (Some false) (Some false) (Some false)
    (Some balance) (Some balance) (Some 0) (Some 0) (Some 0).

Definition one_creator (balance : decimal) : Db :=
  mkDb [creator balance] [] [] [] [] [] [] 1%nat.

Definition creator_session : Session.t := Session.mk "sid" (Some 0%nat).

Definition wallet : string := "0x52908400098527886E0F7030069857D2E4169EE7".

(** ** The administrative transition

    [registerRoutes] has no route that changes a withdrawal request after
    its creation.  The operations below follow the specification of the
    ledger (account balance store, withdrawal lifecycle manager). *)

(** Modelled from the spec: the error kinds of the ledger. *)
Inductive ErrorKind : Type :=
| InsufficientBalance
| BelowMinimum
| InvalidInput
| UserNotFound
| InvalidTransition
| NotPending
| NotFound.

(** Modelled from the spec: the two outcomes of a settlement. *)
Inductive Outcome : Type := Completed | Rejected.

Definition outcome_status (o : Outcome) : string :=
  match o with Completed => "completed" | Rejected => "rejected" end.

Definition withdrawal_by_id (i : Id) : Db -> option Withdrawal.t :=
  fun d => find (fun w => Nat.eqb (Withdrawal.id w) i) (withdrawals d).

Definition is_terminal (w : Withdrawal.t) : bool :=
  orb (String.eqb (Withdrawal.status w) "completed")
      (String.eqb (Withdrawal.status w) "rejected").

Definition set_withdrawnAmount (f : option decimal -> option decimal) (u : User.t) : User.t :=
  User.mk (User.id u) (User.email u) (User.username u) (User.password u)
    (User.displayName u) (User.bio u) (User.avatarUrl u) (User.isAdmin u)
    (User.isVerified u) (User.isBanned u) (User.totalEarnings u)
    (User.availableBalance u) (f (User.withdrawnAmount u)) (User.followerCount u)
    (User.followingCount u).

Definition set_status (status : string) (w : Withdrawal.t) : Withdrawal.t :=
  Withdrawal.mk (Withdrawal.id w) (Withdrawal.userId w) (Withdrawal.amount w)
    (Withdrawal.walletAddress w) (Withdrawal.network w) status
    (Withdrawal.txHash w) (Withdrawal.adminNotes w) (Withdrawal.processedAt w).

Definition set_processing (txHash adminNotes : option string) (processedAt : nat)
    (w : Withdrawal.t) : Withdrawal.t :=
  Withdrawal.mk (Withdrawal.id w) (Withdrawal.userId w) (Withdrawal.amount w)
    (Withdrawal.walletAddress w) (Withdrawal.network w) (Withdrawal.status w)
    txHash adminNotes (Some processedAt).

Definition update_withdrawal (i : Id) (f : Withdrawal.t -> Withdrawal.t) (d : Db) : Db :=
  with_withdrawals (map (fun w => if Nat.eqb (Withdrawal.id w) i then f w else w)) d.

(** Modelled from the spec: [settleWithdrawal(withdrawalId, outcome)] of the
    account balance store, which [server/routes.ts] does not implement.  It
    fails with [NotPending] if the withdrawal is not currently pending; if
    rejected it restores the reserved amount to [availableBalance]; if
    completed it moves the reserved amount into [withdrawnAmount]; the
    request becomes terminal. *)
Definition settleWithdrawal (withdrawalId : Id) (outcome : Outcome) (d : Db)
  : (ErrorKind + Withdrawal.t) * Db :=
  match withdrawal_by_id withdrawalId d with
  | None => (inl NotFound, d)
  | Some w =>
      if negb (String.eqb (Withdrawal.status w) "pending") then (inl NotPending, d)
      else
        let owner := fun u => Nat.eqb (User.id u) (Withdrawal.userId w) in
        let credit :=
          match outcome with
          | Rejected =>
              User.set_availableBalance (fun b => sql_add b (Withdrawal.amount w))
          | Completed =>
              set_withdrawnAmount (fun b => sql_add b (Withdrawal.amount w))
          end in
        (inr (set_status (outcome_status outcome) w),
         update_withdrawal withdrawalId (set_status (outcome_status outcome))
           (with_users (map (fun u => if owner u then credit u else u)) d))
  end.

(** Modelled from the spec: the administrative transition endpoint with body
    [{status, adminNotes?, txHash?}], which [server/routes.ts] does not
    implement.  From pending to completed it requires a transaction hash,
    from pending to rejected an administrative note; it settles the
    withdrawal and sets [processedAt].  No other transition is legal:
    attempting one fails with [InvalidTransition]; an unknown request is
    [NotFound]. *)
Definition transition (withdrawalId : Id) (status : string)
    (adminNotes txHash : option string) (now : nat) (d : Db)
  : (ErrorKind + Withdrawal.t) * Db :=
  match withdrawal_by_id withdrawalId d with
  | None => (inl NotFound, d)
  | Some _ =>
      let outcome :=
        if String.eqb status "completed" then
          match txHash with Some _ => Some Completed | None => None end
        else if String.eqb status "rejected" then
          match adminNotes with Some _ => Some Rejected | None => None end
        else None in
      match outcome with
      | None => (inl InvalidTransition, d)
      | Some o =>
          match settleWithdrawal withdrawalId o d with
          | (inl NotPending, d') => (inl InvalidTransition, d')
          | (inl e, d') => (inl e, d')
          | (inr w, d') =>
              (inr (set_processing txHash adminNotes now w),
               update_withdrawal withdrawalId (set_processing txHash adminNotes now) d')
          end
      end
  end.

Definition settled_request (status : string) : Withdrawal.t :=
  Withdrawal.mk 1%nat 0%nat (units 20) wallet "BEP20" status None None None.

(** An account that earned 50.00 and has 20.00 of it in a request. *)
Definition one_request (status : string) : Db :=
  mkDb [User.set_availableBalance (fun _ => Some (units 30)) (creator (units 50))]
       [] [] [] [] [settled_request status] [] 2%nat.

(** ** Relations every request respects

    [Order] is what sequencing needs of a relation on databases; [Writes]
    lists every writing statement as the routes issue it, with the very
    columns and values they write. *)

Class Order (R : Db -> Db -> Prop) : Prop := {
  order_refl : forall d, R d d;
  order_trans : forall a b c, R a b -> R b c -> R a c
}.

Class Writes (R : Db -> Db -> Prop) : Prop := {
  writes_insert_user : forall e u p n, stmt_effect R (insert_user e u p n);
  writes_insert_video : forall u url c du w h t,
    stmt_effect R (insert_video u url c du w h t);
  writes_insert_like : forall u v, stmt_effect R (insert_like u v);
  writes_delete_like : forall i,
    stmt_effect R (delete_likes (fun l => Nat.eqb (Like.id l) i));
  writes_like_count : forall v,
    stmt_effect R (update_videos (fun x => Nat.eqb (Video.id x) v)
                     (Video.set_likeCount (fun c => sql_add c 1)));
  writes_unlike_count : forall v,
    stmt_effect R (update_videos (fun x => Nat.eqb (Video.id x) v)
                     (Video.set_likeCount (fun c => sql_sub c 1)));
  writes_insert_comment : forall u v c p, stmt_effect R (insert_comment u v c p);
  writes_comment_count : forall v,
    stmt_effect R (update_videos (fun x => Nat.eqb (Video.id x) v)
                     (Video.set_commentCount (fun c => sql_add c 1)));
  writes_insert_follow : forall a b, stmt_effect R (insert_follow a b);
  writes_delete_follow : forall i,
    stmt_effect R (delete_follows (fun f => Nat.eqb (Follow.id f) i));
  writes_follower_up : forall u,
    stmt_effect R (update_users (fun x => Nat.eqb (User.id x) u)
                     (User.set_followerCount (fun c => sql_add c 1)));
  writes_following_up : forall u,
    stmt_effect R (update_users (fun x => Nat.eqb (User.id x) u)
                     (User.set_followingCount (fun c => sql_add c 1)));
  writes_follower_down : forall u,
    stmt_effect R (update_users (fun x => Nat.eqb (User.id x) u)
                     (User.set_followerCount sql_greatest_dec));
  writes_following_down : forall u,
    stmt_effect R (update_users (fun x => Nat.eqb (User.id x) u)
                     (User.set_followingCount sql_greatest_dec));
  writes_insert_withdrawal : forall u a w n,
    stmt_effect R (insert_withdrawal u a w n "pending");
  writes_deduct : forall u a,
    stmt_effect R (update_users (fun x => Nat.eqb (User.id x) u)
                     (User.set_availableBalance (fun b => sql_sub b a)));
  writes_insert_notification : forall u t ti m da,
    stmt_effect R (insert_notification u t ti m da);
  writes_read_all : forall u,
    stmt_effect R (update_notifications
                     (fun n => Nat.eqb (Notification.userId n) u)
                     (Notification.set_isRead (Some true)));
  writes_session_destroy : stmt_effect R (execute (fun d => d))
}.

(** The routes registered behind [requireAuth]. *)
Definition protected (c : Call) : bool :=
  match c with
  | GetMe | PostUpload _ _ _ _ _ _ | PostLike _ | PostComment _ _ _
  | GetMyVideos | GetMyStats | GetEarningsStats | PostFollow _
  | DeleteFollow _ | GetNotifications | PostReadAll | GetWithdrawals
  | PostWithdrawals _ _ _ => true
  | _ => false
  end.

(** The routes whose handlers only query: the GET routes, login, logout. *)
Definition reads_only (c : Call) : bool :=
  match c with
  | PostLogin _ _ | GetMe | PostLogout | GetFeed | GetTrending | GetComments _
  | GetMyVideos | GetMyStats | GetEarningsStats | GetUser _ | GetUserVideos _
  | GetNotifications | GetWithdrawals => true
  | _ => false
  end.

(** A request as POST /api/withdrawals creates it. *)
Definition untouched_request (w : Withdrawal.t) : Prop :=
  Withdrawal.status w = "pending" /\ Withdrawal.txHash w = None
  /\ Withdrawal.adminNotes w = None /\ Withdrawal.processedAt w = None.

(** The table of withdrawal requests only gains rows, each as created. *)
Definition withdrawals_grow (d d' : Db) : Prop :=
  exists extra,
    withdrawals d' = (withdrawals d ++ extra)%list /\ Forall untouched_request extra.

Definition count_ok (c : option Z) : Prop :=
  match c with Some v => 0 <= v | None => True end.

Definition counts_nonneg (d : Db) : Prop :=
  Forall (fun u => count_ok (User.followerCount u) /\ count_ok (User.followingCount u))
         (users d).

Definition keeps_counts_nonneg (d d' : Db) : Prop :=
  counts_nonneg d -> counts_nonneg d'.

(** What identifies an account and what it may do. *)
Definition account_core (u : User.t)
  : Id * string * string * string * option bool * option bool * option bool :=
  (User.id u, User.email u, User.username u, User.password u,
   User.isAdmin u, User.isBanned u, User.isVerified u).

Definition plain_account
    (e : Id * string * string * string * option bool * option bool * option bool)
  : Prop :=
  match e with
  | (_, _, _, _, isAdmin, isBanned, isVerified) =>
      isAdmin = Some false /\ isBanned = Some false /\ isVerified = Some false
  end.

(** Accounts keep their credentials and flags; new accounts are plain. *)
Definition accounts_grow (d d' : Db) : Prop :=
  exists extra,
    map account_core (users d') = (map account_core (users d) ++ extra)%list
    /\ Forall plain_account extra.

(** What a video is, apart from its caption, size and like and comment
    counters. *)
Definition video_core (v : Video.t)
  : Id * Id * string * option Z * option Z * option bool * option bool :=
  (Video.id v, Video.userId v, Video.videoUrl v, Video.viewCount v,
   Video.adImpressions v, Video.isPublished v, Video.isDeleted v).

Definition unwatched
    (e : Id * Id * string * option Z * option Z * option bool * option bool)
  : Prop :=
  match e with
  | (_, _, _, viewCount, adImpressions, isPublished, isDeleted) =>
      viewCount = Some 0 /\ adImpressions = Some 0
      /\ isPublished = Some true /\ isDeleted = Some false
  end.

(** Videos keep owner, file, views, impressions and visibility; new videos
    are published with no view and no impression. *)
Definition videos_grow (d d' : Db) : Prop :=
  exists extra,
    map video_core (videos d') = (map video_core (videos d) ++ extra)%list
    /\ Forall unwatched extra.

(** ** The session after a request *)

(** [req.session] as the handler leaves it. *)
Definition session_after (r : Request) (d : Db) : Session.t :=
  session (snd (route (req_call r) (mkStore d (req_session r) (req_fault r)))).

(** ** Registration *)




Definition login_request (s : Session.t) (email password : string) : Request :=
  mkRequest s (PostLogin (Some email) (Some password)) None.

(** ** Following *)

Definition follow_request (s : Session.t) (userId : Id) : Request :=
  mkRequest s (PostFollow userId) None.

Definition unfollow_request (s : Session.t) (userId : Id) : Request :=
  mkRequest s (DeleteFollow userId) None.

(** Both counters of an account hold a number that is not negative. *)
Definition counted (u : User.t) : Prop :=
  (exists a, User.followerCount u = Some a /\ 0 <= a)
  /\ (exists b, User.followingCount u = Some b /\ 0 <= b).

(** No row of a table that loses rows has the identifier generated next. *)
Definition fresh_ids (d : Db) : Prop :=
  Forall (fun l => (Like.id l < next_id d)%nat) (likes d)
  /\ Forall (fun f => (Follow.id f < next_id d)%nat) (follows d).

Definition keeps_fresh_ids (d d' : Db) : Prop := fresh_ids d -> fresh_ids d'.

(** The database after [me] has followed [userId]. *)
Definition followed (me userId : Id) (d : Db) : Db :=
  mkDb
    (map (fun u => if Nat.eqb (User.id u) me
                   then User.set_followingCount (fun c => sql_add c 1) u else u)
       (map (fun u => if Nat.eqb (User.id u) userId
                      then User.set_followerCount (fun c => sql_add c 1) u else u)
          (users d)))
    (videos d) (likes d) (comments d)
    (follows d ++ [Follow.mk (next_id d) me userId])%list
    (withdrawals d)
    (notifications d
     ++ [Notification.mk (S (next_id d)) userId "follow" "New Follower"
           ("@" ++ username_or_undefined (user_by_id me d) ++ " started following you")
           (JObj [("followerId", JId me)]) (Some false)])%list
    (S (S (next_id d))).

(** ** A second account and a video, for the scenarios *)

Definition viewer : User.t :=
  User.mk 1%nat "viewer@example.com" "viewer" (bcrypt_hash "letmein")
    (Some "Viewer") None None (Some false) (Some false) (Some false)
    (Some 0) (Some 0) (Some 0) (Some 0) (Some 0).

Definition viewer_session : Session.t := Session.mk "sid2" (Some 1%nat).

Definition clip : Video.t :=
  Video.mk 2%nat 0%nat (Some "first clip") "/uploads/clip.mp4" 30 (Some 1080)
    (Some 1920) (Some 0) (Some 0) (Some 0) (Some 0) (Some true) (Some false)
    ["first"].

(** The creator, a viewer, and one video of the creator's. *)
Definition small_site : Db :=
  mkDb [creator (units 50); viewer] [clip] [] [] [] [] [] 3%nat.

(** ** Likes *)

Definition like_request (s : Session.t) (videoId : Id) : Request :=
  mkRequest s (PostLike videoId) None.

(** The like of [me] on a video, as the handler looks it up. *)
Definition like_of (me videoId : Id) : Db -> option Like.t :=
  fun d =>
    find (fun l => andb (Nat.eqb (Like.userId l) me) (Nat.eqb (Like.videoId l) videoId))
         (likes d).

(** The database after [me] has liked a video: the like, the counter, and
    the notification to the owner unless the owner is [me]. *)
Definition liked (me videoId : Id) (d : Db) : Db :=
  let counted_like :=
    with_videos
      (map (fun v => if Nat.eqb (Video.id v) videoId
                     then Video.set_likeCount (fun c => sql_add c 1) v else v))
      (with_likes (fun l => l ++ [Like.mk (next_id d) me videoId])%list
         (snd (fresh d))) in
  match video_by_id videoId d with
  | Some v =>
      if negb (Nat.eqb (Video.userId v) me) then
        with_notifications
          (fun l => l ++ [Notification.mk (S (next_id d)) (Video.userId v)
                            "like" "New Like"
                            ("@" ++ username_or_undefined (user_by_id me d)
                             ++ " liked your video")
                            (JObj [("videoId", JId videoId); ("likerId", JId me)])
                            (Some false)])%list
          (snd (fresh counted_like))
      else counted_like
  | None => counted_like
  end.

(** The database after a like has been taken back. *)
Definition unliked (l : Like.t) (videoId : Id) (d : Db) : Db :=
  with_videos
    (map (fun v => if Nat.eqb (Video.id v) videoId
                   then Video.set_likeCount (fun c => sql_sub c 1) v else v))
    (with_likes (filter (fun x => negb (Nat.eqb (Like.id x) (Like.id l)))) d).

(** ** Notifications read, and what the API shows *)

Definition read_all_request (s : Session.t) : Request :=
  mkRequest s PostReadAll None.

(** The database after [me] has marked all notifications read. *)
Definition marked_read (me : Id) (d : Db) : Db :=
  with_notifications
    (map (fun n => if Nat.eqb (Notification.userId n) me
                   then Notification.set_isRead (Some true) n else n))
    d.

(** The rows GET /api/withdrawals lists for [me], newest first. *)
Definition my_withdrawals (me : Id) (d : Db) : list Withdrawal.t :=
  rev (filter (fun w => Nat.eqb (Withdrawal.userId w) me) (withdrawals d)).

(** ** Uploads *)

Definition upload_request (s : Session.t)
    (file caption hashtags duration width height : option string) : Request :=
  mkRequest s (PostUpload file caption hashtags duration width height) None.




(** ** Comments *)





(** ** One like per user and video, one follow per pair *)

Definition like_pair (l : Like.t) : Id * Id := (Like.userId l, Like.videoId l).

Definition one_like_per_pair (d : Db) : Prop := NoDup (map like_pair (likes d)).

Definition follow_pair (f : Follow.t) : Id * Id :=
  (Follow.followerId f, Follow.followingId f).

(** No pair is followed twice and nobody follows themselves. *)
Definition follows_sound (d : Db) : Prop :=
  NoDup (map follow_pair (follows d))
  /\ Forall (fun f => Follow.followerId f <> Follow.followingId f) (follows d).

Definition likes_same (d d' : Db) : Prop := likes d' = likes d.

Definition follows_same (d d' : Db) : Prop := follows d' = follows d.

(** ** Like counters *)

(** The number of like rows on a video. *)
Definition likes_on (videoId : Id) (d : Db) : nat :=
  List.length (filter (fun l => Nat.eqb (Like.videoId l) videoId) (likes d)).

(** Every video's [likeCount] is the number of its like rows. *)
Definition like_counts_match (d : Db) : Prop :=
  Forall (fun v => Video.likeCount v = Some (Z.of_nat (likes_on (Video.id v) d)))
         (videos d).

(** What the primary key of [likes] and the identifier generator give: like
    rows have distinct identifiers, and the identifiers of the like rows, of
    the videos they are on and of the video rows were all generated
    earlier. *)
Definition like_keys (d : Db) : Prop :=
  NoDup (map Like.id (likes d))
  /\ Forall (fun l => (Like.id l < next_id d)%nat /\ (Like.videoId l < next_id d)%nat)
            (likes d)
  /\ Forall (fun v => (Video.id v < next_id d)%nat) (videos d).

Definition keeps_like_keys (d d' : Db) : Prop := like_keys d -> like_keys d'.

Definition like_entry (v : Video.t) : Id * option Z :=
  (Video.id v, Video.likeCount v).

(** The like rows and every video's identifier and [likeCount] are as they
    were. *)
Definition like_ledger_same (d d' : Db) : Prop :=
  likes d' = likes d /\ map like_entry (videos d') = map like_entry (videos d).

(** No request of the sequence meets a storage failure. *)
Definition storage_up (rs : list Request) : Prop :=
  Forall (fun r => req_fault r = None) rs.

(** The like request whose third statement, the counter update, fails. *)
Definition like_request_cut (s : Session.t) (videoId : Id) : Request :=
  mkRequest s (PostLike videoId) (Some 2%nat).

(** ** Sessions *)

Definition me_request (s : Session.t) : Request := mkRequest s GetMe None.

Definition logout_request (s : Session.t) (f : option nat) : Request :=
  mkRequest s PostLogout f.

(** ** Comments as the API lists them *)



(** * Proofs *)

(** ** Rules for [effect] *)

Section EffectRules.
Context (R : Db -> Db -> Prop) `{Frame R}.

Let R_refl := frame_refl (R := R).
Let R_trans := frame_trans (R := R).

Lemma effect_ret {A : Type} (a : A) : effect R (ret a).
Proof. intros s r s' E. inversion E; subst. apply R_refl. Qed.

Lemma effect_throw {A : Type} (e : string) : effect R (@throw A e).
Proof. intros s r s' E. inversion E; subst. apply R_refl. Qed.

Lemma effect_bind {A B : Type} (m : M A) (k : A -> M B) :
  effect R m -> (forall a, effect R (k a)) -> effect R (bind m k).
Proof.
  intros Hm Hk s r s' E. unfold bind in E.
  destruct (m s) as [[a | e] s1] eqn:Em.
  - eapply R_trans; [eapply Hm; eassumption | eapply Hk; eassumption].
  - inversion E; subst. eapply Hm; eassumption.
Qed.

Lemma effect_try_catch {A : Type} (m : M A) (h : string -> M A) :
  effect R m -> (forall e, effect R (h e)) -> effect R (try_catch m h).
Proof.
  intros Hm Hh s r s' E. unfold try_catch in E.
  destruct (m s) as [[a | e] s1] eqn:Em.
  - inversion E; subst. eapply Hm; eassumption.
  - eapply R_trans; [eapply Hm; eassumption | eapply Hh; eassumption].
Qed.

Lemma effect_await {A : Type} (q : Stmt A) :
  stmt_effect R q -> effect R (await q).
Proof.
  intros Hq s r s' E. unfold await in E.
  destruct (fault s) as [[| n] |].
  - inversion E; subst. apply R_refl.
  - destruct (q (db s)) as [r1 d1] eqn:Eq. inversion E; subst.
    eapply Hq; eassumption.
  - destruct (q (db s)) as [r1 d1] eqn:Eq. inversion E; subst.
    eapply Hq; eassumption.
Qed.

Lemma effect_select {A : Type} (q : Db -> A) : effect R (await (select q)).
Proof.
  apply effect_await. intros d r d' E. inversion E; subst. apply R_refl.
Qed.

Lemma effect_get_session : effect R get_session.
Proof. intros s r s' E. inversion E; subst. apply R_refl. Qed.

Lemma effect_set_session (v : Session.t) : effect R (set_session v).
Proof. intros s r s' E. inversion E; subst. apply R_refl. Qed.

Lemma effect_defined {A : Type} (p : string) (v : option A) :
  effect R (defined p v).
Proof. destruct v; [apply effect_ret | apply effect_throw]. Qed.

Lemma effect_requireAuth (next : Id -> M Response) :
  (forall uid, effect R (next uid)) -> effect R (requireAuth next).
Proof.
  intros Hnext. unfold requireAuth. apply effect_bind.
  - apply effect_get_session.
  - intros s. destruct (Session.userId s); [apply Hnext | apply effect_ret].
Qed.

Lemma effect_internal_error (e : string) : effect R (internal_error e).
Proof. apply effect_ret. Qed.
End EffectRules.

(** One step of the analysis of a handler body. *)
Ltac effect_step :=
  match goal with
  | |- effect _ (bind _ _) => apply (@effect_bind _ _); [ | intros ?]
  | |- effect _ (try_catch _ _) => apply (@effect_try_catch _ _); [ | intros ?]
  | |- effect _ (requireAuth _) => apply (@effect_requireAuth _ _); intros ?
  | |- effect _ (ret _) => apply (@effect_ret _ _)
  | |- effect _ (throw _) => apply (@effect_throw _ _)
  | |- effect _ (internal_error _) => apply (@effect_internal_error _ _)
  | |- effect _ (defined _ _) => apply (@effect_defined _ _)
  | |- effect _ get_session => apply (@effect_get_session _ _)
  | |- effect _ (set_session _) => apply (@effect_set_session _ _)
  | |- effect _ (await (select _)) => apply (@effect_select _ _)
  | |- effect _ (await _) => apply (@effect_await _ _)
  | |- effect _ (match ?x with _ => _ end) => destruct x
  end.

(** ** Statements that leave the ledger alone *)

Lemma same_ledger_refl d : same_ledger d d.
Proof. unfold same_ledger. auto. Qed.

Ltac quiet_stmt :=
  intros d r d' E; cbv beta delta [execute] in E;
  repeat match type of E with
         | context [if ?b then _ else _] => destruct b
         end;
  inversion E; subst; unfold same_ledger; simpl; auto.

Lemma insert_video_quiet u url c du w h t :
  stmt_effect same_ledger (insert_video u url c du w h t).
Proof. unfold insert_video. quiet_stmt. Qed.

Lemma update_videos_quiet w f : stmt_effect same_ledger (update_videos w f).
Proof. unfold update_videos. quiet_stmt. Qed.

Lemma insert_like_quiet u v : stmt_effect same_ledger (insert_like u v).
Proof. unfold insert_like. quiet_stmt. Qed.

Lemma delete_likes_quiet w : stmt_effect same_ledger (delete_likes w).
Proof. unfold delete_likes. quiet_stmt. Qed.

Lemma insert_comment_quiet u v c p : stmt_effect same_ledger (insert_comment u v c p).
Proof. unfold insert_comment. quiet_stmt. Qed.

Lemma insert_follow_quiet a b : stmt_effect same_ledger (insert_follow a b).
Proof. unfold insert_follow. quiet_stmt. Qed.

Lemma delete_follows_quiet w : stmt_effect same_ledger (delete_follows w).
Proof. unfold delete_follows. quiet_stmt. Qed.

Lemma insert_notification_quiet u t ti m da :
  stmt_effect same_ledger (insert_notification u t ti m da).
Proof. unfold insert_notification. quiet_stmt. Qed.

Lemma update_notifications_quiet w f :
  stmt_effect same_ledger (update_notifications w f).
Proof. unfold update_notifications. quiet_stmt. Qed.

Lemma execute_id_quiet : stmt_effect same_ledger (execute (fun d => d)).
Proof. quiet_stmt. Qed.

Lemma stmt_effect_weaken {A : Type} (R R' : Db -> Db -> Prop) (q : Stmt A) :
  (forall d d', R d d' -> R' d d') -> stmt_effect R q -> stmt_effect R' q.
Proof. intros H Hq d r d' E. apply H. eapply Hq; eassumption. Qed.

(** ** Every route respects every frame *)

Ltac stmt_step :=
  match goal with
  | |- stmt_effect _ (insert_user _ _ _ _) => apply frame_insert_user
  | |- stmt_effect _ (update_users _ (User.set_followerCount _)) =>
      apply frame_followerCount
  | |- stmt_effect _ (update_users _ (User.set_followingCount _)) =>
      apply frame_followingCount
  | |- stmt_effect _ (insert_withdrawal _ _ _ _ _) => apply frame_insert_withdrawal
  | |- stmt_effect _ (update_users _ (User.set_availableBalance _)) =>
      apply frame_availableBalance
  | |- stmt_effect _ _ =>
      eapply stmt_effect_weaken;
      [ apply frame_same_ledger
      | first [ apply insert_video_quiet | apply update_videos_quiet
              | apply insert_like_quiet | apply delete_likes_quiet
              | apply insert_comment_quiet | apply insert_follow_quiet
              | apply delete_follows_quiet | apply insert_notification_quiet
              | apply update_notifications_quiet | apply execute_id_quiet ] ]
  end.

Ltac handler_effect :=
  cbv zeta; repeat first [ effect_step | stmt_step ].

Section RouteEffects.
Context (R : Db -> Db -> Prop) `{Frame R}.

Lemma route_effect (c : Call) :
  (forall a w n, c <> PostWithdrawals a w n) -> effect R (route c).
Proof.
  intros Hc. destruct c; cbn [route];
    try (exfalso; eapply Hc; reflexivity).
  - unfold post_register. handler_effect.
  - unfold post_login. handler_effect.
  - unfold get_me. handler_effect.
  - unfold post_logout. handler_effect.
  - unfold get_feed. handler_effect.
  - unfold get_trending. handler_effect.
  - unfold post_upload. handler_effect.
  - unfold post_like. handler_effect.
  - unfold get_comments. handler_effect.
  - unfold post_comment. handler_effect.
  - unfold get_my_videos. handler_effect.
  - unfold get_my_stats. handler_effect.
  - unfold get_earnings_stats. handler_effect.
  - unfold get_user. handler_effect.
  - unfold get_user_videos. handler_effect.
  - unfold post_follow. handler_effect.
  - unfold delete_follow. handler_effect.
  - unfold get_notifications. handler_effect.
  - unfold post_read_all. handler_effect.
  - unfold get_withdrawals. handler_effect.
Qed.

Context `{WithdrawalFrame R}.

Lemma post_withdrawals_effect a w n : effect R (post_withdrawals a w n).
Proof. unfold post_withdrawals. handler_effect. Qed.

Lemma route_effect_all (c : Call) : effect R (route c).
Proof.
  destruct c; try (apply route_effect; discriminate).
  apply post_withdrawals_effect.
Qed.
End RouteEffects.

Lemma serve_effect (R : Db -> Db -> Prop) (r : Request) (d : Db) :
  effect R (route (req_call r)) -> R d (snd (serve r d)).
Proof.
  intros He. unfold serve.
  destruct (route (req_call r) (mkStore d (req_session r) (req_fault r)))
    as [[resp | e] s] eqn:E;
    apply He in E; exact E.
Qed.

(** ** The three frames *)

Lemma map_update_same {B : Type} (entry : User.t -> B) (w : User.t -> bool)
    (g : User.t -> User.t) (l : list User.t) :
  (forall u, entry (g u) = entry u) ->
  map entry (map (fun u => if w u then g u else u) l) = map entry l.
Proof.
  intros Hg. rewrite map_map. apply map_ext. intros u.
  destruct (w u); [apply Hg | reflexivity].
Qed.

Lemma update_users_inv {B : Type} (entry : User.t -> B) (w : User.t -> bool)
    (g : User.t -> User.t) (d : Db) (r : result unit) (d' : Db) :
  (forall u, entry (g u) = entry u) ->
  update_users w g d = (r, d') ->
  map entry (users d') = map entry (users d)
  /\ withdrawals d' = withdrawals d /\ next_id d' = next_id d.
Proof.
  intros Hg E. unfold update_users, execute in E. inversion E; subst. simpl.
  split; [apply map_update_same; exact Hg | split; reflexivity].
Qed.

Lemma insert_user_inv e u p n d r d' :
  insert_user e u p n d = (r, d') ->
  d' = d
  \/ exists row,
       users d' = (users d ++ [row])%list /\ User.id row = next_id d
       /\ User.totalEarnings row = Some 0 /\ User.availableBalance row = Some 0
       /\ User.withdrawnAmount row = Some 0
       /\ withdrawals d' = withdrawals d /\ next_id d' = S (next_id d).
Proof.
  unfold insert_user. intros E.
  destruct (existsb _ _); [inversion E; auto |].
  destruct (existsb _ _); [inversion E; auto |].
  simpl in E. inversion E; subst. right. eexists. simpl. repeat split.
Qed.

Lemma insert_withdrawal_inv u a w n st d r d' :
  insert_withdrawal u a w n st d = (r, d') ->
  users d' = users d /\ (next_id d <= next_id d')%nat.
Proof.
  unfold insert_withdrawal. intros E.
  destruct w; [destruct n |]; try (inversion E; subst; auto; fail).
  destruct (negb _); inversion E; subst; simpl; auto.
Qed.

Lemma user_exists_ids i d d' :
  map User.id (users d') = map User.id (users d) ->
  user_exists i d' = user_exists i d.
Proof.
  unfold user_exists. generalize (users d) (users d').
  induction l as [| u l IH]; intros [| u' l'] E; simpl in *; try discriminate.
  - reflexivity.
  - inversion E as [[Eu El]]. rewrite Eu. f_equal. apply IH. exact El.
Qed.

Lemma user_exists_snoc i d d' row :
  users d' = (users d ++ [row])%list ->
  user_exists i d = true -> user_exists i d' = true.
Proof.
  unfold user_exists. intros -> H. rewrite existsb_app, H. reflexivity.
Qed.


Lemma consistent_same_users d d' :
  users d' = users d -> withdrawals d' = withdrawals d ->
  (next_id d <= next_id d')%nat ->
  consistent d -> consistent d'.
Proof.
  intros Hu Hw Hn [Hnd [Hlt Hfk]]. unfold consistent. rewrite Hu, Hw.
  split; [exact Hnd | split].
  - eapply Forall_impl; [| exact Hlt]. simpl. intros; lia.
  - eapply Forall_impl; [| exact Hfk]. simpl. intros w E.
    rewrite <- E. apply user_exists_ids. rewrite Hu. reflexivity.
Qed.

Lemma consistent_same_ids d d' :
  map User.id (users d') = map User.id (users d) ->
  withdrawals d' = withdrawals d -> next_id d' = next_id d ->
  consistent d -> consistent d'.
Proof.
  intros Hu Hw Hn [Hnd [Hlt Hfk]]. unfold consistent. rewrite Hu, Hw, Hn.
  split; [exact Hnd | split].
  - apply Forall_forall. intros u Hin.
    assert (Hi : In (User.id u) (map User.id (users d')))
      by (apply in_map; exact Hin).
    rewrite Hu in Hi. apply in_map_iff in Hi. destruct Hi as [v [Ev Hv]].
    rewrite <- Ev. rewrite Forall_forall in Hlt. apply Hlt. exact Hv.
  - eapply Forall_impl; [| exact Hfk]. simpl. intros w E.
    rewrite <- E. apply user_exists_ids. exact Hu.
Qed.

Lemma NoDup_snoc {A : Type} (l : list A) (x : A) :
  NoDup l -> ~ In x l -> NoDup (l ++ [x]).
Proof.
  intros Hl Hx. induction Hl as [| y l Hy Hl IH]; simpl.
  - constructor; [intros [] | constructor].
  - constructor.
    + rewrite in_app_iff. intros [Hin | [E | []]]; [apply Hy; exact Hin |].
      apply Hx. left. symmetry. exact E.
    + apply IH. intros Hin. apply Hx. right. exact Hin.
Qed.

Lemma update_users_consistent w g d r d' :
  (forall u, User.id (g u) = User.id u) ->
  update_users w g d = (r, d') -> keeps_consistent d d'.
Proof.
  intros Hg E. apply (update_users_inv User.id) in E; [| exact Hg].
  destruct E as [Hu [Hw Hn]]. exact (consistent_same_ids _ _ Hu Hw Hn).
Qed.

#[export] Instance keeps_consistent_frame : Frame keeps_consistent.
Proof.
  split.
  - intros d Hd. exact Hd.
  - intros a b c Hab Hbc Ha. auto.
  - intros d d' [Hu [Hw Hn]]. exact (consistent_same_users _ _ Hu Hw Hn).
  - intros e u p n d r d' E. apply insert_user_inv in E.
    destruct E as [-> | [row [Hu [Hid [_ [_ [_ [Hw Hn]]]]]]]]; [intros Hd; exact Hd |].
    intros [Hnd [Hlt Hfk]]. unfold consistent. rewrite Hw.
    split; [| split].
    + rewrite Hu, map_app. simpl.
      apply NoDup_snoc; [exact Hnd |]. rewrite Hid. intros Hin.
      apply in_map_iff in Hin. destruct Hin as [v [Ev Hv]].
      rewrite Forall_forall in Hlt. apply Hlt in Hv. lia.
    + rewrite Hu, Hn. apply Forall_app. split.
      * eapply Forall_impl; [| exact Hlt]. simpl. intros; lia.
      * constructor; [lia | constructor].
    + eapply Forall_impl; [| exact Hfk]. simpl. intros x Hx.
      eapply user_exists_snoc; eassumption.
  - intros w f d r d' E. eapply update_users_consistent; [| exact E]. reflexivity.
  - intros w f d r d' E. eapply update_users_consistent; [| exact E]. reflexivity.
Qed.

Lemma insert_withdrawal_consistent u a w n s d r d' :
  insert_withdrawal u a w n s d = (r, d') -> keeps_consistent d d'.
Proof.
  unfold insert_withdrawal. intros E Hd.
  destruct w as [wa |]; [destruct n as [net |] |];
    try (inversion E; subst; exact Hd).
  destruct (user_exists u d) eqn:Hex; cbn [negb] in E;
    [| inversion E; subst; exact Hd].
  inversion E; subst. destruct Hd as [Hnd [Hlt Hfk]].
  unfold consistent. cbn. split; [exact Hnd | split].
  - eapply Forall_impl; [| exact Hlt]. simpl. intros; lia.
  - apply Forall_app. split.
    + exact Hfk.
    + constructor; [exact Hex | constructor].
Qed.

#[export] Instance keeps_consistent_withdrawal_frame : WithdrawalFrame keeps_consistent.
Proof.
  split.
  - intros u a w n s d r d' E. eapply insert_withdrawal_consistent. exact E.
  - intros w f d r d' E. eapply update_users_consistent; [| exact E]. reflexivity.
Qed.

Lemma earnings_frame_same d d' :
  earnings_view d' = earnings_view d -> earnings_frame d d'.
Proof.
  intros E. exists []. rewrite app_nil_r. split; [exact E | constructor].
Qed.

#[export] Instance earnings_frame_frame : Frame earnings_frame.
Proof.
  split.
  - intros d. apply earnings_frame_same. reflexivity.
  - intros a b c [x [Ex Hx]] [y [Ey Hy]]. exists (x ++ y)%list.
    rewrite Ey, Ex, app_assoc. split; [reflexivity | apply Forall_app; auto].
  - intros d d' [Hu _]. apply earnings_frame_same. unfold earnings_view.
    rewrite Hu. reflexivity.
  - intros e u p n d r d' E. apply insert_user_inv in E.
    destruct E as [-> | [row [Hu [_ [Ht [_ [Hw _]]]]]]].
    + apply earnings_frame_same. reflexivity.
    + exists [earnings_entry row]. unfold earnings_view. rewrite Hu, map_app.
      split; [reflexivity |]. constructor; [| constructor].
      unfold new_account, earnings_entry. simpl. auto.
  - intros w f d r d' E.
    apply (update_users_inv earnings_entry) in E; [| reflexivity].
    apply earnings_frame_same. apply E.
  - intros w f d r d' E.
    apply (update_users_inv earnings_entry) in E; [| reflexivity].
    apply earnings_frame_same. apply E.
Qed.

#[export] Instance earnings_frame_withdrawal_frame : WithdrawalFrame earnings_frame.
Proof.
  split.
  - intros u a w n s d r d' E. apply insert_withdrawal_inv in E.
    apply earnings_frame_same. unfold earnings_view.
    destruct E as [-> _]. reflexivity.
  - intros w f d r d' E.
    apply (update_users_inv earnings_entry) in E; [| reflexivity].
    apply earnings_frame_same. apply E.
Qed.

Lemma money_frame_same d d' :
  withdrawals d' = withdrawals d -> (next_id d <= next_id d')%nat ->
  money_view d' = money_view d ->
  money_frame d d'.
Proof.
  intros Hw Hn E. split; [exact Hw | split; [exact Hn |]]. exists [].
  rewrite app_nil_r. split; [exact E | constructor].
Qed.

#[export] Instance money_frame_frame : Frame money_frame.
Proof.
  split.
  - intros d. apply money_frame_same; reflexivity.
  - intros a b c [Hwa [Hna [x [Ex Hx]]]] [Hwb [Hnb [y [Ey Hy]]]].
    split; [congruence | split; [lia |]].
    exists (x ++ y)%list.
    rewrite Ey, Ex, app_assoc. split; [reflexivity |].
    apply Forall_app. split; [exact Hx |].
    eapply Forall_impl; [| exact Hy]. simpl. intros e [He Hi]. split; [exact He | lia].
  - intros d d' [Hu [Hw Hn]]. apply money_frame_same; [exact Hw | exact Hn |].
    unfold money_view. rewrite Hu. reflexivity.
  - intros e u p n d r d' E. apply insert_user_inv in E.
    destruct E as [-> | [row [Hu [Hid [Ht [Ha [Hw [Hwd Hn]]]]]]]].
    + apply money_frame_same; reflexivity.
    + split; [exact Hwd | split; [lia |]].
      exists [money_entry row]. unfold money_view. rewrite Hu, map_app.
      split; [reflexivity |]. constructor; [| constructor].
      unfold new_money, money_entry. simpl. rewrite Hid. auto.
  - intros w f d r d' E.
    apply (update_users_inv money_entry) in E; [| reflexivity].
    destruct E as [Hv [Hw Hn]]. apply money_frame_same; [exact Hw | lia | exact Hv].
  - intros w f d r d' E.
    apply (update_users_inv money_entry) in E; [| reflexivity].
    destruct E as [Hv [Hw Hn]]. apply money_frame_same; [exact Hw | lia | exact Hv].
Qed.

(** ** POST /api/withdrawals, case by case *)

Lemma user_exists_deducted i uid a d :
  user_exists i (deducted uid a d) = user_exists i d.
Proof.
  unfold user_exists, deducted. simpl. induction (users d) as [| u l IH]; simpl.
  - reflexivity.
  - rewrite IH. destruct (Nat.eqb (User.id u) uid); reflexivity.
Qed.

Lemma user_by_id_exists i d u : user_by_id i d = Some u -> user_exists i d = true.
Proof.
  unfold user_by_id, user_exists. intros E. apply find_some in E.
  apply existsb_exists. exists u. exact E.
Qed.

Lemma insert_withdrawal_run uid a wa net st d :
  user_exists uid d = true ->
  insert_withdrawal uid a (Some wa) (Some net) st d
  = (Ok (Withdrawal.mk (next_id d) uid a wa net st None None None),
     with_row (Withdrawal.mk (next_id d) uid a wa net st None None None) d).
Proof. intros H. unfold insert_withdrawal. rewrite H. reflexivity. Qed.

Lemma deduct_run uid a d :
  update_users (fun u => Nat.eqb (User.id u) uid)
    (User.set_availableBalance (fun b => sql_sub b a)) d
  = (Ok tt, deducted uid a d).
Proof. reflexivity. Qed.

Lemma notify_run uid a row d :
  user_exists uid d = true ->
  exists n,
    insert_notification uid "withdrawal" "Withdrawal Requested"
      ("Your withdrawal of $" ++ show_number a ++ " USDC is pending approval")
      (JObj [("withdrawalId", JId (Withdrawal.id row))]) d
    = (Ok n, notified uid a row d).
Proof.
  intros H. unfold insert_notification. rewrite H. eexists. reflexivity.
Qed.

Lemma await_eq {A : Type} (q : Stmt A) (d : Db) (s : Session.t) (f : option nat) :
  await q (mkStore d s f)
  = if fails_now f then (Threw storage_failure, mkStore d s None)
    else (fst (q d), mkStore (snd (q d)) s (tick f)).
Proof.
  unfold await. cbn [fault db session].
  destruct f as [[| k] |]; cbn [fails_now tick]; try reflexivity;
    destruct (q d); reflexivity.
Qed.

Lemma post_withdrawals_outcome s amount w n flt d :
  forall resp d',
    serve (post_withdrawals_request s amount w n flt) d = (resp, d') ->
    (d' = d /\ refusal s amount d resp)
    \/ exists uid user a wa net,
         Session.userId s = Some uid /\ user_by_id uid d = Some user
         /\ amount = Some a /\ w = Some wa /\ n = Some net
         /\ minimum_withdrawal <= a <= parse_balance user
         /\ withdrawal_outcome uid a (pending_row (next_id d) uid a wa net) d flt
              resp d'.
Proof.
  intros resp d'. unfold serve, post_withdrawals_request.
  cbn [route req_call req_session req_fault].
  unfold post_withdrawals, requireAuth, try_catch, bind, get_session,
    internal_error, ret.
  cbn [session].
  assert (Hquiet : forall r, refusal s amount d r -> (r, d) = (resp, d') ->
            (d' = d /\ refusal s amount d resp)
            \/ exists uid user a wa net,
                 Session.userId s = Some uid /\ user_by_id uid d = Some user
                 /\ amount = Some a /\ w = Some wa /\ n = Some net
                 /\ minimum_withdrawal <= a <= parse_balance user
                 /\ withdrawal_outcome uid a
                      (pending_row (next_id d) uid a wa net) d flt resp d').
  { intros r Hr E. inversion E; subst. left. split; [reflexivity | exact Hr]. }
  destruct (Session.userId s) as [uid |] eqn:Es.
  2:{ apply Hquiet. apply RefusedUnauthorized. exact Es. }
  rewrite await_eq.
  destruct (fails_now flt) eqn:F0.
  { apply Hquiet. apply RefusedByException. }
  cbn [select fst snd].
  destruct (user_by_id uid d) as [user |] eqn:Eu.
  2:{ apply Hquiet. eapply RefusedUserNotFound; eassumption. }
  destruct (js_gt amount (parse_balance user)) eqn:Egt.
  { apply Hquiet. destruct amount as [a |]; [| discriminate Egt].
    eapply RefusedInsufficientBalance; try eassumption; try reflexivity.
    apply Z.ltb_lt. exact Egt. }
  destruct (js_lt amount minimum_withdrawal) eqn:Elt.
  { apply Hquiet. destruct amount as [a |]; [| discriminate Elt].
    eapply RefusedBelowMinimum; try eassumption; try reflexivity.
    - apply Z.ltb_ge. exact Egt.
    - apply Z.ltb_lt. exact Elt. }
  destruct amount as [a |]; unfold defined, ret, throw.
  2:{ apply Hquiet. apply RefusedByException. }
  rewrite await_eq.
  destruct (fails_now (tick flt)) eqn:F1.
  { apply Hquiet. apply RefusedByException. }
  destruct w as [wa |].
  2:{ apply Hquiet. apply RefusedByException. }
  destruct n as [net |].
  2:{ apply Hquiet. apply RefusedByException. }
  rewrite insert_withdrawal_run by (eapply user_by_id_exists; exact Eu).
  cbn [fst snd].
  change (Withdrawal.mk (next_id d) uid a wa net "pending" None None None)
    with (pending_row (next_id d) uid a wa net).
  set (row := pending_row (next_id d) uid a wa net).
  assert (Hbounds : minimum_withdrawal <= a <= parse_balance user).
  { unfold js_gt in Egt. unfold js_lt in Elt.
    apply Z.ltb_ge in Egt. apply Z.ltb_ge in Elt. split; assumption. }
  assert (Hcase : forall r x,
            withdrawal_outcome uid a row d flt r x -> (r, x) = (resp, d') ->
            (d' = d /\ refusal s (Some a) d resp)
            \/ exists uid0 user0 a0 wa0 net0,
                 Some uid = Some uid0 /\ user_by_id uid0 d = Some user0
                 /\ Some a = Some a0 /\ Some wa = Some wa0 /\ Some net = Some net0
                 /\ minimum_withdrawal <= a0 <= parse_balance user0
                 /\ withdrawal_outcome uid0 a0
                      (pending_row (next_id d) uid0 a0 wa0 net0) d flt resp d').
  { intros r x Ho E. inversion E; subst. right.
    exists uid, user, a, wa, net. repeat split; try assumption; apply Hbounds. }
  rewrite await_eq.
  destruct (fails_now (tick (tick flt))) eqn:F2.
  { apply Hcase. apply RowWithoutDeduction.
    destruct flt as [[| [| [| k]]] |]; try discriminate; reflexivity. }
  rewrite deduct_run. cbn [fst snd]. rewrite await_eq.
  destruct (fails_now (tick (tick (tick flt)))) eqn:F3.
  { apply Hcase. apply WithoutNotification.
    destruct flt; [discriminate | discriminate F3]. }
  destruct (notify_run uid a row (deducted uid a (with_row row d))) as [nrow Hn].
  { rewrite user_exists_deducted. eapply user_by_id_exists. exact Eu. }
  rewrite Hn. cbn [fst snd db]. apply Hcase. apply Complete.
Qed.

(** ** Sequences of requests *)

Lemma serve_all_effect (R : Db -> Db -> Prop) `{Frame R} :
  (forall c, effect R (route c)) -> forall rs d, R d (serve_all rs d).
Proof.
  intros Hr rs. induction rs as [| r rs IH]; intros d; simpl.
  - apply frame_refl.
  - apply (frame_trans d (snd (serve r d))); [| apply IH].
    exact (serve_effect R r d (Hr (req_call r))).
Qed.



(** ** Accounts under the frames *)







(** ** Non-negative balances *)






(** ** The ledger equation *)










(** ** The checks of POST /api/withdrawals *)

Lemma post_withdrawals_found s uid user amount w n d :
  Session.userId s = Some uid -> user_by_id uid d = Some user ->
  serve (post_withdrawals_request s amount w n None) d
  = match
      (if js_gt amount (parse_balance user) then
         ret (respond 400 "Insufficient balance")
       else if js_lt amount minimum_withdrawal then
         ret (respond 400 "Minimum withdrawal is $10")
       else
         (amount <- defined "toString" amount ;;
          withdrawal <- await (insert_withdrawal uid amount w n "pending") ;;
          await (update_users (fun u => Nat.eqb (User.id u) uid)
                   (User.set_availableBalance (fun b => sql_sub b amount))) ;;;
          await (insert_notification uid "withdrawal" "Withdrawal Requested"
                   ("Your withdrawal of $" ++ show_number amount
                    ++ " USDC is pending approval")
                   (JObj [("withdrawalId", JId (Withdrawal.id withdrawal))])) ;;;
          ret (ok (withdrawal_json withdrawal)))%handler)
        (mkStore d s None)
    with
    | (Ok response, st) => (response, db st)
    | (Threw e, st) => (respond 500 e, db st)
    end.
Proof.
  intros Es Eu. unfold serve, post_withdrawals_request.
  cbn [route req_call req_session req_fault].
  unfold post_withdrawals, requireAuth, try_catch, get_session, internal_error.
  unfold bind at 1. cbn [session]. rewrite Es.
  unfold bind at 1. rewrite await_eq. cbn [fails_now tick select fst snd].
  rewrite Eu.
  match goal with
  | |- context [match ?m ?st with _ => _ end] =>
      destruct (m st) as [[resp | e] st'] eqn:E
  end; reflexivity.
Qed.



Lemma post_withdrawals_success s uid user a wa net d :
  Session.userId s = Some uid -> user_by_id uid d = Some user ->
  minimum_withdrawal <= a <= parse_balance user ->
  serve (post_withdrawals_request s (Some a) (Some wa) (Some net) None) d
  = (ok (withdrawal_json (pending_row (next_id d) uid a wa net)),
     notified uid a (pending_row (next_id d) uid a wa net)
       (deducted uid a (with_row (pending_row (next_id d) uid a wa net) d))).
Proof.
  intros Es Eu [Hmin Hmax].
  rewrite (post_withdrawals_found s uid user _ _ _ d Es Eu).
  unfold js_gt, js_lt.
  apply Z.ltb_ge in Hmin. apply Z.ltb_ge in Hmax. rewrite Hmin, Hmax.
  unfold defined, ret. unfold bind at 1. unfold bind at 1.
  rewrite await_eq. cbn [fails_now tick].
  rewrite insert_withdrawal_run by (eapply user_by_id_exists; exact Eu).
  cbn [fst snd]. unfold bind at 1. rewrite await_eq. cbn [fails_now tick].
  rewrite deduct_run. cbn [fst snd]. unfold bind at 1. rewrite await_eq.
  cbn [fails_now tick].
  change (Withdrawal.mk (next_id d) uid a wa net "pending" None None None)
    with (pending_row (next_id d) uid a wa net).
  destruct (notify_run uid a (pending_row (next_id d) uid a wa net)
              (deducted uid a (with_row (pending_row (next_id d) uid a wa net) d)))
    as [nrow Hn].
  { rewrite user_exists_deducted. eapply user_by_id_exists. exact Eu. }
  rewrite Hn. reflexivity.
Qed.

Lemma user_by_id_deducted uid a d user :
  user_by_id uid d = Some user ->
  user_by_id uid (deducted uid a d)
  = Some (User.set_availableBalance (fun b => sql_sub b a) user).
Proof.
  unfold user_by_id, deducted. simpl.
  induction (users d) as [| u l IH]; simpl; [discriminate |].
  destruct (Nat.eqb (User.id u) uid) eqn:E; simpl.
  - rewrite E. intros H. inversion H; subst. reflexivity.
  - rewrite E. exact IH.
Qed.

(** C6: with an available balance of 50.00, a request for 20.00 succeeds:
    the answer is the created withdrawal request, pending, for 20.00; the
    row is in the table and the user's available balance is 30.00. *)
Theorem withdrawal_of_20_from_50 :
  forall (s : Session.t) (uid : Id) (user : User.t) (wa net : string) (d : Db),
    Session.userId s = Some uid -> user_by_id uid d = Some user ->
    User.availableBalance user = Some (units 50) ->
    exists row d',
      serve (post_withdrawals_request s (Some (units 20)) (Some wa) (Some net) None) d
      = (ok (withdrawal_json row), d')
      /\ Withdrawal.status row = "pending"
      /\ Withdrawal.amount row = units 20
      /\ Withdrawal.userId row = uid
      /\ withdrawals d' = (withdrawals d ++ [row])%list
      /\ option_map User.availableBalance (user_by_id uid d') = Some (Some (units 30)).
Proof.
  intros s uid user wa net d Es Eu Eb.
  exists (pending_row (next_id d) uid (units 20) wa net). eexists. split.
  - apply (post_withdrawals_success s uid user); try assumption.
    unfold parse_balance. rewrite Eb. split; discriminate.
  - repeat split.
    change (user_by_id uid (notified _ _ _ ?x)) with (user_by_id uid x).
    rewrite (user_by_id_deducted uid (units 20) _ user) by exact Eu.
    simpl. rewrite Eb. reflexivity.
Qed.

Lemma withdrawal_of_20_from_50_witness :
  exists row d',
    serve (post_withdrawals_request creator_session (Some (units 20))
             (Some wallet) (Some "BEP20") None)
          (one_creator (units 50))
    = (ok (withdrawal_json row), d')
    /\ Withdrawal.status row = "pending"
    /\ Withdrawal.amount row = units 20
    /\ Withdrawal.userId row = 0%nat
    /\ withdrawals d' = (withdrawals (one_creator (units 50)) ++ [row])%list
    /\ option_map User.availableBalance (user_by_id 0%nat d') = Some (Some (units 30)).
Proof.
  apply (withdrawal_of_20_from_50 creator_session 0%nat (creator (units 50))).
  - reflexivity.
  - reflexivity.
  - reflexivity.
Defined.

(** C4 as stated fails: a request for 7.00 against a balance of 5.00 is
    below the minimum, yet the answer is "Insufficient balance", because
    the balance check comes first. *)
Lemma below_minimum_shadowed_by_balance_check :
  units 7 < minimum_withdrawal
  /\ serve (post_withdrawals_request creator_session (Some (units 7))
              (Some wallet) (Some "BEP20") None)
           (one_creator (units 5))
     = (respond 400 "Insufficient balance", one_creator (units 5))
  /\ respond 400 "Insufficient balance" <> respond 400 "Minimum withdrawal is $10".
Proof.
  split; [reflexivity | split; [reflexivity | discriminate]].
Qed.

(** C4, amended: a request for less than 10 is answered with a 400 and
    changes nothing in the database; the message is "Minimum withdrawal is
    $10" when the amount does not exceed the available balance, and
    "Insufficient balance" when it does.  A request for exactly 10 is never
    answered "Minimum withdrawal is $10". *)
Theorem below_minimum_rejected :
  forall (s : Session.t) (uid : Id) (user : User.t) (w n : option string) (d : Db),
    Session.userId s = Some uid -> user_by_id uid d = Some user ->
    (forall a, a < minimum_withdrawal ->
       serve (post_withdrawals_request s (Some a) w n None) d
       = (respond 400 (if Z.ltb (parse_balance user) a
                       then "Insufficient balance"
                       else "Minimum withdrawal is $10"), d))
    /\ fst (serve (post_withdrawals_request s (Some minimum_withdrawal) w n None) d)
       <> respond 400 "Minimum withdrawal is $10".
Proof.
  intros s uid user w n d Es Eu. split.
  - intros a Ha. rewrite (post_withdrawals_found s uid user _ w n d Es Eu).
    unfold js_gt, js_lt. destruct (Z.ltb (parse_balance user) a); [reflexivity |].
    apply Z.ltb_lt in Ha. rewrite Ha. reflexivity.
  - destruct (serve _ d) as [resp d'] eqn:E. simpl.
    apply post_withdrawals_outcome in E.
    destruct E as [[_ Hr] | [uid' [user' [a [wa [net [_ [_ [_ [_ [_ [_ Ho]]]]]]]]]]]].
    + inversion Hr; subst; try discriminate.
      match goal with
      | Ea : Some minimum_withdrawal = Some ?x, Hx : ?x < minimum_withdrawal |- _ =>
          inversion Ea; subst; lia
      end.
    + inversion Ho; subst; discriminate.
Qed.

Lemma below_minimum_rejected_witness :
  serve (post_withdrawals_request creator_session (Some (units 7))
           (Some wallet) (Some "BEP20") None)
        (one_creator (units 50))
  = (respond 400 "Minimum withdrawal is $10", one_creator (units 50))
  /\ fst (serve (post_withdrawals_request creator_session (Some minimum_withdrawal)
                   (Some wallet) (Some "BEP20") None)
                (one_creator (units 50)))
     <> respond 400 "Minimum withdrawal is $10".
Proof.
  destruct (below_minimum_rejected creator_session 0%nat (creator (units 50))
              (Some wallet) (Some "BEP20") (one_creator (units 50))
              eq_refl eq_refl) as [Hlow Hten].
  split; [| exact Hten].
  apply (Hlow (units 7)). reflexivity.
Defined.

(** C8 as stated fails: with a balance of 5.00, a request for 10.00 is not
    answered "Minimum withdrawal is $10". *)
Lemma ten_from_five_is_not_below_minimum :
  fst (serve (post_withdrawals_request creator_session (Some (units 10))
                (Some wallet) (Some "BEP20") None)
             (one_creator (units 5)))
  <> respond 400 "Minimum withdrawal is $10".
Proof. vm_compute. discriminate. Qed.

(** C8, amended: with an available balance of 5.00, a request for 10.00 is
    answered 400 "Insufficient balance" and changes nothing: the balance
    check comes first, and 10.00 is not below the minimum. *)
Theorem ten_from_five_is_insufficient :
  forall (s : Session.t) (uid : Id) (user : User.t) (w n : option string) (d : Db),
    Session.userId s = Some uid -> user_by_id uid d = Some user ->
    User.availableBalance user = Some (units 5) ->
    serve (post_withdrawals_request s (Some (units 10)) w n None) d
    = (respond 400 "Insufficient balance", d)
    /\ js_lt (Some (units 10)) minimum_withdrawal = false.
Proof.
  intros s uid user w n d Es Eu Eb. split; [| reflexivity].
  rewrite (post_withdrawals_found s uid user _ w n d Es Eu).
  unfold js_gt, parse_balance. rewrite Eb. reflexivity.
Qed.

Lemma ten_from_five_is_insufficient_witness :
  serve (post_withdrawals_request creator_session (Some (units 10))
           (Some wallet) (Some "BEP20") None)
        (one_creator (units 5))
  = (respond 400 "Insufficient balance", one_creator (units 5))
  /\ js_lt (Some (units 10)) minimum_withdrawal = false.
Proof.
  apply (ten_from_five_is_insufficient creator_session 0%nat (creator (units 5))).
  - reflexivity.
  - reflexivity.
  - reflexivity.
Defined.

(** C7: the handler does not apply [withdrawalRequestSchema].  A request
    with an empty wallet address and a network outside BEP20 and ERC20,
    which the schema rejects, is answered 200: the row is created with both
    values and the balance goes from 50.00 to 30.00. *)
Theorem unvalidated_withdrawal_is_accepted :
  withdrawalRequestSchema (Some (units 20)) (Some "") (Some "DOGE") = false
  /\ let (resp, d') :=
       serve (post_withdrawals_request creator_session (Some (units 20))
                (Some "") (Some "DOGE") None)
             (one_creator (units 50)) in
     resp = ok (withdrawal_json (pending_row 1%nat 0%nat (units 20) "" "DOGE"))
     /\ withdrawals d' = [pending_row 1%nat 0%nat (units 20) "" "DOGE"]
     /\ users d'
        = [User.set_availableBalance (fun _ => Some (units 30)) (creator (units 50))].
Proof.
  split; [reflexivity |].
  vm_compute. repeat split.
Qed.




(** ** The administrative transition *)

Lemma terminal_not_pending w :
  is_terminal w = true -> String.eqb (Withdrawal.status w) "pending" = false.
Proof.
  unfold is_terminal. intros H. apply orb_true_iff in H.
  destruct H as [H | H]; apply String.eqb_eq in H; rewrite H; reflexivity.
Qed.

Lemma settleWithdrawal_pending withdrawalId o d w d' :
  settleWithdrawal withdrawalId o d = (inr w, d') ->
  exists w0, withdrawal_by_id withdrawalId d = Some w0
             /\ Withdrawal.status w0 = "pending"
             /\ Withdrawal.status w = outcome_status o.
Proof.
  unfold settleWithdrawal. intros E.
  destruct (withdrawal_by_id withdrawalId d) as [w0 |]; [| discriminate].
  destruct (String.eqb (Withdrawal.status w0) "pending") eqn:Ep;
    cbn [negb] in E; [| discriminate].
  apply String.eqb_eq in Ep. inversion E; subst. exists w0. auto.
Qed.

(** C9: a completed or rejected withdrawal request cannot be transitioned
    again: every attempt fails with [InvalidTransition] and leaves the whole
    database, the request and the balances, as it was.  A transition that
    succeeds starts from a pending request and ends in the requested status,
    which is completed or rejected. *)
Theorem terminal_requests_are_final :
  forall (withdrawalId : Id) (status : string) (adminNotes txHash : option string)
         (now : nat) (d : Db) (w : Withdrawal.t),
    withdrawal_by_id withdrawalId d = Some w ->
    (is_terminal w = true ->
     transition withdrawalId status adminNotes txHash now d
     = (inl InvalidTransition, d))
    /\ (forall w' d',
          transition withdrawalId status adminNotes txHash now d = (inr w', d') ->
          Withdrawal.status w = "pending"
          /\ Withdrawal.status w' = status
          /\ (status = "completed" \/ status = "rejected")).
Proof.
  intros withdrawalId status adminNotes txHash now d w Ew. split.
  - intros Ht. unfold transition. rewrite Ew.
    destruct (String.eqb status "completed");
      [destruct txHash |
       destruct (String.eqb status "rejected"); [destruct adminNotes |]];
      try reflexivity;
      unfold settleWithdrawal; rewrite Ew, (terminal_not_pending w Ht);
      reflexivity.
  - intros w' d' E. unfold transition in E. rewrite Ew in E.
    destruct (String.eqb status "completed") eqn:Ec.
    + apply String.eqb_eq in Ec. destruct txHash as [tx |]; [| discriminate].
      destruct (settleWithdrawal withdrawalId Completed d) as [[e | w1] d1] eqn:Es;
        [destruct e; discriminate |].
      apply settleWithdrawal_pending in Es.
      destruct Es as [w0 [Ew0 [Ep Eo]]]. rewrite Ew in Ew0. inversion Ew0; subst w0.
      inversion E; subst. simpl. rewrite Eo. auto.
    + destruct (String.eqb status "rejected") eqn:Er; [| discriminate].
      apply String.eqb_eq in Er. destruct adminNotes as [note |]; [| discriminate].
      destruct (settleWithdrawal withdrawalId Rejected d) as [[e | w1] d1] eqn:Es;
        [destruct e; discriminate |].
      apply settleWithdrawal_pending in Es.
      destruct Es as [w0 [Ew0 [Ep Eo]]]. rewrite Ew in Ew0. inversion Ew0; subst w0.
      inversion E; subst. simpl. rewrite Eo. auto.
Qed.

Lemma terminal_requests_are_final_witness :
  transition 1%nat "rejected" (Some "duplicate request") None 7%nat
    (one_request "completed")
  = (inl InvalidTransition, one_request "completed")
  /\ Withdrawal.status (settled_request "pending") = "pending".
Proof.
  destruct (terminal_requests_are_final 1%nat "rejected" (Some "duplicate request")
              None 7%nat (one_request "completed")
              (settled_request "completed") eq_refl) as [Hfinal _].
  destruct (terminal_requests_are_final 1%nat "rejected" (Some "duplicate request")
              None 7%nat (one_request "pending")
              (settled_request "pending") eq_refl) as [_ Hlegal].
  split.
  - apply Hfinal. reflexivity.
  - eapply Hlegal. reflexivity.
Defined.

(** ** Earned and withdrawn amounts *)

Lemma earnings_frame_all_routes : forall c, effect earnings_frame (route c).
Proof. intros c. apply route_effect_all; exact _. Qed.

Lemma serve_all_earnings rs d : earnings_frame d (serve_all rs d).
Proof. apply serve_all_effect; [exact _ | exact earnings_frame_all_routes]. Qed.

Lemma get_earnings_stats_response sid uid d :
  exists totalViews adImpressions,
    fst (serve (mkRequest (Session.mk sid (Some uid)) GetEarningsStats None) d)
    = ok (JObj [("totalViews", JInt totalViews);
                ("adImpressions", JInt adImpressions);
                ("cpm", JDec (cents 250));
                ("revenueToday", JInt 0);
                ("revenueThisWeek", JInt 0);
                ("revenueThisMonth", JInt 0)]).
Proof.
  eexists. eexists. unfold serve. cbn [route req_call req_session req_fault].
  unfold get_earnings_stats, requireAuth, try_catch, get_session, ret.
  unfold bind at 1. cbn [session Session.userId].
  unfold bind at 1. rewrite await_eq. cbn [fails_now tick select fst snd].
  reflexivity.
Qed.

(** C10: no route writes [totalEarnings] or [withdrawnAmount].  After any
    sequence of requests, whatever the storage layer does, the accounts
    that existed keep both values, in the same order, and every account
    created since has both at 0; from the empty database every account has
    both at 0.  The earnings statistics route answers with the constant
    cpm 2.50 and zero revenue for today, this week and this month. *)
Theorem earned_and_withdrawn_never_change :
  (forall (rs : list Request) (d : Db),
     exists extra,
       earnings_view (serve_all rs d) = (earnings_view d ++ extra)%list
       /\ Forall new_account extra)
  /\ (forall rs : list Request,
        Forall (fun u => User.totalEarnings u = Some 0
                         /\ User.withdrawnAmount u = Some 0)
               (users (serve_all rs empty_db)))
  /\ (forall (sid : string) (uid : Id) (d : Db),
        exists totalViews adImpressions,
          fst (serve (mkRequest (Session.mk sid (Some uid)) GetEarningsStats None) d)
          = ok (JObj [("totalViews", JInt totalViews);
                      ("adImpressions", JInt adImpressions);
                      ("cpm", JDec (cents 250));
                      ("revenueToday", JInt 0);
                      ("revenueThisWeek", JInt 0);
                      ("revenueThisMonth", JInt 0)])).
Proof.
  split; [| split].
  - intros rs d. exact (serve_all_earnings rs d).
  - intros rs. destruct (serve_all_earnings rs empty_db) as [extra [E Hx]].
    simpl in E. unfold earnings_view in E.
    apply Forall_forall. intros u Hin.
    assert (Hi : In (earnings_entry u) extra)
      by (rewrite <- E; apply in_map; exact Hin).
    rewrite Forall_forall in Hx. apply Hx in Hi. exact Hi.
  - exact get_earnings_stats_response.
Qed.

(** * Further properties of the server *)

(** ** Rules for [effect] under an [Order] *)

Section OrderRules.
Context (R : Db -> Db -> Prop) `{Order R}.

Lemma respects_ret {A : Type} (a : A) : effect R (ret a).
Proof. intros s r s' E. inversion E; subst. apply order_refl. Qed.

Lemma respects_throw {A : Type} (e : string) : effect R (@throw A e).
Proof. intros s r s' E. inversion E; subst. apply order_refl. Qed.

Lemma respects_bind {A B : Type} (m : M A) (k : A -> M B) :
  effect R m -> (forall a, effect R (k a)) -> effect R (bind m k).
Proof.
  intros Hm Hk s r s' E. unfold bind in E.
  destruct (m s) as [[a | e] s1] eqn:Em.
  - apply (order_trans (db s) (db s1)); [eapply Hm | eapply Hk]; eassumption.
  - inversion E; subst. eapply Hm; eassumption.
Qed.

Lemma respects_try_catch {A : Type} (m : M A) (h : string -> M A) :
  effect R m -> (forall e, effect R (h e)) -> effect R (try_catch m h).
Proof.
  intros Hm Hh s r s' E. unfold try_catch in E.
  destruct (m s) as [[a | e] s1] eqn:Em.
  - inversion E; subst. eapply Hm; eassumption.
  - apply (order_trans (db s) (db s1)); [eapply Hm | eapply Hh]; eassumption.
Qed.

Lemma respects_await {A : Type} (q : Stmt A) :
  stmt_effect R q -> effect R (await q).
Proof.
  intros Hq s r s' E. destruct s as [d se f]. rewrite await_eq in E.
  destruct (fails_now f); inversion E; subst; cbn [db].
  - apply order_refl.
  - eapply Hq. apply surjective_pairing.
Qed.

Lemma respects_select {A : Type} (q : Db -> A) : effect R (await (select q)).
Proof.
  apply respects_await. intros d r d' E. inversion E; subst. apply order_refl.
Qed.

Lemma respects_get_session : effect R get_session.
Proof. intros s r s' E. inversion E; subst. apply order_refl. Qed.

Lemma respects_set_session (v : Session.t) : effect R (set_session v).
Proof. intros s r s' E. inversion E; subst. apply order_refl. Qed.

Lemma respects_requireAuth (next : Id -> M Response) :
  (forall uid, effect R (next uid)) -> effect R (requireAuth next).
Proof.
  intros Hnext. unfold requireAuth. apply respects_bind.
  - apply respects_get_session.
  - intros s. destruct (Session.userId s); [apply Hnext | apply respects_ret].
Qed.
End OrderRules.

Ltac respects_step :=
  match goal with
  | |- effect _ (bind _ _) => apply (@respects_bind _ _); [ | intros ?]
  | |- effect _ (try_catch _ _) => apply (@respects_try_catch _ _); [ | intros ?]
  | |- effect _ (requireAuth _) => apply (@respects_requireAuth _ _); intros ?
  | |- effect _ (ret _) => apply (@respects_ret _ _)
  | |- effect _ (throw _) => apply (@respects_throw _ _)
  | |- effect _ (internal_error _) => apply (@respects_ret _ _)
  | |- effect _ (defined _ ?v) => destruct v; cbn [defined]
  | |- effect _ get_session => apply (@respects_get_session _ _)
  | |- effect _ (set_session _) => apply (@respects_set_session _ _)
  | |- effect _ (await (select _)) => apply (@respects_select _ _)
  | |- effect _ (await _) => apply (@respects_await _ _)
  | |- effect _ (match ?x with _ => _ end) => destruct x
  end.

Ltac writes_step :=
  match goal with
  | |- stmt_effect _ (insert_user _ _ _ _) => apply writes_insert_user
  | |- stmt_effect _ (insert_video _ _ _ _ _ _ _) => apply writes_insert_video
  | |- stmt_effect _ (insert_like _ _) => apply writes_insert_like
  | |- stmt_effect _ (delete_likes _) => apply writes_delete_like
  | |- stmt_effect _ (update_videos _ (Video.set_likeCount (fun c => sql_add c 1))) =>
      apply writes_like_count
  | |- stmt_effect _ (update_videos _ (Video.set_likeCount (fun c => sql_sub c 1))) =>
      apply writes_unlike_count
  | |- stmt_effect _ (insert_comment _ _ _ _) => apply writes_insert_comment
  | |- stmt_effect _ (update_videos _ (Video.set_commentCount _)) =>
      apply writes_comment_count
  | |- stmt_effect _ (insert_follow _ _) => apply writes_insert_follow
  | |- stmt_effect _ (delete_follows _) => apply writes_delete_follow
  | |- stmt_effect _ (update_users _ (User.set_followerCount sql_greatest_dec)) =>
      apply writes_follower_down
  | |- stmt_effect _ (update_users _ (User.set_followingCount sql_greatest_dec)) =>
      apply writes_following_down
  | |- stmt_effect _ (update_users _ (User.set_followerCount _)) =>
      apply writes_follower_up
  | |- stmt_effect _ (update_users _ (User.set_followingCount _)) =>
      apply writes_following_up
  | |- stmt_effect _ (insert_withdrawal _ _ _ _ _) => apply writes_insert_withdrawal
  | |- stmt_effect _ (update_users _ (User.set_availableBalance _)) =>
      apply writes_deduct
  | |- stmt_effect _ (insert_notification _ _ _ _ _) => apply writes_insert_notification
  | |- stmt_effect _ (update_notifications _ _) => apply writes_read_all
  | |- stmt_effect _ (execute (fun d => d)) => apply writes_session_destroy
  end.

Ltac route_respects :=
  cbv zeta; unfold internal_error; repeat first [ respects_step | writes_step ].

(** ** Whatever every statement respects, every request respects *)

Section ServerRespects.
Context (R : Db -> Db -> Prop) `{Order R} `{Writes R}.

Lemma route_respects_writes (c : Call) : effect R (route c).
Proof.
  destruct c; cbn [route].
  - unfold post_register. route_respects.
  - unfold post_login. route_respects.
  - unfold get_me. route_respects.
  - unfold post_logout. route_respects.
  - unfold get_feed. route_respects.
  - unfold get_trending. route_respects.
  - unfold post_upload. route_respects.
  - unfold post_like. route_respects.
  - unfold get_comments. route_respects.
  - unfold post_comment. route_respects.
  - unfold get_my_videos. route_respects.
  - unfold get_my_stats. route_respects.
  - unfold get_earnings_stats. route_respects.
  - unfold get_user. route_respects.
  - unfold get_user_videos. route_respects.
  - unfold post_follow. route_respects.
  - unfold delete_follow. route_respects.
  - unfold get_notifications. route_respects.
  - unfold post_read_all. route_respects.
  - unfold get_withdrawals. route_respects.
  - unfold post_withdrawals. route_respects.
Qed.

Lemma serve_respects (r : Request) (d : Db) : R d (snd (serve r d)).
Proof. apply serve_effect. apply route_respects_writes. Qed.

Lemma serve_all_respects (rs : list Request) (d : Db) : R d (serve_all rs d).
Proof.
  revert d. induction rs as [| r rs IH]; intros d; simpl.
  - apply order_refl.
  - apply (order_trans d (snd (serve r d))); [apply serve_respects | apply IH].
Qed.
End ServerRespects.

(** One statement, run: the goal becomes the relation between the database
    before and the database the statement leaves. *)
Ltac run_stmt :=
  let d := fresh "d" in
  let r := fresh "r" in
  let d' := fresh "d'" in
  let E := fresh "E" in
  intros d r d' E;
  unfold insert_user, insert_video, insert_like, delete_likes, update_videos,
    insert_comment, insert_follow, delete_follows, update_users,
    insert_withdrawal, insert_notification, update_notifications, execute in E;
  repeat match type of E with
         | context [match ?w with Some _ => _ | None => _ end] => destruct w
         | context [if ?b then _ else _] => destruct b eqn:?
         end;
  cbn [fresh] in E; inversion E; subst; clear E.

(** ** The session gate *)

Lemma requireAuth_none next d se f :
  Session.userId se = None ->
  requireAuth next (mkStore d se f) = (Ok (respond 401 "Unauthorized"), mkStore d se f).
Proof.
  intros Hs. unfold requireAuth, bind, get_session. cbn [session].
  rewrite Hs. reflexivity.
Qed.

(** X1: a request to a route registered behind [requireAuth], made without
    a logged-in session, is answered 401 "Unauthorized" and reaches no
    statement: the database is unchanged whatever the storage layer does. *)
Theorem unauthenticated_requests_are_refused :
  forall (r : Request) (d : Db),
    protected (req_call r) = true ->
    Session.userId (req_session r) = None ->
    serve r d = (respond 401 "Unauthorized", d).
Proof.
  intros [se c f] d Hp Hs. cbn [req_call req_session] in *. unfold serve.
  cbn [req_call req_session req_fault].
  destruct c; try discriminate Hp; cbn [route];
    unfold get_me, post_upload, post_like, post_comment, get_my_videos,
      get_my_stats, get_earnings_stats, post_follow, delete_follow,
      get_notifications, post_read_all, get_withdrawals, post_withdrawals;
    rewrite requireAuth_none by exact Hs; reflexivity.
Qed.

Lemma unauthenticated_requests_are_refused_witness :
  serve (mkRequest (Session.mk "sid" None)
           (PostWithdrawals (Some (units 20)) (Some wallet) (Some "BEP20")) None)
        (one_creator (units 50))
  = (respond 401 "Unauthorized", one_creator (units 50)).
Proof.
  apply unauthenticated_requests_are_refused.
  - reflexivity.
  - reflexivity.
Defined.

(** ** Routes that only read *)

#[export] Instance eq_order : Order (@eq Db).
Proof. split; intros; congruence. Qed.

Ltac reads_step :=
  first [ respects_step
        | match goal with
          | |- stmt_effect eq _ =>
              let E := fresh "E" in
              intros ? ? ? E; inversion E; reflexivity
          end ].

Lemma reads_only_effect (c : Call) : reads_only c = true -> effect eq (route c).
Proof.
  intros Hc. destruct c; try discriminate Hc; cbn [route].
  - unfold post_login. cbv zeta. unfold internal_error. repeat reads_step.
  - unfold get_me. cbv zeta. unfold internal_error. repeat reads_step.
  - unfold post_logout. cbv zeta. unfold internal_error. repeat reads_step.
  - unfold get_feed. cbv zeta. unfold internal_error. repeat reads_step.
  - unfold get_trending. cbv zeta. unfold internal_error. repeat reads_step.
  - unfold get_comments. cbv zeta. unfold internal_error. repeat reads_step.
  - unfold get_my_videos. cbv zeta. unfold internal_error. repeat reads_step.
  - unfold get_my_stats. cbv zeta. unfold internal_error. repeat reads_step.
  - unfold get_earnings_stats. cbv zeta. unfold internal_error. repeat reads_step.
  - unfold get_user. cbv zeta. unfold internal_error. repeat reads_step.
  - unfold get_user_videos. cbv zeta. unfold internal_error. repeat reads_step.
  - unfold get_notifications. cbv zeta. unfold internal_error. repeat reads_step.
  - unfold get_withdrawals. cbv zeta. unfold internal_error. repeat reads_step.
Qed.

(** X2: every GET route, login and logout leave the database exactly as it
    was, for any session, any arguments and any storage failure. *)
Theorem reading_routes_write_nothing :
  forall (r : Request) (d : Db),
    reads_only (req_call r) = true -> snd (serve r d) = d.
Proof.
  intros r d Hc. symmetry. apply (serve_effect eq). apply reads_only_effect. exact Hc.
Qed.

Lemma reading_routes_write_nothing_witness :
  snd (serve (mkRequest creator_session GetWithdrawals (Some 0%nat))
             (one_request "pending"))
  = one_request "pending".
Proof. apply reading_routes_write_nothing. reflexivity. Defined.

(** ** Withdrawal requests are append-only *)

Lemma withdrawals_grow_same d d' :
  withdrawals d' = withdrawals d -> withdrawals_grow d d'.
Proof.
  intros E. exists []. rewrite app_nil_r. split; [exact E | constructor].
Qed.

#[export] Instance withdrawals_grow_order : Order withdrawals_grow.
Proof.
  split.
  - intros d. apply withdrawals_grow_same. reflexivity.
  - intros a b c [x [Ex Hx]] [y [Ey Hy]]. exists (x ++ y)%list.
    rewrite Ey, Ex, app_assoc. split; [reflexivity | apply Forall_app; auto].
Qed.

#[export] Instance withdrawals_grow_writes : Writes withdrawals_grow.
Proof.
  split; intros; run_stmt; try (apply withdrawals_grow_same; reflexivity).
  exists [Withdrawal.mk (next_id d) u a s s0 "pending" None None None].
  split; [reflexivity |]. constructor; [| constructor].
  unfold untouched_request. simpl. auto.
Qed.

(** X3: no route updates or deletes a withdrawal request.  After any
    sequence of requests, whatever the storage layer does, the table is the
    old table followed by new rows, each still pending with no transaction
    hash, no admin note and no processing time; from the empty database
    every request is in that state. *)
Theorem withdrawal_requests_are_append_only :
  (forall (rs : list Request) (d : Db),
     exists extra,
       withdrawals (serve_all rs d) = (withdrawals d ++ extra)%list
       /\ Forall untouched_request extra)
  /\ (forall rs : list Request,
        Forall untouched_request (withdrawals (serve_all rs empty_db))).
Proof.
  split.
  - intros rs d. exact (serve_all_respects withdrawals_grow rs d).
  - intros rs. destruct (serve_all_respects withdrawals_grow rs empty_db)
      as [extra [E Hx]].
    rewrite E. exact Hx.
Qed.

(** ** Follower counts *)

Lemma count_ok_up c : count_ok c -> count_ok (sql_add c 1).
Proof. destruct c; simpl; [lia | trivial]. Qed.

Lemma count_ok_down c : count_ok (sql_greatest_dec c).
Proof. destruct c; simpl; lia. Qed.

Lemma Forall_update {A : Type} (P : A -> Prop) (w : A -> bool) (g : A -> A) (l : list A) :
  (forall x, P x -> P (g x)) ->
  Forall P l -> Forall P (map (fun x => if w x then g x else x) l).
Proof.
  intros Hg Hl. induction Hl as [| x l Hx Hl IH]; simpl; constructor.
  - destruct (w x); [apply Hg |]; exact Hx.
  - exact IH.
Qed.

#[export] Instance keeps_counts_nonneg_order : Order keeps_counts_nonneg.
Proof.
  split.
  - intros d Hd. exact Hd.
  - intros a b c Hab Hbc Ha. auto.
Qed.

#[export] Instance keeps_counts_nonneg_writes : Writes keeps_counts_nonneg.
Proof.
  split; intros; run_stmt; unfold keeps_counts_nonneg, counts_nonneg;
    cbn [users with_users with_videos with_likes with_comments with_follows
         with_withdrawals with_notifications];
    intros Hd; try exact Hd;
    try (apply Forall_update; [| exact Hd]; intros x [Ha Hb]; cbn;
         split; auto using count_ok_up, count_ok_down).
  apply Forall_app. split; [exact Hd |]. constructor; [| constructor].
  cbn. lia.
Qed.



(** ** Credentials and flags *)

Lemma accounts_grow_same d d' :
  map account_core (users d') = map account_core (users d) -> accounts_grow d d'.
Proof.
  intros E. exists []. rewrite app_nil_r. split; [exact E | constructor].
Qed.

#[export] Instance accounts_grow_order : Order accounts_grow.
Proof.
  split.
  - intros d. apply accounts_grow_same. reflexivity.
  - intros a b c [x [Ex Hx]] [y [Ey Hy]]. exists (x ++ y)%list.
    rewrite Ey, Ex, app_assoc. split; [reflexivity | apply Forall_app; auto].
Qed.

#[export] Instance accounts_grow_writes : Writes accounts_grow.
Proof.
  split; intros; run_stmt;
    try (apply accounts_grow_same; cbn; try reflexivity;
         apply map_update_same; reflexivity).
  eexists. cbn. rewrite map_app. split; [reflexivity |].
  constructor; [| constructor]. cbn. auto.
Qed.

(** X5: no route changes an account's identifier, email, username or
    password hash, and none sets [isAdmin], [isBanned] or [isVerified]:
    after any sequence of requests the accounts that existed keep all
    seven, and every account created since is neither admin, banned nor
    verified.  From the empty database no account is ever an admin. *)
Theorem credentials_and_flags_never_change :
  (forall (rs : list Request) (d : Db),
     exists extra,
       map account_core (users (serve_all rs d))
       = (map account_core (users d) ++ extra)%list
       /\ Forall plain_account extra)
  /\ (forall rs : list Request,
        Forall (fun u => User.isAdmin u = Some false /\ User.isBanned u = Some false)
               (users (serve_all rs empty_db))).
Proof.
  split.
  - intros rs d. exact (serve_all_respects accounts_grow rs d).
  - intros rs. destruct (serve_all_respects accounts_grow rs empty_db)
      as [extra [E Hx]].
    cbn in E. apply Forall_forall. intros u Hin.
    assert (Hi : In (account_core u) extra)
      by (rewrite <- E; apply in_map; exact Hin).
    rewrite Forall_forall in Hx. apply Hx in Hi. unfold account_core in Hi.
    cbn in Hi. destruct Hi as [Ha [Hb _]]. auto.
Qed.

(** ** Views and impressions *)

Lemma videos_grow_same d d' :
  map video_core (videos d') = map video_core (videos d) -> videos_grow d d'.
Proof.
  intros E. exists []. rewrite app_nil_r. split; [exact E | constructor].
Qed.

#[export] Instance videos_grow_order : Order videos_grow.
Proof.
  split.
  - intros d. apply videos_grow_same. reflexivity.
  - intros a b c [x [Ex Hx]] [y [Ey Hy]]. exists (x ++ y)%list.
    rewrite Ey, Ex, app_assoc. split; [reflexivity | apply Forall_app; auto].
Qed.

Lemma map_update_video {B : Type} (entry : Video.t -> B) (w : Video.t -> bool)
    (g : Video.t -> Video.t) (l : list Video.t) :
  (forall v, entry (g v) = entry v) ->
  map entry (map (fun v => if w v then g v else v) l) = map entry l.
Proof.
  intros Hg. rewrite map_map. apply map_ext. intros v.
  destruct (w v); [apply Hg | reflexivity].
Qed.

#[export] Instance videos_grow_writes : Writes videos_grow.
Proof.
  split; intros; run_stmt;
    try (apply videos_grow_same; cbn; try reflexivity;
         apply map_update_video; reflexivity).
  eexists. cbn. rewrite map_app. split; [reflexivity |].
  constructor; [| constructor]. cbn. auto.
Qed.

Lemma sum_counts_zero (f : Video.t -> option Z) (l : list Video.t) :
  Forall (fun v => f v = Some 0) l -> sum_counts f l = 0.
Proof.
  intros Hl. unfold sum_counts.
  assert (Hacc : forall acc,
            fold_left (fun sum v => sum + or_default (f v) 0) l acc = acc).
  { induction Hl as [| v l Hv Hl IH]; intros acc; simpl; [reflexivity |].
    rewrite Hv. simpl. rewrite Z.add_0_r. apply IH. }
  apply Hacc.
Qed.

Lemma get_my_stats_response sid uid d :
  fst (serve (mkRequest (Session.mk sid (Some uid)) GetMyStats None) d)
  = ok (JObj [("totalViews",
               JInt (sum_counts Video.viewCount
                       (filter (fun v => Nat.eqb (Video.userId v) uid) (videos d))));
              ("adImpressions",
               JInt (sum_counts Video.adImpressions
                       (filter (fun v => Nat.eqb (Video.userId v) uid) (videos d))))]).
Proof.
  unfold serve. cbn [route req_call req_session req_fault].
  unfold get_my_stats, requireAuth, try_catch, get_session, ret.
  unfold bind at 1. cbn [session Session.userId].
  unfold bind at 1. rewrite await_eq. cbn [fails_now tick select fst snd].
  reflexivity.
Qed.

(** X6: no route records a view or an ad impression, and none deletes or
    unpublishes a video: after any sequence of requests the videos that
    existed keep owner, file, view count, impression count and visibility,
    and every video uploaded since is published with both counts at 0.
    Hence on a database built through the server alone, GET
    /api/users/me/stats always reports 0 views and 0 impressions. *)
Theorem views_are_never_counted :
  (forall (rs : list Request) (d : Db),
     exists extra,
       map video_core (videos (serve_all rs d))
       = (map video_core (videos d) ++ extra)%list
       /\ Forall unwatched extra)
  /\ (forall (rs : list Request) (sid : string) (uid : Id),
        fst (serve (mkRequest (Session.mk sid (Some uid)) GetMyStats None)
                   (serve_all rs empty_db))
        = ok (JObj [("totalViews", JInt 0); ("adImpressions", JInt 0)])).
Proof.
  split.
  - intros rs d. exact (serve_all_respects videos_grow rs d).
  - intros rs sid uid. rewrite get_my_stats_response.
    destruct (serve_all_respects videos_grow rs empty_db) as [extra [E Hx]].
    cbn in E.
    assert (Hall : Forall (fun v => Video.viewCount v = Some 0
                                    /\ Video.adImpressions v = Some 0)
                          (videos (serve_all rs empty_db))).
    { apply Forall_forall. intros v Hin.
      assert (Hi : In (video_core v) extra)
        by (rewrite <- E; apply in_map; exact Hin).
      rewrite Forall_forall in Hx. apply Hx in Hi. unfold video_core in Hi.
      cbn in Hi. destruct Hi as [Hv [Ha _]]. auto. }
    rewrite !sum_counts_zero; [reflexivity | |].
    + apply Forall_forall. intros v Hin. apply filter_In in Hin.
      rewrite Forall_forall in Hall. apply Hall. apply Hin.
    + apply Forall_forall. intros v Hin. apply filter_In in Hin.
      rewrite Forall_forall in Hall. apply Hall. apply Hin.
Qed.

(** ** Running a handler when the storage layer does not fail *)

Lemma bind_ret {A B : Type} (a : A) (k : A -> M B) (s : Store) :
  bind (ret a) k s = k a s.
Proof. reflexivity. Qed.

Lemma bind_throw {A B : Type} (e : string) (k : A -> M B) (s : Store) :
  bind (@throw A e) k s = (Threw e, s).
Proof. reflexivity. Qed.

Lemma bind_get_session {B : Type} (k : Session.t -> M B) (s : Store) :
  bind get_session k s = k (session s) s.
Proof. reflexivity. Qed.

Lemma bind_set_session {B : Type} (v : Session.t) (k : unit -> M B) (s : Store) :
  bind (set_session v) k s = k tt (mkStore (db s) v (fault s)).
Proof. reflexivity. Qed.

Lemma bind_select {A B : Type} (q : Db -> A) (k : A -> M B) d se :
  bind (await (select q)) k (mkStore d se None) = k (q d) (mkStore d se None).
Proof. unfold bind. rewrite await_eq. reflexivity. Qed.

Lemma bind_await {A B : Type} (q : Stmt A) (k : A -> M B) d se :
  bind (await q) k (mkStore d se None)
  = match q d with
    | (Ok a, d1) => k a (mkStore d1 se None)
    | (Threw e, d1) => (Threw e, mkStore d1 se None)
    end.
Proof.
  unfold bind. rewrite await_eq. cbn [fails_now tick].
  destruct (q d) as [[a | e] d1]; reflexivity.
Qed.





Lemma bind_assoc {A B C : Type} (m : M A) (k : A -> M B) (h : B -> M C) (s : Store) :
  bind (bind m k) h s = bind m (fun a => bind (k a) h) s.
Proof. unfold bind. destruct (m s) as [[a | e] s1]; reflexivity. Qed.

Ltac run_pure :=
  repeat first [ rewrite bind_assoc | rewrite bind_ret | rewrite bind_throw
               | rewrite bind_select | rewrite bind_get_session
               | rewrite bind_set_session ].

(** ** Registration and login *)


Lemma serve_route r d :
  serve r d
  = match route (req_call r) (mkStore d (req_session r) (req_fault r)) with
    | (Ok response, s) => (response, db s)
    | (Threw e, s) => (respond 500 e, db s)
    end.
Proof. reflexivity. Qed.




Lemma login_run s e p d :
  route (PostLogin (Some e) (Some p)) (mkStore d s None)
  = match find (fun u => String.eqb (User.email u) (toLowerCase e)) (users d) with
    | None => (Ok (respond 401 "Invalid email or password"), mkStore d s None)
    | Some user =>
        if is_true (User.isBanned user) then
          (Ok (respond 403 "Your account has been suspended"), mkStore d s None)
        else if bcrypt_compare p (User.password user) then
          (Ok (ok (JObj [("user", account_json user);
                         ("token", JStr (Session.sessionID s))])),
           mkStore d (Session.mk (Session.sessionID s) (Some (User.id user))) None)
        else (Ok (respond 401 "Invalid email or password"), mkStore d s None)
    end.
Proof.
  cbn [route]. unfold post_login, try_catch. cbn [defined]. run_pure.
  destruct (find _ (users d)) as [user |]; [| reflexivity].
  destruct (is_true (User.isBanned user)); [reflexivity |].
  run_pure. destruct (bcrypt_compare p (User.password user)); cbn [negb].
  - run_pure. reflexivity.
  - reflexivity.
Qed.

Lemma find_snoc {A : Type} (p : A -> bool) (l : list A) (x : A) :
  existsb p l = false -> p x = true -> find p (l ++ [x]) = Some x.
Proof.
  induction l as [| y l IH]; simpl; intros Hl Hx.
  - rewrite Hx. reflexivity.
  - apply orb_false_iff in Hl. destruct Hl as [Hy Hl]. rewrite Hy. auto.
Qed.




(** X9: POST /api/auth/login refuses without touching the database or the
    session.  An email no account has is answered 401 "Invalid email or
    password"; a banned account is answered 403 "Your account has been
    suspended" whatever the password; a body without email ends in the
    handler's catch with the TypeError of [email.toLowerCase()], as a 500. *)
Theorem login_refusals :
  forall (s : Session.t) (e p : string) (d : Db),
    (find (fun u => String.eqb (User.email u) (toLowerCase e)) (users d) = None ->
     serve (login_request s e p) d = (respond 401 "Invalid email or password", d)
     /\ session_after (login_request s e p) d = s)
    /\ (forall user,
          find (fun u => String.eqb (User.email u) (toLowerCase e)) (users d)
          = Some user ->
          User.isBanned user = Some true ->
          serve (login_request s e p) d
          = (respond 403 "Your account has been suspended", d)
          /\ session_after (login_request s e p) d = s)
    /\ (forall f,
          serve (mkRequest s (PostLogin None (Some p)) f) d
          = (respond 500 (type_error "toLowerCase"), d)
          /\ session_after (mkRequest s (PostLogin None (Some p)) f) d = s).
Proof.
  intros s e p d. split; [| split].
  - intros Hf. unfold session_after. rewrite serve_route. unfold login_request.
    cbn [req_call req_session req_fault]. rewrite login_run, Hf.
    destruct s; split; reflexivity.
  - intros user Hf Hb. unfold session_after. rewrite serve_route.
    unfold login_request. cbn [req_call req_session req_fault].
    rewrite login_run, Hf, Hb. destruct s; split; reflexivity.
  - intros f. destruct s; split; reflexivity.
Qed.

Lemma login_refusals_witness :
  serve (login_request (Session.mk "sid" None) "nobody@example.com" "pw")
        (one_creator (units 50))
  = (respond 401 "Invalid email or password", one_creator (units 50))
  /\ session_after (login_request (Session.mk "sid" None) "nobody@example.com" "pw")
       (one_creator (units 50))
     = Session.mk "sid" None.
Proof.
  destruct (login_refusals (Session.mk "sid" None) "nobody@example.com" "pw"
              (one_creator (units 50))) as [Hunknown _].
  apply Hunknown. reflexivity.
Defined.

(** ** Following and unfollowing *)

Lemma find_update {A : Type} (key : A -> Id) (i : Id) (w : A -> bool) (g : A -> A)
    (l : list A) :
  (forall x, key (g x) = key x) ->
  find (fun x => Nat.eqb (key x) i) (map (fun x => if w x then g x else x) l)
  = option_map (fun x => if w x then g x else x)
      (find (fun x => Nat.eqb (key x) i) l).
Proof.
  intros Hg. induction l as [| x l IH]; simpl; [reflexivity |].
  assert (Hk : key (if w x then g x else x) = key x)
    by (destruct (w x); [apply Hg | reflexivity]).
  rewrite Hk. destruct (Nat.eqb (key x) i); [reflexivity | exact IH].
Qed.

Lemma existsb_update {A : Type} (key : A -> Id) (i : Id) (w : A -> bool) (g : A -> A)
    (l : list A) :
  (forall x, key (g x) = key x) ->
  existsb (fun x => Nat.eqb (key x) i) (map (fun x => if w x then g x else x) l)
  = existsb (fun x => Nat.eqb (key x) i) l.
Proof.
  intros Hg. induction l as [| x l IH]; simpl; [reflexivity |].
  assert (Hk : key (if w x then g x else x) = key x)
    by (destruct (w x); [apply Hg | reflexivity]).
  rewrite Hk, IH. reflexivity.
Qed.

Lemma user_exists_updated i (w : User.t -> bool) (g : User.t -> User.t) X Y :
  (forall u, User.id (g u) = User.id u) ->
  users X = map (fun u => if w u then g u else u) (users Y) ->
  user_exists i X = user_exists i Y.
Proof.
  intros Hg E. unfold user_exists. rewrite E.
  apply (existsb_update User.id). exact Hg.
Qed.

Lemma username_updated i (w : User.t -> bool) (g : User.t -> User.t) X Y :
  (forall u, User.id (g u) = User.id u) ->
  (forall u, User.username (g u) = User.username u) ->
  users X = map (fun u => if w u then g u else u) (users Y) ->
  username_or_undefined (user_by_id i X) = username_or_undefined (user_by_id i Y).
Proof.
  intros Hg Hn E. unfold user_by_id. rewrite E, (find_update User.id) by exact Hg.
  destruct (find _ (users Y)) as [u |]; [| reflexivity].
  simpl. destruct (w u); [apply Hn | reflexivity].
Qed.

Lemma follow_run s me uid d :
  Session.userId s = Some me ->
  route (PostFollow uid) (mkStore d s None)
  = if Nat.eqb uid me then
      (Ok (respond 400 "Cannot follow yourself"), mkStore d s None)
    else
      match follow_of me uid d with
      | Some _ => (Ok (respond 400 "Already following"), mkStore d s None)
      | None =>
          if andb (user_exists me d) (user_exists uid d) then
            (Ok (ok (JObj [("following", JBool true)])),
             mkStore (followed me uid d) s None)
          else
            (Ok (respond 500
                   (foreign_key_violation
                      (if user_exists me d then "follows_following_id_users_id_fk"
                       else "follows_follower_id_users_id_fk"))),
             mkStore d s None)
      end.
Proof.
  intros Hs. cbn [route]. unfold post_follow, requireAuth. run_pure.
  cbn [session]. rewrite Hs. unfold try_catch.
  destruct (Nat.eqb uid me) eqn:Eself; [reflexivity |].
  run_pure. destruct (follow_of me uid d) as [f |] eqn:Ef; [reflexivity |].
  rewrite bind_await. unfold insert_follow.
  destruct (user_exists me d) eqn:Eme; cbn [negb andb]; [| reflexivity].
  destruct (user_exists uid d) eqn:Euid; cbn [negb andb]; [| reflexivity].
  cbn [fresh]. rewrite bind_await. unfold update_users at 1, execute.
  rewrite bind_await. unfold update_users at 1, execute.
  run_pure. rewrite bind_await. unfold insert_notification.
  match goal with
  | |- context [user_exists uid ?X] =>
      replace (user_exists uid X) with true
  end.
  2:{ symmetry. rewrite <- Euid.
      etransitivity; [eapply user_exists_updated; [| reflexivity]; reflexivity |].
      etransitivity; [eapply user_exists_updated; [| reflexivity]; reflexivity |].
      reflexivity. }
  match goal with
  | |- context [username_or_undefined (user_by_id me ?X)] =>
      replace (username_or_undefined (user_by_id me X))
        with (username_or_undefined (user_by_id me d))
  end.
  2:{ symmetry.
      etransitivity;
        [eapply username_updated; [| | reflexivity]; reflexivity |].
      etransitivity;
        [eapply username_updated; [| | reflexivity]; reflexivity |].
      reflexivity. }
  cbn [negb fresh]. run_pure. reflexivity.
Qed.

Lemma follow_serve s me uid d :
  Session.userId s = Some me ->
  uid <> me -> follow_of me uid d = None ->
  user_exists me d = true -> user_exists uid d = true ->
  serve (follow_request s uid) d
  = (ok (JObj [("following", JBool true)]), followed me uid d).
Proof.
  intros Hs Hne Hf Hme Huid. unfold follow_request. rewrite serve_route.
  cbn [req_call req_session req_fault]. rewrite (follow_run s me uid d Hs).
  apply Nat.eqb_neq in Hne. rewrite Hne, Hf, Hme, Huid. reflexivity.
Qed.



Lemma unfollow_run s me uid d :
  Session.userId s = Some me ->
  route (DeleteFollow uid) (mkStore d s None)
  = match follow_of me uid d with
    | None => (Ok (respond 400 "Not following"), mkStore d s None)
    | Some follow =>
        (Ok (ok (JObj [("following", JBool false)])),
         mkStore
           (with_users
              (map (fun u => if Nat.eqb (User.id u) me
                             then User.set_followingCount sql_greatest_dec u else u))
              (with_users
                 (map (fun u => if Nat.eqb (User.id u) uid
                                then User.set_followerCount sql_greatest_dec u else u))
                 (with_follows
                    (filter (fun f => negb (Nat.eqb (Follow.id f) (Follow.id follow))))
                    d)))
           s None)
    end.
Proof.
  intros Hs. cbn [route]. unfold delete_follow, requireAuth. run_pure.
  cbn [session]. rewrite Hs. unfold try_catch. run_pure.
  destruct (follow_of me uid d) as [f |]; [| reflexivity].
  rewrite bind_await. unfold delete_follows, execute.
  rewrite bind_await. unfold update_users at 1, execute.
  rewrite bind_await. unfold update_users at 1, execute.
  run_pure. reflexivity.
Qed.

Lemma find_none_existsb_false {A : Type} (p : A -> bool) (l : list A) :
  find p l = None -> existsb p l = false.
Proof.
  induction l as [| x l IH]; simpl; [reflexivity |].
  destruct (p x); [discriminate | exact IH].
Qed.

Lemma filter_drops_last {A : Type} (key : A -> Id) (n : Id) (l : list A) (x : A) :
  Forall (fun y => (key y < n)%nat) l -> key x = n ->
  filter (fun y => negb (Nat.eqb (key y) n)) (l ++ [x]) = l.
Proof.
  intros Hl Hx. rewrite filter_app. simpl. rewrite Hx, Nat.eqb_refl. simpl.
  rewrite app_nil_r. induction Hl as [| y l Hy Hl IH]; simpl; [reflexivity |].
  assert (E : Nat.eqb (key y) n = false) by (apply Nat.eqb_neq; lia).
  rewrite E. simpl. f_equal. exact IH.
Qed.

Lemma follow_counts_restored me uid (u : User.t) :
  uid <> me -> counted u ->
  (fun x => if Nat.eqb (User.id x) me
            then User.set_followingCount sql_greatest_dec x else x)
    ((fun x => if Nat.eqb (User.id x) uid
               then User.set_followerCount sql_greatest_dec x else x)
       ((fun x => if Nat.eqb (User.id x) me
                  then User.set_followingCount (fun c => sql_add c 1) x else x)
          ((fun x => if Nat.eqb (User.id x) uid
                     then User.set_followerCount (fun c => sql_add c 1) x else x) u)))
  = u.
Proof.
  intros Hne [[a [Ea Ha]] [b [Eb Hb]]]. destruct u. cbn in Ea, Eb. subst.
  unfold User.set_followerCount, User.set_followingCount, sql_add, sql_greatest_dec.
  cbn -[Z.max Z.add Z.sub].
  destruct (Nat.eqb id uid) eqn:E1, (Nat.eqb id me) eqn:E2;
    repeat (progress (rewrite ?E1, ?E2; cbn -[Z.max Z.add Z.sub]));
    try reflexivity.
  - apply Nat.eqb_eq in E1, E2. congruence.
  - do 2 f_equal. lia.
  - do 2 f_equal. lia.
Qed.

(** X11: unfollowing undoes following.  When [me] follows [userId] for the
    first time and then sends DELETE /api/users/:userId/follow, the answer
    is 200 and the [follows] table and every account, counters included,
    are exactly as before the follow; only the notification stays.  It
    needs the counters to hold non-negative numbers: [GREATEST(count - 1,
    0)] is the inverse of [count + 1] only there. *)
Theorem follow_then_unfollow :
  forall (s : Session.t) (me uid : Id) (d : Db),
    Session.userId s = Some me -> uid <> me ->
    follow_of me uid d = None ->
    user_exists me d = true -> user_exists uid d = true ->
    Forall counted (users d) -> fresh_ids d ->
    exists d',
      serve (unfollow_request s uid) (snd (serve (follow_request s uid) d))
      = (ok (JObj [("following", JBool false)]), d')
      /\ users d' = users d /\ follows d' = follows d
      /\ videos d' = videos d /\ likes d' = likes d /\ comments d' = comments d
      /\ withdrawals d' = withdrawals d.
Proof.
  intros s me uid d Hs Hne Hf Hme Huid Hc [_ Hfresh].
  rewrite (follow_serve s me uid d Hs Hne Hf Hme Huid). cbn [snd].
  unfold unfollow_request. rewrite serve_route.
  cbn [req_call req_session req_fault]. rewrite (unfollow_run s me uid _ Hs).
  assert (Hfound : follow_of me uid (followed me uid d)
                   = Some (Follow.mk (next_id d) me uid)).
  { unfold follow_of, followed. cbn [follows]. apply find_snoc.
    - apply find_none_existsb_false. exact Hf.
    - cbn. rewrite !Nat.eqb_refl. reflexivity. }
  rewrite Hfound. eexists. split; [reflexivity |].
  cbn [users follows videos likes comments withdrawals with_users with_follows
       followed Follow.id db].
  repeat split.
  - rewrite !map_map. rewrite <- (map_id (users d)) at 2.
    apply map_ext_in. intros u Hin. rewrite Forall_forall in Hc.
    apply (follow_counts_restored me uid u Hne (Hc u Hin)).
  - apply (filter_drops_last Follow.id); [exact Hfresh | reflexivity].
Qed.

Lemma small_site_counted : Forall counted (users small_site).
Proof.
  repeat constructor; cbn; eexists; (split; [reflexivity | lia]).
Qed.

Lemma small_site_fresh : fresh_ids small_site.
Proof. split; constructor. Qed.

Lemma follow_then_unfollow_witness :
  exists d',
    serve (unfollow_request viewer_session 0%nat)
          (snd (serve (follow_request viewer_session 0%nat) small_site))
    = (ok (JObj [("following", JBool false)]), d')
    /\ users d' = users small_site /\ follows d' = follows small_site
    /\ videos d' = videos small_site /\ likes d' = likes small_site
    /\ comments d' = comments small_site
    /\ withdrawals d' = withdrawals small_site.
Proof.
  apply (follow_then_unfollow viewer_session 1%nat 0%nat small_site).
  - reflexivity.
  - discriminate.
  - reflexivity.
  - reflexivity.
  - reflexivity.
  - exact small_site_counted.
  - exact small_site_fresh.
Defined.

#[export] Instance keeps_fresh_ids_order : Order keeps_fresh_ids.
Proof.
  split.
  - intros d Hd. exact Hd.
  - intros a b c Hab Hbc Ha. auto.
Qed.

Lemma Forall_lt_S {A : Type} (key : A -> Id) (n : Id) (l : list A) :
  Forall (fun x => (key x < n)%nat) l -> Forall (fun x => (key x < S n)%nat) l.
Proof. intros Hl. eapply Forall_impl; [| exact Hl]. simpl. intros; lia. Qed.

Lemma Forall_filter {A : Type} (P : A -> Prop) (p : A -> bool) (l : list A) :
  Forall P l -> Forall P (filter p l).
Proof.
  intros Hl. apply Forall_forall. intros x Hin. apply filter_In in Hin.
  rewrite Forall_forall in Hl. apply Hl. apply Hin.
Qed.

(** The precondition of the two undo properties is kept by every request. *)
#[export] Instance keeps_fresh_ids_writes : Writes keeps_fresh_ids.
Proof.
  split; intros; run_stmt; unfold keeps_fresh_ids, fresh_ids;
    cbn [likes follows next_id with_users with_videos with_likes with_comments
         with_follows with_withdrawals with_notifications];
    intros [Hl Hf]; try (split; assumption);
    try (split; apply Forall_lt_S; assumption);
    try (split; [apply Forall_filter | ]; assumption);
    try (split; [| apply Forall_filter]; assumption).
  - split; [| apply Forall_lt_S; exact Hf].
    apply Forall_app. split; [apply Forall_lt_S; exact Hl |].
    constructor; [cbn; lia | constructor].
  - split; [apply Forall_lt_S; exact Hl |].
    apply Forall_app. split; [apply Forall_lt_S; exact Hf |].
    constructor; [cbn; lia | constructor].
Qed.

(** ** Liking and taking a like back *)

Lemma video_by_id_exists i d v : video_by_id i d = Some v -> video_exists i d = true.
Proof.
  unfold video_by_id, video_exists. intros E. apply find_some in E.
  apply existsb_exists. exists v. exact E.
Qed.

Lemma like_run s me vid d v :
  Session.userId s = Some me ->
  like_of me vid d = None ->
  user_exists me d = true ->
  video_by_id vid d = Some v ->
  user_exists (Video.userId v) d = true ->
  route (PostLike vid) (mkStore d s None)
  = (Ok (ok (JObj [("liked", JBool true)])), mkStore (liked me vid d) s None).
Proof.
  intros Hs Hl Hme Hv Howner. cbn [route]. unfold post_like, requireAuth.
  run_pure. cbn [session]. rewrite Hs. unfold try_catch. run_pure.
  unfold like_of in Hl. rewrite Hl.
  rewrite bind_await. unfold insert_like.
  rewrite Hme, (video_by_id_exists _ _ _ Hv). cbn [negb fresh].
  rewrite bind_await. unfold update_videos, execute. run_pure.
  unfold liked. rewrite Hv.
  match goal with
  | |- context [video_by_id vid ?X] =>
      replace (video_by_id vid X)
        with (Some (Video.set_likeCount (fun c => sql_add c 1) v))
  end.
  2:{ symmetry. unfold video_by_id. cbn [videos with_videos].
      rewrite (find_update Video.id) by reflexivity.
      unfold video_by_id in Hv. cbn [videos with_likes] in *. rewrite Hv.
      cbn [option_map]. apply find_some in Hv. destruct Hv as [_ Hid].
      rewrite Hid. reflexivity. }
  cbn [Video.userId Video.set_likeCount].
  destruct (Nat.eqb (Video.userId v) me) eqn:Eown; cbn [negb].
  - run_pure. reflexivity.
  - run_pure. rewrite bind_await. unfold insert_notification.
    match goal with
    | |- context [user_exists (Video.userId v) ?X] =>
        change (user_exists (Video.userId v) X) with (user_exists (Video.userId v) d)
    end.
    rewrite Howner. cbn [negb fresh]. run_pure. reflexivity.
Qed.

Lemma unlike_run s me vid d l :
  Session.userId s = Some me ->
  like_of me vid d = Some l ->
  route (PostLike vid) (mkStore d s None)
  = (Ok (ok (JObj [("liked", JBool false)])), mkStore (unliked l vid d) s None).
Proof.
  intros Hs Hl. cbn [route]. unfold post_like, requireAuth.
  run_pure. cbn [session]. rewrite Hs. unfold try_catch. run_pure.
  unfold like_of in Hl. rewrite Hl.
  rewrite bind_await. unfold delete_likes, execute.
  rewrite bind_await. unfold update_videos, execute. run_pure. reflexivity.
Qed.

Lemma like_serve s me vid d v :
  Session.userId s = Some me ->
  like_of me vid d = None -> user_exists me d = true ->
  video_by_id vid d = Some v -> user_exists (Video.userId v) d = true ->
  serve (like_request s vid) d = (ok (JObj [("liked", JBool true)]), liked me vid d).
Proof.
  intros Hs Hl Hme Hv Ho. unfold like_request. rewrite serve_route.
  cbn [req_call req_session req_fault].
  rewrite (like_run s me vid d v Hs Hl Hme Hv Ho). reflexivity.
Qed.

Lemma unlike_serve s me vid d l :
  Session.userId s = Some me ->
  like_of me vid d = Some l ->
  serve (like_request s vid) d = (ok (JObj [("liked", JBool false)]), unliked l vid d).
Proof.
  intros Hs Hl. unfold like_request. rewrite serve_route.
  cbn [req_call req_session req_fault].
  rewrite (unlike_run s me vid d l Hs Hl). reflexivity.
Qed.

(** X12: POST /api/videos/:videoId/like is a toggle.  If the user has no
    like on the video, the answer is [{liked: true}]: one like row is
    appended, the video's [likeCount] goes up by one, and the owner gets the
    notification "@name liked your video" unless the owner is the user.  If
    the user already has one, the answer is [{liked: false}]: that row is
    deleted and [likeCount] goes down by one, with no lower bound. *)
Theorem like_outcomes :
  forall (s : Session.t) (me vid : Id) (d : Db),
    Session.userId s = Some me ->
    (forall v,
       like_of me vid d = None -> user_exists me d = true ->
       video_by_id vid d = Some v -> user_exists (Video.userId v) d = true ->
       serve (like_request s vid) d
       = (ok (JObj [("liked", JBool true)]), liked me vid d))
    /\ (forall l,
          like_of me vid d = Some l ->
          serve (like_request s vid) d
          = (ok (JObj [("liked", JBool false)]), unliked l vid d)).
Proof.
  intros s me vid d Hs. split.
  - intros v Hl Hme Hv Ho. unfold like_request. rewrite serve_route.
    cbn [req_call req_session req_fault].
    rewrite (like_run s me vid d v Hs Hl Hme Hv Ho). reflexivity.
  - intros l Hl. unfold like_request. rewrite serve_route.
    cbn [req_call req_session req_fault].
    rewrite (unlike_run s me vid d l Hs Hl). reflexivity.
Qed.

Lemma like_outcomes_witness :
  serve (like_request viewer_session 2%nat) small_site
  = (ok (JObj [("liked", JBool true)]), liked 1%nat 2%nat small_site).
Proof.
  destruct (like_outcomes viewer_session 1%nat 2%nat small_site eq_refl)
    as [Hlike _].
  apply (Hlike clip); reflexivity.
Defined.

Lemma liked_tables me vid d :
  likes (liked me vid d) = (likes d ++ [Like.mk (next_id d) me vid])%list
  /\ videos (liked me vid d)
     = map (fun v => if Nat.eqb (Video.id v) vid
                     then Video.set_likeCount (fun c => sql_add c 1) v else v)
           (videos d)
  /\ users (liked me vid d) = users d /\ comments (liked me vid d) = comments d
  /\ follows (liked me vid d) = follows d
  /\ withdrawals (liked me vid d) = withdrawals d.
Proof.
  unfold liked. destruct (video_by_id vid d) as [v |];
    [destruct (negb (Nat.eqb (Video.userId v) me)) |]; repeat split.
Qed.

Lemma like_count_restored vid (v : Video.t) :
  (fun x => if Nat.eqb (Video.id x) vid
            then Video.set_likeCount (fun c => sql_sub c 1) x else x)
    ((fun x => if Nat.eqb (Video.id x) vid
               then Video.set_likeCount (fun c => sql_add c 1) x else x) v)
  = v.
Proof.
  destruct v. unfold Video.set_likeCount, sql_add, sql_sub.
  cbn -[Z.add Z.sub].
  destruct (Nat.eqb id vid) eqn:E; cbn -[Z.add Z.sub]; rewrite ?E;
    cbn -[Z.add Z.sub]; [| reflexivity].
  destruct likeCount as [c |]; [| reflexivity].
  do 2 f_equal. lia.
Qed.

(** X13: liking twice changes nothing but the notification.  When a user
    likes a video for the first time and then sends the same request again,
    the second answer is [{liked: false}] and the [likes] table and every
    video, [likeCount] included (NULL too), are exactly as before. *)
Theorem like_twice_restores :
  forall (s : Session.t) (me vid : Id) (d : Db) (v : Video.t),
    Session.userId s = Some me ->
    like_of me vid d = None -> user_exists me d = true ->
    video_by_id vid d = Some v -> user_exists (Video.userId v) d = true ->
    fresh_ids d ->
    exists d',
      serve (like_request s vid) (snd (serve (like_request s vid) d))
      = (ok (JObj [("liked", JBool false)]), d')
      /\ likes d' = likes d /\ videos d' = videos d /\ users d' = users d
      /\ comments d' = comments d /\ follows d' = follows d
      /\ withdrawals d' = withdrawals d.
Proof.
  intros s me vid d v Hs Hl Hme Hv Ho [Hfresh _].
  rewrite (like_serve s me vid d v Hs Hl Hme Hv Ho). cbn [snd].
  destruct (liked_tables me vid d) as [El [Ev [Eu [Ec [Ef Ew]]]]].
  assert (Hfound : like_of me vid (liked me vid d) = Some (Like.mk (next_id d) me vid)).
  { unfold like_of. rewrite El. apply find_snoc.
    - apply find_none_existsb_false. exact Hl.
    - cbn. rewrite !Nat.eqb_refl. reflexivity. }
  rewrite (unlike_serve s me vid (liked me vid d) _ Hs Hfound).
  eexists. split; [reflexivity |].
  unfold unliked. cbn [likes videos users comments follows withdrawals
                       with_videos with_likes Like.id].
  rewrite El, Ev, Eu, Ec, Ef, Ew. repeat split.
  - apply (filter_drops_last Like.id); [exact Hfresh | reflexivity].
  - rewrite map_map. rewrite <- (map_id (videos d)) at 2.
    apply map_ext. intros x. apply like_count_restored.
Qed.

Lemma like_twice_restores_witness :
  exists d',
    serve (like_request viewer_session 2%nat)
          (snd (serve (like_request viewer_session 2%nat) small_site))
    = (ok (JObj [("liked", JBool false)]), d')
    /\ likes d' = likes small_site /\ videos d' = videos small_site
    /\ users d' = users small_site /\ comments d' = comments small_site
    /\ follows d' = follows small_site
    /\ withdrawals d' = withdrawals small_site.
Proof.
  apply (like_twice_restores viewer_session 1%nat 2%nat small_site clip);
    try reflexivity.
  exact small_site_fresh.
Defined.

(** ** Marking notifications read *)

Lemma read_all_run s me d :
  Session.userId s = Some me ->
  route PostReadAll (mkStore d s None)
  = (Ok (ok (JObj [("success", JBool true)])), mkStore (marked_read me d) s None).
Proof.
  intros Hs. cbn [route]. unfold post_read_all, requireAuth. run_pure.
  cbn [session]. rewrite Hs. unfold try_catch.
  rewrite bind_await. unfold update_notifications, execute. run_pure. reflexivity.
Qed.

Lemma mark_read_twice me (n : Notification.t) :
  (fun x => if Nat.eqb (Notification.userId x) me
            then Notification.set_isRead (Some true) x else x)
    ((fun x => if Nat.eqb (Notification.userId x) me
               then Notification.set_isRead (Some true) x else x) n)
  = (fun x => if Nat.eqb (Notification.userId x) me
              then Notification.set_isRead (Some true) x else x) n.
Proof.
  destruct n. unfold Notification.set_isRead. cbn.
  destruct (Nat.eqb userId me) eqn:E; cbn; rewrite E; reflexivity.
Qed.

(** X14: POST /api/notifications/read-all answers [{success: true}], sets
    [isRead] on every notification of the caller, leaves the notifications
    of everyone else as they are, and changes nothing when repeated. *)
Theorem read_all_marks_own_notifications :
  forall (s : Session.t) (me : Id) (d : Db),
    Session.userId s = Some me ->
    serve (read_all_request s) d
    = (ok (JObj [("success", JBool true)]), marked_read me d)
    /\ Forall (fun n => Notification.userId n = me -> Notification.isRead n = Some true)
              (notifications (marked_read me d))
    /\ filter (fun n => negb (Nat.eqb (Notification.userId n) me))
              (notifications (marked_read me d))
       = filter (fun n => negb (Nat.eqb (Notification.userId n) me)) (notifications d)
    /\ serve (read_all_request s) (marked_read me d)
       = (ok (JObj [("success", JBool true)]), marked_read me d).
Proof.
  intros s me d Hs.
  assert (Hrun : forall x, serve (read_all_request s) x
                           = (ok (JObj [("success", JBool true)]), marked_read me x)).
  { intros x. unfold read_all_request. rewrite serve_route.
    cbn [req_call req_session req_fault]. rewrite (read_all_run s me x Hs).
    reflexivity. }
  split; [apply Hrun | split; [| split]].
  - unfold marked_read. cbn [notifications with_notifications].
    apply Forall_forall. intros n Hin. apply in_map_iff in Hin.
    destruct Hin as [x [<- _]]. destruct x. unfold Notification.set_isRead. cbn.
    destruct (Nat.eqb userId me) eqn:E; cbn; [reflexivity |].
    intros ->. rewrite Nat.eqb_refl in E. discriminate.
  - unfold marked_read. cbn [notifications with_notifications].
    induction (notifications d) as [| n l IH]; [reflexivity |].
    cbn [map filter].
    destruct (Nat.eqb (Notification.userId n) me) eqn:E.
    + destruct n. unfold Notification.set_isRead. cbn in *. rewrite E. cbn.
      exact IH.
    + rewrite E. cbn. rewrite IH. reflexivity.
  - rewrite Hrun. f_equal. unfold marked_read, with_notifications.
    cbn [notifications users videos likes comments follows withdrawals next_id].
    rewrite map_map.
    rewrite (map_ext _ _ (mark_read_twice me)). reflexivity.
Qed.

Lemma read_all_marks_own_notifications_witness :
  serve (read_all_request creator_session)
        (liked 1%nat 2%nat small_site)
  = (ok (JObj [("success", JBool true)]),
     marked_read 0%nat (liked 1%nat 2%nat small_site)).
Proof.
  destruct (read_all_marks_own_notifications creator_session 0%nat
              (liked 1%nat 2%nat small_site) eq_refl) as [Hrun _].
  exact Hrun.
Defined.

(** ** What the API shows after a withdrawal request *)

Lemma get_withdrawals_run s me d :
  Session.userId s = Some me ->
  serve (mkRequest s GetWithdrawals None) d
  = (ok (JArr (map withdrawal_json (my_withdrawals me d))), d).
Proof.
  intros Hs. rewrite serve_route. cbn [req_call req_session req_fault route].
  unfold get_withdrawals, requireAuth. run_pure. cbn [session]. rewrite Hs.
  unfold try_catch. run_pure. reflexivity.
Qed.

Lemma get_me_run s me d user :
  Session.userId s = Some me -> user_by_id me d = Some user ->
  serve (mkRequest s GetMe None) d
  = (ok (JObj [("user", account_json user)]), d).
Proof.
  intros Hs Hu. rewrite serve_route. cbn [req_call req_session req_fault route].
  unfold get_me, requireAuth. run_pure. cbn [session]. rewrite Hs.
  unfold try_catch. run_pure. rewrite Hu. reflexivity.
Qed.

(** X15: a successful withdrawal request is what the API shows next.  GET
    /api/withdrawals lists only the caller's requests, newest first; right
    after a successful POST /api/withdrawals the created row heads the list,
    and GET /api/auth/me reports the balance lowered by the amount. *)
Theorem withdrawal_is_visible :
  forall (s : Session.t) (me : Id) (user : User.t) (a : decimal)
         (wa net : string) (d : Db),
    Session.userId s = Some me -> user_by_id me d = Some user ->
    minimum_withdrawal <= a <= parse_balance user ->
    Forall (fun w => Withdrawal.userId w = me) (my_withdrawals me d)
    /\ fst (serve (mkRequest s GetWithdrawals None)
              (snd (serve (post_withdrawals_request s (Some a) (Some wa) (Some net) None) d)))
       = ok (JArr (withdrawal_json (pending_row (next_id d) me a wa net)
                   :: map withdrawal_json (my_withdrawals me d)))
    /\ fst (serve (mkRequest s GetMe None)
              (snd (serve (post_withdrawals_request s (Some a) (Some wa) (Some net) None) d)))
       = ok (JObj [("user",
                    account_json
                      (User.set_availableBalance (fun b => sql_sub b a) user))]).
Proof.
  intros s me user a wa net d Hs Hu Hb.
  assert (Hpost :
    serve (post_withdrawals_request s (Some a) (Some wa) (Some net) None) d
    = (ok (withdrawal_json (pending_row (next_id d) me a wa net)),
       notified me a (pending_row (next_id d) me a wa net)
         (deducted me a (with_row (pending_row (next_id d) me a wa net) d))))
    by exact (post_withdrawals_success s me user a wa net d Hs Hu Hb).
  split; [| split].
  - unfold my_withdrawals. apply Forall_forall. intros w Hin.
    apply in_rev in Hin. apply filter_In in Hin. apply Nat.eqb_eq. apply Hin.
  - rewrite Hpost. cbn [snd].
    rewrite (get_withdrawals_run s me _ Hs). cbn [fst]. do 2 f_equal.
    unfold my_withdrawals.
    cbn [withdrawals notified deducted with_row with_withdrawals with_users
         with_notifications fresh snd].
    rewrite filter_app. cbn [filter pending_row Withdrawal.userId].
    rewrite Nat.eqb_refl, rev_app_distr. reflexivity.
  - rewrite Hpost. cbn [snd].
    rewrite (get_me_run s me _ (User.set_availableBalance (fun b => sql_sub b a) user) Hs).
    + reflexivity.
    + change (user_by_id me (notified me a ?r ?x)) with (user_by_id me x).
      apply user_by_id_deducted. exact Hu.
Qed.

Lemma withdrawal_is_visible_witness :
  fst (serve (mkRequest creator_session GetWithdrawals None)
         (snd (serve (post_withdrawals_request creator_session (Some (units 20))
                        (Some wallet) (Some "BEP20") None)
                     (one_creator (units 50)))))
  = ok (JArr (withdrawal_json (pending_row 1%nat 0%nat (units 20) wallet "BEP20")
              :: map withdrawal_json (my_withdrawals 0%nat (one_creator (units 50))))).
Proof.
  destruct (withdrawal_is_visible creator_session 0%nat (creator (units 50))
              (units 20) wallet "BEP20" (one_creator (units 50)) eq_refl eq_refl)
    as [_ [Hlist _]].
  - split; discriminate.
  - exact Hlist.
Defined.



(** ** The profile after a follow *)

Lemma get_user_run s me uid d u :
  Session.userId s = Some me -> uid <> me -> user_by_id uid d = Some u ->
  serve (mkRequest s (GetUser uid) None) d
  = (ok (JObj [("id", JId (User.id u));
               ("username", JStr (User.username u));
               ("displayName", jopt JStr (User.displayName u));
               ("bio", jopt JStr (User.bio u));
               ("avatarUrl", jopt JStr (User.avatarUrl u));
               ("isVerified", jopt JBool (User.isVerified u));
               ("followerCount", jopt JInt (User.followerCount u));
               ("followingCount", jopt JInt (User.followingCount u));
               ("isFollowing",
                JBool (match follow_of me uid d with
                       | Some _ => true
                       | None => false
                       end))]), d).
Proof.
  intros Hs Hne Hu. rewrite serve_route. cbn [req_call req_session req_fault route].
  unfold get_user, try_catch. run_pure. rewrite Hu. run_pure.
  cbn [session]. rewrite Hs.
  assert (E : Nat.eqb me uid = false) by (apply Nat.eqb_neq; congruence).
  rewrite E. cbn [negb]. run_pure. reflexivity.
Qed.

Lemma user_by_id_followed me uid d u :
  uid <> me -> user_by_id uid d = Some u ->
  user_by_id uid (followed me uid d)
  = Some (User.set_followerCount (fun c => sql_add c 1) u).
Proof.
  intros Hne Hu. unfold user_by_id, followed. cbn [users].
  rewrite (find_update User.id) by reflexivity.
  rewrite (find_update User.id) by reflexivity.
  unfold user_by_id in Hu. rewrite Hu. cbn [option_map].
  apply find_some in Hu. destruct Hu as [_ Hid]. rewrite Hid.
  cbn [User.id User.set_followerCount].
  apply Nat.eqb_eq in Hid. rewrite Hid.
  assert (E : Nat.eqb uid me = false) by (apply Nat.eqb_neq; exact Hne).
  rewrite E. reflexivity.
Qed.

(** X17: a follow is what the profile shows next.  Before the follow, GET
    /api/users/:userId answers [isFollowing: false] to the caller; right
    after a successful follow it answers [isFollowing: true] and a
    [followerCount] one higher, with the rest of the profile unchanged. *)
Theorem follow_is_visible :
  forall (s : Session.t) (me uid : Id) (u : User.t) (d : Db),
    Session.userId s = Some me -> uid <> me ->
    follow_of me uid d = None ->
    user_exists me d = true -> user_by_id uid d = Some u ->
    fst (serve (mkRequest s (GetUser uid) None) d)
    = ok (JObj [("id", JId (User.id u));
                ("username", JStr (User.username u));
                ("displayName", jopt JStr (User.displayName u));
                ("bio", jopt JStr (User.bio u));
                ("avatarUrl", jopt JStr (User.avatarUrl u));
                ("isVerified", jopt JBool (User.isVerified u));
                ("followerCount", jopt JInt (User.followerCount u));
                ("followingCount", jopt JInt (User.followingCount u));
                ("isFollowing", JBool false)])
    /\ fst (serve (mkRequest s (GetUser uid) None)
              (snd (serve (follow_request s uid) d)))
       = ok (JObj [("id", JId (User.id u));
                   ("username", JStr (User.username u));
                   ("displayName", jopt JStr (User.displayName u));
                   ("bio", jopt JStr (User.bio u));
                   ("avatarUrl", jopt JStr (User.avatarUrl u));
                   ("isVerified", jopt JBool (User.isVerified u));
                   ("followerCount", jopt JInt (sql_add (User.followerCount u) 1));
                   ("followingCount", jopt JInt (User.followingCount u));
                   ("isFollowing", JBool true)]).
Proof.
  intros s me uid u d Hs Hne Hf Hme Hu. split.
  - rewrite (get_user_run s me uid d u Hs Hne Hu), Hf. reflexivity.
  - rewrite (follow_serve s me uid d Hs Hne Hf Hme (user_by_id_exists _ _ _ Hu)).
    cbn [snd].
    rewrite (get_user_run s me uid _ _ Hs Hne (user_by_id_followed me uid d u Hne Hu)).
    assert (Hfound : follow_of me uid (followed me uid d)
                     = Some (Follow.mk (next_id d) me uid)).
    { unfold follow_of, followed. cbn [follows]. apply find_snoc.
      - apply find_none_existsb_false. exact Hf.
      - cbn. rewrite !Nat.eqb_refl. reflexivity. }
    rewrite Hfound. reflexivity.
Qed.

Lemma follow_is_visible_witness :
  fst (serve (mkRequest viewer_session (GetUser 0%nat) None)
         (snd (serve (follow_request viewer_session 0%nat) small_site)))
  = ok (JObj [("id", JId 0%nat);
              ("username", JStr "creator");
              ("displayName", JStr "Creator");
              ("bio", JNull);
              ("avatarUrl", JNull);
              ("isVerified", JBool false);
              ("followerCount", JInt 1);
              ("followingCount", JInt 0);
              ("isFollowing", JBool true)]).
Proof.
  assert (Hne : 0%nat <> 1%nat) by discriminate.
  exact (proj2 (follow_is_visible viewer_session 1%nat 0%nat (creator (units 50))
                  small_site eq_refl Hne eq_refl eq_refl eq_refl)).
Defined.

(** ** Uploading a video *)






(** ** Hashtags *)




(** ** Commenting *)









(** ** Taking a computation apart *)

Lemma bind_inv {A B : Type} (m : M A) (k : A -> M B) s r s' :
  bind m k s = (r, s') ->
  (exists a s1, m s = (Ok a, s1) /\ k a s1 = (r, s'))
  \/ (exists e, m s = (Threw e, s') /\ r = Threw e).
Proof.
  unfold bind. destruct (m s) as [[a | e] s1]; intros E.
  - left. exists a, s1. auto.
  - right. inversion E; subst. exists e. auto.
Qed.

Lemma try_catch_inv (body : M Response) s r s' :
  try_catch body internal_error s = (r, s') -> exists r0, body s = (r0, s').
Proof.
  unfold try_catch. destruct (body s) as [[a | e] s1]; intros E;
    inversion E; subst; eexists; reflexivity.
Qed.

Lemma await_inv {A : Type} (q : Stmt A) s r s' :
  await q s = (r, s') -> db s' = db s \/ q (db s) = (r, db s').
Proof.
  destruct s as [d se f]. rewrite await_eq. cbn [db].
  destruct (fails_now f); intros E; inversion E; subst; cbn [db].
  - left. reflexivity.
  - right. apply surjective_pairing.
Qed.

Lemma select_inv {A : Type} (q : Db -> A) s a s' :
  await (select q) s = (Ok a, s') ->
  a = q (db s) /\ db s' = db s /\ session s' = session s.
Proof.
  destruct s as [d se f]. rewrite await_eq. cbn [db session].
  destruct (fails_now f); intros E; inversion E; subst. auto.
Qed.

Lemma requireAuth_inv next s r s' :
  requireAuth next s = (r, s') ->
  (Session.userId (session s) = None /\ s' = s)
  \/ exists me, Session.userId (session s) = Some me /\ next me s = (r, s').
Proof.
  unfold requireAuth. rewrite bind_get_session.
  destruct (Session.userId (session s)) as [me |]; intros E.
  - right. exists me. auto.
  - left. inversion E; subst. auto.
Qed.

(** ** Likes stay unique *)

#[export] Instance likes_same_order : Order likes_same.
Proof. split; unfold likes_same; intros; congruence. Qed.

Ltac keeps_table :=
  cbv zeta; unfold internal_error;
  repeat first [ respects_step
               | match goal with
                 | |- stmt_effect _ _ => run_stmt; reflexivity
                 end ].

Lemma others_keep_likes (c : Call) :
  (forall v, c <> PostLike v) -> effect likes_same (route c).
Proof.
  intros Hc. destruct c; cbn [route]; try (exfalso; eapply Hc; reflexivity).
  - unfold post_register. keeps_table.
  - unfold post_login. keeps_table.
  - unfold get_me. keeps_table.
  - unfold post_logout. keeps_table.
  - unfold get_feed. keeps_table.
  - unfold get_trending. keeps_table.
  - unfold post_upload. keeps_table.
  - unfold get_comments. keeps_table.
  - unfold post_comment. keeps_table.
  - unfold get_my_videos. keeps_table.
  - unfold get_my_stats. keeps_table.
  - unfold get_earnings_stats. keeps_table.
  - unfold get_user. keeps_table.
  - unfold get_user_videos. keeps_table.
  - unfold post_follow. keeps_table.
  - unfold delete_follow. keeps_table.
  - unfold get_notifications. keeps_table.
  - unfold post_read_all. keeps_table.
  - unfold get_withdrawals. keeps_table.
  - unfold post_withdrawals. keeps_table.
Qed.

Lemma post_like_likes vid s r s' :
  route (PostLike vid) s = (r, s') ->
  likes (db s') = likes (db s)
  \/ (exists me, like_of me vid (db s) = None
                 /\ likes (db s') = (likes (db s) ++ [Like.mk (next_id (db s)) me vid])%list)
  \/ (exists l, likes (db s')
                = filter (fun x => negb (Nat.eqb (Like.id x) (Like.id l))) (likes (db s))).
Proof.
  cbn [route]. unfold post_like. intros E.
  apply requireAuth_inv in E. destruct E as [[_ ->] | [me [_ E]]]; [left; reflexivity |].
  apply try_catch_inv in E. destruct E as [r0 E].
  apply bind_inv in E. destruct E as [[found [s1 [Esel E]]] | [e [Esel _]]].
  2:{ left. apply await_inv in Esel. destruct Esel as [H | H];
        [rewrite H; reflexivity | inversion H]. }
  apply select_inv in Esel. destruct Esel as [-> [Hdb _]].
  destruct (find _ (likes (db s))) as [l |] eqn:Efound.
  - apply bind_inv in E. destruct E as [[[] [s2 [Edel E]]] | [e [Edel _]]].
    + assert (Hrest : likes (db s') = likes (db s2)).
      { revert E. generalize s2 r0 s'.
        change (effect likes_same
                  (bind (await (update_videos (fun v => Nat.eqb (Video.id v) vid)
                                  (Video.set_likeCount (fun c => sql_sub c 1))))
                        (fun _ => ret (ok (JObj [("liked", JBool false)]))))).
        keeps_table. }
      rewrite Hrest. apply await_inv in Edel. destruct Edel as [H | H].
      * left. congruence.
      * right. right. exists l. unfold delete_likes, execute in H.
        injection H as Hd. rewrite <- Hd, Hdb. reflexivity.
    + apply await_inv in Edel. destruct Edel as [H | H].
      * left. congruence.
      * unfold delete_likes, execute in H. inversion H.
  - apply bind_inv in E. destruct E as [[row [s2 [Eins E]]] | [e [Eins _]]].
    + assert (Hrest : likes (db s') = likes (db s2)).
      { revert E. generalize s2 r0 s'.
        match goal with
        | |- forall s2 r0 s', ?m s2 = (r0, s') -> _ =>
            change (effect likes_same m)
        end.
        keeps_table. }
      rewrite Hrest. apply await_inv in Eins. destruct Eins as [H | H].
      * left. congruence.
      * right. left. exists me. split; [exact Efound |].
        unfold insert_like in H. rewrite Hdb in H.
        destruct (negb (user_exists me (db s))); [inversion H; congruence |].
        destruct (negb (video_exists vid (db s))); [inversion H; congruence |].
        cbn [fresh] in H. injection H as Hrow Hd. rewrite <- Hd. reflexivity.
    + left. apply await_inv in Eins. destruct Eins as [H | H]; [congruence |].
      unfold insert_like in H. rewrite Hdb in H.
      destruct (negb (user_exists me (db s))); [inversion H; congruence |].
      destruct (negb (video_exists vid (db s))); [inversion H; congruence |].
      cbn [fresh] in H. inversion H.
Qed.

Lemma serve_db r d :
  exists x s', route (req_call r) (mkStore d (req_session r) (req_fault r)) = (x, s')
               /\ snd (serve r d) = db s'.
Proof.
  unfold serve.
  destruct (route (req_call r) (mkStore d (req_session r) (req_fault r)))
    as [[a | e] s'] eqn:E; eexists; eexists; split; reflexivity.
Qed.

Lemma NoDup_map_filter {Row Key : Type} (key : Row -> Key) (keep : Row -> bool)
    (rows : list Row) :
  NoDup (map key rows) -> NoDup (map key (filter keep rows)).
Proof.
  intros Hrows. induction rows as [| x rows IH]; simpl; [constructor |].
  simpl in Hrows. inversion Hrows as [| ? ? Hx Hrest]; subst.
  destruct (keep x); simpl; [| apply IH; exact Hrest].
  constructor; [| apply IH; exact Hrest].
  intros Hin. apply Hx. apply in_map_iff in Hin. destruct Hin as [y [Ey Hy]].
  apply filter_In in Hy. rewrite <- Ey. apply in_map. apply Hy.
Qed.

Lemma serve_one_like r d :
  one_like_per_pair d -> one_like_per_pair (snd (serve r d)).
Proof.
  intros Hd. destruct (serve_db r d) as [x [s' [E ->]]].
  destruct r as [se c f]. cbn [req_call req_session req_fault] in E.
  assert (Hother : (forall v, c <> PostLike v) -> one_like_per_pair (db s')).
  { intros Hc. unfold one_like_per_pair.
    rewrite (others_keep_likes c Hc _ _ _ E). exact Hd. }
  destruct c; try (apply Hother; discriminate).
  apply post_like_likes in E. cbn [db] in E. unfold one_like_per_pair.
  destruct E as [-> | [[me [Hnone ->]] | [l ->]]].
  - exact Hd.
  - rewrite map_app. apply NoDup_snoc; [exact Hd |].
    cbn [map like_pair Like.userId Like.videoId]. intros Hin.
    apply in_map_iff in Hin. destruct Hin as [y [Ey Hy]].
    unfold like_of in Hnone.
    apply (find_none _ _ Hnone) in Hy. unfold like_pair in Ey.
    inversion Ey as [[E1 E2]]. rewrite E1, E2, !Nat.eqb_refl in Hy. discriminate.
  - apply NoDup_map_filter. exact Hd.
Qed.

(** X21: a user never has two likes on the same video.  The schema has no
    unique constraint for it; the handler's lookup before the insertion
    keeps it, for any sequence of requests served one after another and any
    storage failure. *)
Theorem likes_stay_unique :
  forall (rs : list Request) (d : Db),
    one_like_per_pair d -> one_like_per_pair (serve_all rs d).
Proof.
  induction rs as [| r rs IH]; intros d Hd; simpl; [exact Hd |].
  apply IH. apply serve_one_like. exact Hd.
Qed.

Lemma likes_stay_unique_witness :
  one_like_per_pair
    (serve_all [like_request viewer_session 2%nat;
                like_request creator_session 2%nat;
                like_request viewer_session 2%nat]
               small_site).
Proof. apply likes_stay_unique. constructor. Defined.

(** ** Follows stay sound *)

#[export] Instance follows_same_order : Order follows_same.
Proof. split; unfold follows_same; intros; congruence. Qed.

Lemma others_keep_follows (c : Call) :
  (forall u, c <> PostFollow u) -> (forall u, c <> DeleteFollow u) ->
  effect follows_same (route c).
Proof.
  intros Hc Hc'. destruct c; cbn [route];
    try (exfalso; eapply Hc; reflexivity);
    try (exfalso; eapply Hc'; reflexivity).
  - unfold post_register. keeps_table.
  - unfold post_login. keeps_table.
  - unfold get_me. keeps_table.
  - unfold post_logout. keeps_table.
  - unfold get_feed. keeps_table.
  - unfold get_trending. keeps_table.
  - unfold post_upload. keeps_table.
  - unfold post_like. keeps_table.
  - unfold get_comments. keeps_table.
  - unfold post_comment. keeps_table.
  - unfold get_my_videos. keeps_table.
  - unfold get_my_stats. keeps_table.
  - unfold get_earnings_stats. keeps_table.
  - unfold get_user. keeps_table.
  - unfold get_user_videos. keeps_table.
  - unfold get_notifications. keeps_table.
  - unfold post_read_all. keeps_table.
  - unfold get_withdrawals. keeps_table.
  - unfold post_withdrawals. keeps_table.
Qed.

Lemma post_follow_follows uid s r s' :
  route (PostFollow uid) s = (r, s') ->
  follows (db s') = follows (db s)
  \/ (exists me, uid <> me /\ follow_of me uid (db s) = None
                 /\ follows (db s')
                    = (follows (db s) ++ [Follow.mk (next_id (db s)) me uid])%list).
Proof.
  cbn [route]. unfold post_follow. intros E.
  apply requireAuth_inv in E. destruct E as [[_ ->] | [me [_ E]]]; [left; reflexivity |].
  apply try_catch_inv in E. destruct E as [r0 E].
  destruct (Nat.eqb uid me) eqn:Eself; [left; inversion E; reflexivity |].
  apply Nat.eqb_neq in Eself.
  apply bind_inv in E. destruct E as [[found [s1 [Esel E]]] | [e [Esel _]]].
  2:{ left. apply await_inv in Esel. destruct Esel as [H | H];
        [rewrite H; reflexivity | inversion H]. }
  apply select_inv in Esel. destruct Esel as [-> [Hdb _]].
  destruct (follow_of me uid (db s)) as [f |] eqn:Efound;
    [left; inversion E; subst; congruence |].
  apply bind_inv in E. destruct E as [[row [s2 [Eins E]]] | [e [Eins _]]].
  - assert (Hrest : follows (db s') = follows (db s2)).
    { revert E. generalize s2 r0 s'.
      match goal with
      | |- forall s2 r0 s', ?m s2 = (r0, s') -> _ =>
          change (effect follows_same m)
      end.
      keeps_table. }
    rewrite Hrest. apply await_inv in Eins. destruct Eins as [H | H].
    + left. congruence.
    + right. exists me. split; [exact Eself | split; [exact Efound |]].
      unfold insert_follow in H. rewrite Hdb in H.
      destruct (negb (user_exists me (db s))); [inversion H; congruence |].
      destruct (negb (user_exists uid (db s))); [inversion H; congruence |].
      cbn [fresh] in H. injection H as Hrow Hd. rewrite <- Hd. reflexivity.
  - left. apply await_inv in Eins. destruct Eins as [H | H]; [congruence |].
    unfold insert_follow in H. rewrite Hdb in H.
    destruct (negb (user_exists me (db s))); [inversion H; congruence |].
    destruct (negb (user_exists uid (db s))); [inversion H; congruence |].
    cbn [fresh] in H. inversion H.
Qed.

Lemma delete_follow_follows uid s r s' :
  route (DeleteFollow uid) s = (r, s') ->
  follows (db s') = follows (db s)
  \/ (exists f, follows (db s')
                = filter (fun x => negb (Nat.eqb (Follow.id x) (Follow.id f)))
                         (follows (db s))).
Proof.
  cbn [route]. unfold delete_follow. intros E.
  apply requireAuth_inv in E. destruct E as [[_ ->] | [me [_ E]]]; [left; reflexivity |].
  apply try_catch_inv in E. destruct E as [r0 E].
  apply bind_inv in E. destruct E as [[found [s1 [Esel E]]] | [e [Esel _]]].
  2:{ left. apply await_inv in Esel. destruct Esel as [H | H];
        [rewrite H; reflexivity | inversion H]. }
  apply select_inv in Esel. destruct Esel as [-> [Hdb _]].
  destruct (follow_of me uid (db s)) as [f |] eqn:Efound;
    [| left; inversion E; subst; congruence].
  apply bind_inv in E. destruct E as [[[] [s2 [Edel E]]] | [e [Edel _]]].
  - assert (Hrest : follows (db s') = follows (db s2)).
    { revert E. generalize s2 r0 s'.
      match goal with
      | |- forall s2 r0 s', ?m s2 = (r0, s') -> _ =>
          change (effect follows_same m)
      end.
      keeps_table. }
    rewrite Hrest. apply await_inv in Edel. destruct Edel as [H | H].
    + left. congruence.
    + right. exists f. unfold delete_follows, execute in H.
      injection H as Hd. rewrite <- Hd, Hdb. reflexivity.
  - apply await_inv in Edel. destruct Edel as [H | H].
    + left. congruence.
    + unfold delete_follows, execute in H. inversion H.
Qed.

Lemma serve_follows_sound r d :
  follows_sound d -> follows_sound (snd (serve r d)).
Proof.
  intros [Hnd Hself]. destruct (serve_db r d) as [x [s' [E ->]]].
  destruct r as [se c f]. cbn [req_call req_session req_fault] in E.
  assert (Hother : (forall u, c <> PostFollow u) -> (forall u, c <> DeleteFollow u) ->
                   follows_sound (db s')).
  { intros Hc Hc'. unfold follows_sound.
    rewrite (others_keep_follows c Hc Hc' _ _ _ E). split; assumption. }
  destruct c; try (apply Hother; discriminate); unfold follows_sound.
  - apply post_follow_follows in E. cbn [db] in E.
    destruct E as [-> | [me [Hne [Hnone ->]]]]; [split; assumption |]. split.
    + rewrite map_app. apply NoDup_snoc; [exact Hnd |].
      cbn [map follow_pair Follow.followerId Follow.followingId]. intros Hin.
      apply in_map_iff in Hin. destruct Hin as [y [Ey Hy]].
      unfold follow_of in Hnone.
      apply (find_none _ _ Hnone) in Hy. unfold follow_pair in Ey.
      inversion Ey as [[E1 E2]]. rewrite E1, E2, !Nat.eqb_refl in Hy. discriminate.
    + apply Forall_app. split; [exact Hself |].
      constructor; [cbn; congruence | constructor].
  - apply delete_follow_follows in E. cbn [db] in E.
    destruct E as [-> | [f' ->]]; [split; assumption |]. split.
    + apply NoDup_map_filter. exact Hnd.
    + apply Forall_filter. exact Hself.
Qed.

(** X22: nobody follows themselves and no pair is followed twice.  The
    schema has no constraint for either; the handler's self-check and its
    lookup before the insertion keep both, for any sequence of requests
    served one after another and any storage failure. *)
Theorem follows_stay_sound :
  forall (rs : list Request) (d : Db),
    follows_sound d -> follows_sound (serve_all rs d).
Proof.
  induction rs as [| r rs IH]; intros d Hd; simpl; [exact Hd |].
  apply IH. apply serve_follows_sound. exact Hd.
Qed.

Lemma follows_stay_sound_witness :
  follows_sound
    (serve_all [follow_request viewer_session 0%nat;
                follow_request viewer_session 0%nat;
                follow_request viewer_session 1%nat]
               small_site).
Proof. apply follows_stay_sound. split; constructor. Defined.

(** ** Like counters and like rows *)

#[export] Instance keeps_like_keys_order : Order keeps_like_keys.
Proof.
  split.
  - intros d Hd. exact Hd.
  - intros a b c Hab Hbc Ha. auto.
Qed.

Lemma like_bounds_S (n : Id) (l : list Like.t) :
  Forall (fun x => (Like.id x < n)%nat /\ (Like.videoId x < n)%nat) l ->
  Forall (fun x => (Like.id x < S n)%nat /\ (Like.videoId x < S n)%nat) l.
Proof. intros Hl. eapply Forall_impl; [| exact Hl]. simpl. intros; lia. Qed.

Lemma video_exists_bound (i n : Id) (d : Db) :
  Forall (fun v => (Video.id v < n)%nat) (videos d) ->
  video_exists i d = true -> (i < n)%nat.
Proof.
  intros Hv He. unfold video_exists in He. apply existsb_exists in He.
  destruct He as [v [Hin Hid]]. apply Nat.eqb_eq in Hid.
  rewrite Forall_forall in Hv. specialize (Hv v Hin). lia.
Qed.

#[export] Instance keeps_like_keys_writes : Writes keeps_like_keys.
Proof.
  split; intros; run_stmt; unfold keeps_like_keys, like_keys;
    cbn [likes videos next_id with_users with_videos with_likes with_comments
         with_follows with_withdrawals with_notifications];
    intros [Hnd [Hl Hv]]; try (repeat split; assumption);
    try (split; [exact Hnd | split; [apply like_bounds_S | apply Forall_lt_S]; assumption]);
    try (split; [apply NoDup_map_filter; exact Hnd
                | split; [apply Forall_filter; exact Hl | exact Hv]]);
    try (split; [exact Hnd | split; [exact Hl |]];
         apply Forall_update; [intros x Hx; exact Hx | exact Hv]).
  - split; [exact Hnd | split; [apply like_bounds_S; exact Hl |]].
    apply Forall_app. split; [apply Forall_lt_S; exact Hv |].
    constructor; [cbn; lia | constructor].
  - assert (Hvid : (v < next_id d)%nat).
    { apply (video_exists_bound v _ d Hv).
      destruct (video_exists v d); [reflexivity | discriminate]. }
    split; [| split; [| apply Forall_lt_S; exact Hv]].
    + rewrite map_app. apply NoDup_snoc; [exact Hnd |].
      cbn [map Like.id]. intros Hin. apply in_map_iff in Hin.
      destruct Hin as [y [Ey Hy]]. rewrite Forall_forall in Hl.
      specialize (Hl y Hy). lia.
    + apply Forall_app. split; [apply like_bounds_S; exact Hl |].
      constructor; [cbn; lia | constructor].
Qed.

#[export] Instance like_ledger_same_order : Order like_ledger_same.
Proof.
  split; unfold like_ledger_same.
  - intros d. split; reflexivity.
  - intros a b c [H1 H2] [H3 H4]. split; congruence.
Qed.

Ltac keeps_ledger :=
  cbv zeta; unfold internal_error;
  repeat first
    [ respects_step
    | match goal with
      | |- stmt_effect _ _ =>
          run_stmt; split;
          first [ reflexivity
                | cbn [videos with_videos]; rewrite map_map; apply map_ext;
                  intros ?v; destruct (Nat.eqb _ _); reflexivity ]
      end ].

Lemma others_keep_like_ledger (c : Call) :
  (forall v, c <> PostLike v) ->
  (forall f ca h du w he, c <> PostUpload f ca h du w he) ->
  effect like_ledger_same (route c).
Proof.
  intros Hc Hc'. destruct c; cbn [route];
    try (exfalso; eapply Hc; reflexivity);
    try (exfalso; eapply Hc'; reflexivity).
  - unfold post_register. keeps_ledger.
  - unfold post_login. keeps_ledger.
  - unfold get_me. keeps_ledger.
  - unfold post_logout. keeps_ledger.
  - unfold get_feed. keeps_ledger.
  - unfold get_trending. keeps_ledger.
  - unfold get_comments. keeps_ledger.
  - unfold post_comment. keeps_ledger.
  - unfold get_my_videos. keeps_ledger.
  - unfold get_my_stats. keeps_ledger.
  - unfold get_earnings_stats. keeps_ledger.
  - unfold get_user. keeps_ledger.
  - unfold get_user_videos. keeps_ledger.
  - unfold post_follow. keeps_ledger.
  - unfold delete_follow. keeps_ledger.
  - unfold get_notifications. keeps_ledger.
  - unfold post_read_all. keeps_ledger.
  - unfold get_withdrawals. keeps_ledger.
  - unfold post_withdrawals. keeps_ledger.
Qed.

Lemma post_upload_ledger file ca h du w he s r s' :
  route (PostUpload file ca h du w he) s = (r, s') ->
  likes (db s') = likes (db s)
  /\ (videos (db s') = videos (db s)
      \/ exists row,
           Video.id row = next_id (db s) /\ Video.likeCount row = Some 0
           /\ videos (db s') = (videos (db s) ++ [row])%list).
Proof.
  destruct s as [d se f]. cbn [route db]. unfold post_upload, requireAuth.
  rewrite bind_get_session. cbn [session].
  destruct (Session.userId se) as [me |];
    [| intros E; inversion E; subst; cbn [db]; auto].
  unfold try_catch.
  destruct file as [filename |];
    [| intros E; inversion E; subst; cbn [db]; auto].
  cbv zeta. unfold bind. rewrite await_eq.
  destruct (fails_now f); [intros E; inversion E; subst; cbn [db]; auto |].
  unfold insert_video.
  destruct (negb (user_exists me d));
    [intros E; inversion E; subst; cbn [db]; auto |].
  cbn [fresh fst snd]. unfold ret. intros E. inversion E; subst.
  cbn [db likes videos with_videos].
  split; [reflexivity |]. right. eexists.
  split; [| split]; [ | | reflexivity]; reflexivity.
Qed.

Lemma post_like_ledger vid d se r s' :
  route (PostLike vid) (mkStore d se None) = (r, s') ->
  (likes (db s') = likes d /\ videos (db s') = videos d)
  \/ (exists me,
        video_exists vid d = true
        /\ likes (db s') = (likes d ++ [Like.mk (next_id d) me vid])%list
        /\ map like_entry (videos (db s'))
           = map like_entry
               (map (fun v => if Nat.eqb (Video.id v) vid
                              then Video.set_likeCount (fun c => sql_add c 1) v else v)
                    (videos d)))
  \/ (exists l,
        In l (likes d) /\ Like.videoId l = vid
        /\ likes (db s')
           = filter (fun x => negb (Nat.eqb (Like.id x) (Like.id l))) (likes d)
        /\ videos (db s')
           = map (fun v => if Nat.eqb (Video.id v) vid
                           then Video.set_likeCount (fun c => sql_sub c 1) v else v)
                 (videos d)).
Proof.
  cbn [route]. unfold post_like, requireAuth.
  rewrite bind_get_session. cbn [session].
  destruct (Session.userId se) as [me |];
    [| intros E; inversion E; subst; cbn [db]; auto].
  unfold try_catch. rewrite bind_select.
  destruct (find _ (likes d)) as [l |] eqn:Efound.
  - rewrite bind_await. unfold delete_likes, execute.
    rewrite bind_await. unfold update_videos, execute.
    cbv beta iota delta [ret].
    intros E. inversion E; subst. right. right. exists l.
    apply find_some in Efound. destruct Efound as [Hin Hl].
    apply andb_true_iff in Hl. destruct Hl as [_ Hl]. apply Nat.eqb_eq in Hl.
    cbn [db likes videos with_videos with_likes]. auto.
  - rewrite bind_await. unfold insert_like.
    destruct (user_exists me d); cbn [negb];
      [| intros E; inversion E; subst; cbn [db]; auto].
    destruct (video_exists vid d) eqn:Evid; cbn [negb];
      [| intros E; inversion E; subst; cbn [db]; auto].
    cbn [fresh]. rewrite bind_await. unfold update_videos, execute.
    match goal with
    | |- match ?m ?X with _ => _ end = _ -> _ =>
        assert (Hm : effect like_ledger_same m) by keeps_ledger;
        destruct (m X) as [[a | e] s1] eqn:Em; apply Hm in Em
    end.
    + intros E. inversion E; subst. right. left. exists me.
      destruct Em as [Hl Hv]. cbn [db likes videos with_videos with_likes] in Hl, Hv.
      auto.
    + intros E. inversion E; subst. right. left. exists me.
      destruct Em as [Hl Hv]. cbn [db likes videos with_videos with_likes] in Hl, Hv.
      auto.
Qed.

Lemma like_counts_entries (d : Db) :
  like_counts_match d
  <-> Forall (fun e => snd e
                       = Some (Z.of_nat
                                 (List.length
                                    (filter (fun l => Nat.eqb (Like.videoId l) (fst e))
                                            (likes d)))))
             (map like_entry (videos d)).
Proof. unfold like_counts_match, likes_on. rewrite Forall_map. reflexivity. Qed.

Lemma like_ledger_same_counts d d' :
  like_ledger_same d d' -> like_counts_match d -> like_counts_match d'.
Proof.
  intros [Hl Hv] Hd. apply like_counts_entries. apply like_counts_entries in Hd.
  rewrite Hl, Hv. exact Hd.
Qed.

Lemma no_like_on_fresh (n : Id) (l : list Like.t) :
  Forall (fun x => (Like.id x < n)%nat /\ (Like.videoId x < n)%nat) l ->
  filter (fun x => Nat.eqb (Like.videoId x) n) l = [].
Proof.
  intros Hl. induction Hl as [| x l [_ Hx] Hl IH]; simpl; [reflexivity |].
  assert (E : Nat.eqb (Like.videoId x) n = false) by (apply Nat.eqb_neq; lia).
  rewrite E. exact IH.
Qed.

Lemma filter_absent_id (i : Id) (l : list Like.t) :
  ~ In i (map Like.id l) ->
  filter (fun x => negb (Nat.eqb (Like.id x) i)) l = l.
Proof.
  induction l as [| x l IH]; simpl; intros Hi; [reflexivity |].
  assert (E : Nat.eqb (Like.id x) i = false) by (apply Nat.eqb_neq; tauto).
  rewrite E. simpl. f_equal. apply IH. tauto.
Qed.

Lemma count_without (p : Like.t -> bool) (l : Like.t) (rows : list Like.t) :
  NoDup (map Like.id rows) -> In l rows ->
  List.length (filter p rows)
  = (List.length
       (filter p (filter (fun x => negb (Nat.eqb (Like.id x) (Like.id l))) rows))
     + (if p l then 1 else 0))%nat.
Proof.
  induction rows as [| x rows IH]; simpl; intros Hnd Hin; [contradiction |].
  inversion Hnd as [| ? ? Hx Hrows]; subst. destruct Hin as [-> | Hin].
  - rewrite Nat.eqb_refl. simpl. rewrite (filter_absent_id _ _ Hx).
    destruct (p l); simpl; lia.
  - assert (E : Nat.eqb (Like.id x) (Like.id l) = false).
    { apply Nat.eqb_neq. intros Heq. apply Hx. rewrite Heq. apply in_map. exact Hin. }
    rewrite E. simpl. specialize (IH Hrows Hin).
    destruct (p x); simpl; lia.
Qed.

Lemma serve_like_counts r d :
  req_fault r = None -> like_keys d -> like_counts_match d ->
  like_counts_match (snd (serve r d)).
Proof.
  intros Hf [Hnd [Hl Hv]] Hd. destruct (serve_db r d) as [x [s' [E ->]]].
  destruct r as [se c f]. cbn [req_call req_session req_fault] in E, Hf. subst f.
  assert (Hother : (forall v, c <> PostLike v) ->
                   (forall f ca h du w he, c <> PostUpload f ca h du w he) ->
                   like_counts_match (db s')).
  { intros Hc Hc'. apply (like_ledger_same_counts d); [| exact Hd].
    exact (others_keep_like_ledger c Hc Hc' _ _ _ E). }
  destruct c; try (apply Hother; discriminate).
  - apply post_upload_ledger in E. cbn [db] in E.
    destruct E as [El [Ev | [row [Hid [Hcount Ev]]]]].
    + unfold like_counts_match, likes_on in *. rewrite El, Ev. exact Hd.
    + unfold like_counts_match, likes_on in *. rewrite El, Ev.
      apply Forall_app. split; [exact Hd |]. constructor; [| constructor].
      rewrite Hid, Hcount, (no_like_on_fresh _ _ Hl). reflexivity.
  - apply post_like_ledger in E.
    destruct E as [[El Ev] | [[me [Hvid [El Ev]]] | [l [Hin [Hlv [El Ev]]]]]].
    + unfold like_counts_match, likes_on in *. rewrite El, Ev. exact Hd.
    + apply like_counts_entries. rewrite El, Ev, !Forall_map.
      eapply Forall_impl; [| exact Hd]. cbn beta. intros v Hc.
      unfold likes_on in Hc. rewrite filter_app, length_app.
      cbn [filter Like.videoId].
      destruct (Nat.eqb (Video.id v) videoId) eqn:Eid.
      * cbn [like_entry Video.set_likeCount Video.id Video.likeCount fst snd].
        rewrite Hc. apply Nat.eqb_eq in Eid. rewrite Eid, Nat.eqb_refl.
        cbn [sql_add List.length]. f_equal. lia.
      * cbn [like_entry fst snd]. rewrite Hc, Nat.eqb_sym, Eid.
        cbn [List.length]. f_equal. lia.
    + unfold like_counts_match, likes_on. rewrite El, Ev, Forall_map.
      eapply Forall_impl; [| exact Hd]. cbn beta. intros v Hc.
      unfold likes_on in Hc.
      rewrite (count_without (fun x => Nat.eqb (Like.videoId x) (Video.id v)) l
                 _ Hnd Hin) in Hc.
      rewrite Hlv in Hc.
      destruct (Nat.eqb (Video.id v) videoId) eqn:Eid.
      * cbn [Video.set_likeCount Video.id Video.likeCount].
        rewrite Hc. apply Nat.eqb_eq in Eid. rewrite Eid, Nat.eqb_refl.
        cbn [sql_sub]. f_equal. lia.
      * rewrite Nat.eqb_sym, Eid in Hc. rewrite Hc. f_equal. lia.
Qed.

(** X23: with the storage layer up, every video's [likeCount] stays equal
    to the number of its like rows, whatever requests are served one after
    another: each like and each taking back changes the rows and the counter
    together, an upload starts at zero, and no other route touches either.
    It is stated for databases whose like rows have distinct identifiers and
    whose identifiers were all generated earlier, which every request
    keeps. *)
Theorem like_counts_match_rows :
  forall (rs : list Request) (d : Db),
    storage_up rs -> like_keys d -> like_counts_match d ->
    like_counts_match (serve_all rs d).
Proof.
  induction rs as [| r rs IH]; intros d Hup Hk Hd; simpl; [exact Hd |].
  inversion Hup as [| ? ? Hr Hrs]; subst. apply IH.
  - exact Hrs.
  - exact (serve_respects keeps_like_keys r d Hk).
  - apply serve_like_counts; assumption.
Qed.

Lemma like_counts_match_rows_witness :
  like_counts_match
    (serve_all [like_request viewer_session 2%nat;
                like_request creator_session 2%nat;
                upload_request creator_session (Some "b.mp4") None None None None None;
                like_request viewer_session 2%nat;
                like_request viewer_session 3%nat]
               small_site).
Proof.
  apply like_counts_match_rows.
  - repeat constructor.
  - split; [constructor | split; [constructor |]].
    constructor; [cbn; lia | constructor].
  - constructor; [reflexivity | constructor].
Defined.

Lemma count_differs (n : nat) : Some (Z.of_nat n) <> Some (Z.of_nat (n + 1)).
Proof. intros E. inversion E. lia. Qed.

(** X24: the counter and the rows are written by separate statements.  When
    the storage layer fails at the counter update of a like, the request is
    answered 500 with the like row stored and [likeCount] as it was, so the
    counter no longer equals the number of rows. *)
Theorem failed_like_leaves_count_short :
  forall (s : Session.t) (me vid : Id) (v : Video.t) (d : Db),
    Session.userId s = Some me ->
    like_of me vid d = None ->
    user_exists me d = true ->
    video_by_id vid d = Some v ->
    like_counts_match d ->
    serve (like_request_cut s vid) d
    = (respond 500 storage_failure,
       with_likes (fun l => l ++ [Like.mk (next_id d) me vid])%list (snd (fresh d)))
    /\ ~ like_counts_match (snd (serve (like_request_cut s vid) d)).
Proof.
  intros s me vid v d Hs Hl Hme Hv Hd.
  assert (E : serve (like_request_cut s vid) d
              = (respond 500 storage_failure,
                 with_likes (fun l => l ++ [Like.mk (next_id d) me vid])%list
                   (snd (fresh d)))).
  { rewrite serve_route. unfold like_request_cut.
    cbn [req_call req_session req_fault route]. unfold post_like, requireAuth.
    rewrite bind_get_session. cbn [session]. rewrite Hs.
    unfold try_catch, bind. rewrite !await_eq. cbn [fails_now tick select fst snd].
    unfold like_of in Hl. rewrite Hl. rewrite !await_eq.
    cbn [fails_now tick]. unfold insert_like.
    rewrite Hme, (video_by_id_exists _ _ _ Hv). cbn [negb fresh fst snd].
    rewrite !await_eq. cbn [fails_now]. reflexivity. }
  split; [exact E |]. rewrite E. cbn [snd].
  unfold like_counts_match, likes_on. cbn [videos likes with_likes fresh snd].
  intros Hbad. unfold video_by_id in Hv. apply find_some in Hv.
  destruct Hv as [Hin Hid]. apply Nat.eqb_eq in Hid.
  rewrite Forall_forall in Hbad. specialize (Hbad v Hin).
  unfold like_counts_match, likes_on in Hd. rewrite Forall_forall in Hd.
  specialize (Hd v Hin). rewrite Hd in Hbad.
  rewrite filter_app, length_app in Hbad. cbn [filter Like.videoId] in Hbad.
  rewrite Hid, Nat.eqb_refl in Hbad. cbn [List.length] in Hbad.
  exact (count_differs _ Hbad).
Qed.

Lemma failed_like_leaves_count_short_witness :
  serve (like_request_cut viewer_session 2%nat) small_site
  = (respond 500 storage_failure,
     with_likes (fun l => l ++ [Like.mk 3%nat 1%nat 2%nat])%list (snd (fresh small_site)))
  /\ ~ like_counts_match (snd (serve (like_request_cut viewer_session 2%nat) small_site)).
Proof.
  apply (failed_like_leaves_count_short viewer_session 1%nat 2%nat clip small_site);
    try reflexivity.
  constructor; [reflexivity | constructor].
Defined.

(** ** Accounts stay, sessions end *)

Lemma find_same_core (p : User.t -> bool) (l l' : list User.t)
    (extra : list (Id * string * string * string
                   * option bool * option bool * option bool)) (u : User.t) :
  (forall x y, account_core x = account_core y -> p x = p y) ->
  map account_core l' = (map account_core l ++ extra)%list ->
  find p l = Some u ->
  exists u', find p l' = Some u' /\ account_core u' = account_core u.
Proof.
  intros Hp. revert l'. induction l as [| x l IH]; intros l' Hmap Hfind;
    [discriminate |].
  destruct l' as [| x' l']; [discriminate |].
  cbn [map app] in Hmap.
  assert (Hx : account_core x' = account_core x) by congruence.
  assert (Hrest : map account_core l' = (map account_core l ++ extra)%list)
    by congruence.
  cbn [find] in *. rewrite (Hp x' x Hx).
  destruct (p x).
  - injection Hfind as <-. exists x'. auto.
  - apply IH; assumption.
Qed.

(** X25: a login that succeeds keeps succeeding.  No route changes a
    password or bans an account, and none deletes one: if an email and a
    password log in now, then after any sequence of requests, under any
    storage failures, they still log in, as the same account. *)
Theorem logins_keep_working :
  forall (rs : list Request) (s s' : Session.t) (e p : string) (d : Db),
    status (fst (serve (login_request s e p) d)) = 200 ->
    status (fst (serve (login_request s' e p) (serve_all rs d))) = 200
    /\ Session.userId (session_after (login_request s' e p) (serve_all rs d))
       = Session.userId (session_after (login_request s e p) d).
Proof.
  intros rs s s' e p d. unfold session_after, login_request.
  rewrite !serve_route. cbn [req_call req_session req_fault].
  rewrite !login_run.
  destruct (find _ (users d)) as [u |] eqn:Efind; [| discriminate].
  destruct (serve_all_respects accounts_grow rs d) as [extra [Hmap _]].
  destruct (find_same_core
              (fun x => String.eqb (User.email x) (toLowerCase e))
              (users d) (users (serve_all rs d)) extra u) as [u' [Efind' Hcore]];
    [| exact Hmap | exact Efind |].
  { intros x y Hxy. unfold account_core in Hxy. congruence. }
  rewrite Efind'. unfold account_core in Hcore.
  assert (Hb : User.isBanned u' = User.isBanned u) by congruence.
  assert (Hpw : User.password u' = User.password u) by congruence.
  assert (Hid : User.id u' = User.id u) by congruence.
  rewrite Hb, Hpw, Hid.
  destruct (is_true (User.isBanned u)); [discriminate |].
  destruct (bcrypt_compare p (User.password u)); [| discriminate].
  intros _. split; reflexivity.
Qed.

Lemma logins_keep_working_witness :
  status (fst (serve (login_request (Session.mk "sid2" None) "Creator@Example.com"
                        "hunter2")
                     (serve_all [follow_request viewer_session 0%nat;
                                 logout_request creator_session None;
                                 like_request_cut viewer_session 2%nat]
                                small_site)))
  = 200.
Proof.
  apply (logins_keep_working _ (Session.mk "sid" None)). reflexivity.
Defined.

(** X26: a session never dangles.  A session logged in as an existing
    account still gets its account from GET /api/auth/me, with the same
    credentials and flags, after any sequence of requests under any storage
    failures: the answer is never 401 "User not found". *)
Theorem sessions_never_dangle :
  forall (rs : list Request) (s : Session.t) (me : Id) (u : User.t) (d : Db),
    Session.userId s = Some me ->
    user_by_id me d = Some u ->
    exists u',
      account_core u' = account_core u
      /\ serve (me_request s) (serve_all rs d)
         = (ok (JObj [("user", account_json u')]), serve_all rs d).
Proof.
  intros rs s me u d Hs Hu.
  destruct (serve_all_respects accounts_grow rs d) as [extra [Hmap _]].
  destruct (find_same_core (fun x => Nat.eqb (User.id x) me)
              (users d) (users (serve_all rs d)) extra u) as [u' [Efind' Hcore]];
    [| exact Hmap | exact Hu |].
  { intros x y Hxy. unfold account_core in Hxy. congruence. }
  exists u'. split; [exact Hcore |].
  exact (get_me_run s me _ u' Hs Efind').
Qed.

Lemma sessions_never_dangle_witness :
  exists u',
    account_core u' = account_core viewer
    /\ serve (me_request viewer_session)
             (serve_all [follow_request viewer_session 0%nat;
                         like_request_cut viewer_session 2%nat]
                        small_site)
       = (ok (JObj [("user", account_json u')]),
          serve_all [follow_request viewer_session 0%nat;
                     like_request_cut viewer_session 2%nat]
                    small_site).
Proof.
  apply (sessions_never_dangle _ viewer_session 1%nat viewer small_site);
    reflexivity.
Defined.

(** X27: POST /api/auth/logout needs no login and writes nothing.  With the
    session store up it is answered 200 "Logged out", and the session it
    leaves is refused by every route behind [requireAuth]; when destroying
    the session fails it is answered 500 "Logout failed" and the session
    stays as it was. *)
Theorem logout_ends_session :
  forall (s : Session.t) (d : Db) (c : Call) (f : option nat),
    protected c = true ->
    serve (logout_request s None) d = (ok (message_body "Logged out"), d)
    /\ serve (mkRequest (session_after (logout_request s None) d) c f) d
       = (respond 401 "Unauthorized", d)
    /\ serve (logout_request s (Some 0%nat)) d = (respond 500 "Logout failed", d)
    /\ session_after (logout_request s (Some 0%nat)) d = s.
Proof.
  intros s d c f Hp. split; [reflexivity | split; [| split]].
  - unfold serve. cbn [req_call req_session req_fault].
    destruct c; try discriminate Hp; cbn [route];
      unfold get_me, post_upload, post_like, post_comment, get_my_videos,
        get_my_stats, get_earnings_stats, post_follow, delete_follow,
        get_notifications, post_read_all, get_withdrawals, post_withdrawals;
      rewrite requireAuth_none by reflexivity; reflexivity.
  - reflexivity.
  - destruct s. reflexivity.
Qed.

Lemma logout_ends_session_witness :
  serve (mkRequest (session_after (logout_request creator_session None)
                      (one_creator (units 50)))
           (PostWithdrawals (Some (units 20)) (Some wallet) (Some "BEP20")) None)
        (one_creator (units 50))
  = (respond 401 "Unauthorized", one_creator (units 50)).
Proof.
  apply (logout_ends_session creator_session (one_creator (units 50))
           (PostWithdrawals (Some (units 20)) (Some wallet) (Some "BEP20")) None).
  reflexivity.
Defined.

(** ** A comment is what the video shows next *)






